(** * Koddi health check: a shallow embedding of the check orchestrator

    The development follows the two source files of the repository:
    [koddi_healthcheck.py] (the command-line front end) and [app.py] (the
    web front end).  Each Python function is a Rocq definition of the same
    name, inside a module named after its file.

    - JSON documents returned by [resp.json()] are values of [PyVal].
    - The [httpx.Client] is a record holding an arbitrary transport (a
      function of the calls made so far and of the current request) and the
      list of calls issued on it; a call appends to that list.
    - Python exceptions are values of [Exn]; code that may raise lives in
      the error monad [Res] (no I/O) or in [M] (I/O on the client).
    - The [rich] console is a parameter, [RichConsole]: what it writes is
      not kept, but printing a text may raise, and no handler of the
      command-line tool surrounds its printing. *)

From Stdlib Require Import String Ascii List ZArith Bool Lia.
From Stdlib Require Import DecimalString.
From Stdlib Require Import Floats.SpecFloat.
Import ListNotations.

Local Set Warnings "-register-all".
Open Scope string_scope.
Open Scope Z_scope.

(** ** Python values *)

(** What [json.loads] can produce.  A [dict] keeps its insertion order, so it
    is an association list; [get] reads the first binding of a key. *)
Inductive PyVal : Type :=
| PNone
| PBool (b : bool)
| PInt (z : Z)
| PFloat (f : spec_float)
| PStr (s : string)
| PList (items : list PyVal)
| PDict (items : list (string * PyVal)).

(** The parts of the Python runtime the source relies on but does not
    define: the text of a float, the [repr] of a string (quotes and
    escapes), and the message of the exception raised by slicing a [dict]
    (it differs between interpreter versions). *)
Class PyRuntime : Type := {
  float_repr : spec_float -> string;
  str_repr : string -> string;
  dict_slice_error : string
}.

(** The three exception classes the checks tell apart, each with the text of
    [str(exc)]: [httpx.TimeoutException], [httpx.ConnectError], and every
    other [Exception]. *)
Inductive Exn : Type :=
| TimeoutException (msg : string)
| ConnectError (msg : string)
| OtherException (msg : string).

(** Code that may raise and performs no I/O. *)
Definition Res (A : Type) : Type := (Exn + A)%type.

Definition res_bind {A B : Type} (m : Res A) (k : A -> Res B) : Res B :=
  match m with
  | inl e => inl e
  | inr a => k a
  end.

Notation "x <~ m ;; k" := (res_bind m (fun x => k))
  (at level 61, m at next level, right associativity).

Definition newline : string := String (ascii_of_nat 10) EmptyString.

Definition str_of_Z (z : Z) : string := NilZero.string_of_int (Z.to_int z).

(** [type(v).__name__] *)
Definition py_type_name (v : PyVal) : string :=
  match v with
  | PNone => "NoneType"
  | PBool _ => "bool"
  | PInt _ => "int"
  | PFloat _ => "float"
  | PStr _ => "str"
  | PList _ => "list"
  | PDict _ => "dict"
  end.

Fixpoint assoc (key : string) (kvs : list (string * PyVal)) : option PyVal :=
  match kvs with
  | [] => None
  | (k, v) :: rest => if String.eqb k key then Some v else assoc key rest
  end.

(** [d.get(key, default)]; on anything but a [dict] the attribute lookup
    raises [AttributeError]. *)
Definition py_get (d : PyVal) (key : string) (default : PyVal) : Res PyVal :=
  match d with
  | PDict kvs =>
      inr (match assoc key kvs with Some v => v | None => default end)
  | _ =>
      inl (OtherException
             ("'" ++ py_type_name d ++ "' object has no attribute 'get'"))
  end.

Definition float_is_zero (f : spec_float) : bool :=
  match f with
  | S754_zero _ => true
  | _ => false
  end.

(** Truth value of [v], as in [if v:]. *)
Definition py_truthy (v : PyVal) : bool :=
  match v with
  | PNone => false
  | PBool b => b
  | PInt z => negb (z =? 0)
  | PFloat f => negb (float_is_zero f)
  | PStr s => negb (String.eqb s "")
  | PList l => match l with [] => false | _ => true end
  | PDict l => match l with [] => false | _ => true end
  end.

(** [v == s] for a string literal [s]. *)
Definition py_eq_str (v : PyVal) (s : string) : bool :=
  match v with
  | PStr s' => String.eqb s' s
  | _ => false
  end.

(** [v == 0]: numbers compare by value and [False == 0]. *)
Definition py_eq_zero (v : PyVal) : bool :=
  match v with
  | PInt z => z =? 0
  | PBool b => negb b
  | PFloat f => float_is_zero f
  | _ => false
  end.

(** A Python [str] is a sequence of code points; here it is the UTF-8 text,
    cut before every byte that is not a continuation byte. *)
Definition is_continuation (a : ascii) : bool :=
  let n := nat_of_ascii a in (Nat.leb 128 n && Nat.ltb n 192)%bool.

Fixpoint utf8_split (s : string) : string * list string :=
  match s with
  | EmptyString => (EmptyString, [])
  | String a rest =>
      let '(pending, chars) := utf8_split rest in
      if is_continuation a then (String a pending, chars)
      else (EmptyString, String a pending :: chars)
  end.

Definition utf8_chars (s : string) : list string :=
  let '(pending, chars) := utf8_split s in
  match pending with
  | EmptyString => chars
  | _ => pending :: chars
  end.

(** [len(v)] *)
Definition py_len (v : PyVal) : Res Z :=
  match v with
  | PStr s => inr (Z.of_nat (length (utf8_chars s)))
  | PList l => inr (Z.of_nat (length l))
  | PDict l => inr (Z.of_nat (length l))
  | _ =>
      inl (OtherException
             ("object of type '" ++ py_type_name v ++ "' has no len()"))
  end.

(** The items a [for] loop over [v] visits. *)
Definition py_iter (v : PyVal) : Res (list PyVal) :=
  match v with
  | PList l => inr l
  | PStr s => inr (map PStr (utf8_chars s))
  | PDict l => inr (map (fun kv => PStr (fst kv)) l)
  | _ =>
      inl (OtherException
             ("'" ++ py_type_name v ++ "' object is not iterable"))
  end.

(** [v[:n]] *)
Definition py_slice_to `{PyRuntime} (n : nat) (v : PyVal) : Res PyVal :=
  match v with
  | PList l => inr (PList (firstn n l))
  | PStr s => inr (PStr (String.concat "" (firstn n (utf8_chars s))))
  | PDict _ => inl (OtherException dict_slice_error)
  | _ =>
      inl (OtherException
             ("'" ++ py_type_name v ++ "' object is not subscriptable"))
  end.

(** [repr(v)] and [str(v)], the latter being what an f-string inserts. *)
Fixpoint py_repr `{PyRuntime} (v : PyVal) : string :=
  match v with
  | PNone => "None"
  | PBool true => "True"
  | PBool false => "False"
  | PInt z => str_of_Z z
  | PFloat f => float_repr f
  | PStr s => str_repr s
  | PList l => "[" ++ String.concat ", " (map py_repr l) ++ "]"
  | PDict l =>
      "{" ++ String.concat ", "
               (map (fun kv => str_repr (fst kv) ++ ": " ++ py_repr (snd kv)) l)
          ++ "}"
  end.

Definition py_str `{PyRuntime} (v : PyVal) : string :=
  match v with
  | PStr s => s
  | _ => py_repr v
  end.

(** [xs.append(x)] *)
Definition list_append {A : Type} (xs : list A) (x : A) : list A :=
  (xs ++ [x])%list.

(** A [for] loop whose body may raise: [body item acc] is one iteration. *)
Fixpoint for_each {A S : Type} (items : list A) (body : A -> S -> Res S)
    (acc : S) : Res S :=
  match items with
  | [] => inr acc
  | x :: rest => acc' <~ body x acc ;; for_each rest body acc'
  end.

(** [s.rstrip("/")] *)
Fixpoint rstrip_slash (s : string) : string :=
  match s with
  | EmptyString => EmptyString
  | String a rest =>
      let r := rstrip_slash rest in
      if (Ascii.eqb a "/" && String.eqb r "")%bool then EmptyString
      else String a r
  end.

(** Whether [needle] occurs in [s]. *)
Fixpoint contains (needle s : string) : bool :=
  (String.prefix needle s ||
   match s with
   | EmptyString => false
   | String _ rest => contains needle rest
   end)%bool.

(** [len(s)] of a string. *)
Definition str_len (s : string) : Z := Z.of_nat (length (utf8_chars s)).

(** [s[:n]] of a string. *)
Definition str_slice_to (n : nat) (s : string) : string :=
  String.concat "" (firstn n (utf8_chars s)).

(** [s.split("\n")[0]] *)
Fixpoint first_line (s : string) : string :=
  match s with
  | EmptyString => EmptyString
  | String a rest =>
      if Ascii.eqb a (ascii_of_nat 10) then EmptyString
      else String a (first_line rest)
  end.

(** [sum(1 for x in xs if p(x))] *)
Definition count_ones {A : Type} (p : A -> bool) (xs : list A) : Z :=
  fold_left (fun total x => if p x then total + 1 else total) xs 0.

(** ** The HTTP client *)

Record Request : Type := {
  method : string;
  url : string;
  headers : list (string * PyVal);
  json_body : option PyVal
}.

(** [resp.status_code] and the outcome of [resp.json()]: a parsed document,
    or the message of the exception raised on a body that is not JSON. *)
Record Response : Type := {
  status_code : Z;
  json : string + PyVal
}.

(** What the network answers to a request, given the calls made before. *)
Definition Transport : Type := list Request -> Request -> Exn + Response.

Record Client : Type := {
  transport : Transport;
  calls : list Request
}.

Definition new_client (net : Transport) : Client :=
  {| transport := net; calls := [] |}.

(** The client after one more call. *)
Definition record_call (req : Request) (c : Client) : Client :=
  {| transport := transport c; calls := (calls c ++ [req])%list |}.

(** A transport that answers the n-th call with the n-th response of a
    fixed sequence, whatever is asked. *)
Definition scripted (script : nat -> Exn + Response) : Transport :=
  fun history _ => script (length history).

(** Code that may raise and may use the client. *)
Definition M (A : Type) : Type := Client -> Res A * Client.

Definition ret {A : Type} (a : A) : M A := fun c => (inr a, c).

Definition bind {A B : Type} (m : M A) (k : A -> M B) : M B :=
  fun c =>
    match m c with
    | (inl e, c') => (inl e, c')
    | (inr a, c') => k a c'
    end.

Definition lift {A : Type} (r : Res A) : M A := fun c => (r, c).

(** [try: body  except ...: handler] *)
Definition try_except {A : Type} (body : M A) (handler : Exn -> M A) : M A :=
  fun c =>
    match body c with
    | (inl e, c') => handler e c'
    | (inr a, c') => (inr a, c')
    end.

Notation "x <- m ;; k" := (bind m (fun x => k))
  (at level 61, m at next level, right associativity).
Notation "' pat <- m ;; k" := (bind m (fun x => match x with pat => k end))
  (at level 61, pat pattern, m at next level, right associativity).

Definition client_send (req : Request) : M Response :=
  fun c => (transport c (calls c) req, record_call req c).

(** [client.get(url, headers=headers)] *)
Definition client_get (url : string) (headers : list (string * PyVal))
    : M Response :=
  client_send {| method := "GET"; url := url; headers := headers;
                 json_body := None |}.

(** [client.post(url, headers=headers, json=json_body)] *)
Definition client_post (url : string) (headers : list (string * PyVal))
    (json_body : option PyVal) : M Response :=
  client_send {| method := "POST"; url := url; headers := headers;
                 json_body := json_body |}.

(** [resp.json()] *)
Definition resp_json (resp : Response) : Res PyVal :=
  match json resp with
  | inl msg => inl (OtherException msg)
  | inr v => inr v
  end.

(** ** Results *)

Inductive Status : Type := PASS | WARN | FAIL | SKIPPED.

Definition Status_eqb (a b : Status) : bool :=
  match a, b with
  | PASS, PASS | WARN, WARN | FAIL, FAIL | SKIPPED, SKIPPED => true
  | _, _ => false
  end.

(** [status.value] *)
Definition Status_value (s : Status) : string :=
  match s with
  | PASS => "pass"
  | WARN => "warn"
  | FAIL => "fail"
  | SKIPPED => "skipped"
  end.

Record CheckResult : Type := MkCheckResult {
  number : Z;
  name : string;
  status : Status;
  details : string;
  extra : list (string * PyVal)
}.

(** The dataclass constructor; [extra] defaults to an empty [dict]. *)
Definition check_result (number : Z) (name : string) (status : Status)
    (details : string) : CheckResult :=
  MkCheckResult number name status details [].

(** The arguments of a run, as both front ends receive them. *)
Record Args : Type := {
  email : string;
  password : string;
  member_group_id : Z;
  advertiser_id : Z;
  client_name : string;
  site_id : string;
  experience_name : option string;
  base_url : string;
  timeout : Z;
  use_json : bool
}.

Definition auth_dependent : list (Z * string) :=
  [ (2, "Advertiser Exists");
    (3, "Campaigns Report");
    (4, "Entity Registration Failures");
    (5, "Active Bidders Cache");
    (6, "Attributable Entities Cache") ].

(** [xs[i:j]] on a list *)
Definition list_slice {A : Type} (i j : nat) (xs : list A) : list A :=
  firstn (j - i) (skipn i xs).

Definition py_is_none (v : PyVal) : bool :=
  match v with
  | PNone => true
  | _ => false
  end.

(** What a run of the command-line tool leaves behind: the results, the JSON
    document printed with [--json-output], and the process exit code. *)
Record RunOutput : Type := {
  out_results : list CheckResult;
  out_json : option PyVal;
  exit_code : Z
}.

(** ** The console *)

(** [rich] is a library the source imports, not a part of it.  Its [Console]
    parses every [str] it renders as console markup, and raises
    [MarkupError] on a closing tag that matches no open tag.
    [markup_error text] is the message of that exception when rendering
    [text] raises, and [None] when it does not. *)
Class RichConsole : Type := {
  markup_error : string -> option string
}.

(** Rendering a [str]: what is written to the terminal is not kept, the
    exception is. *)
Definition console_render `{RichConsole} (text : string) : M unit :=
  fun c =>
    match markup_error text with
    | Some msg => (inl (OtherException msg), c)
    | None => (inr tt, c)
    end.

(** [console.print(text)] *)
Definition console_print `{RichConsole} (text : string) : M unit :=
  console_render text.

(** [console.print()]: an empty line, with nothing to parse. *)
Definition console_print_blank : M unit := ret tt.

(** [console.rule(title)] *)
Definition console_rule `{RichConsole} (title : string) : M unit :=
  console_render title.

(** A [for] loop in [M]: [body item acc] is one iteration. *)
Fixpoint for_each_m {A S : Type} (items : list A) (body : A -> S -> M S)
    (acc : S) : M S :=
  match items with
  | [] => ret acc
  | x :: rest => acc' <- body x acc ;; for_each_m rest body acc'
  end.

(** A cell of a [Table]: a [str], parsed as markup when the table is
    rendered, or a [Text], which is not parsed. *)
Inductive Cell : Type :=
| Str (s : string)
| Text (s : string).

(** A [Table]: its columns, each with its header and its cells. *)
Definition Table : Type := list (string * list Cell).

(** [table.add_column(header, ...)] *)
Definition add_column (header : string) (table : Table) : Table :=
  list_append table (header, []).

(** [table.add_row] with as many cells as columns: one more cell in each
    column. *)
Definition add_row (cells : list Cell) (table : Table) : Table :=
  map (fun '((header, column), cell) => (header, list_append column cell))
    (combine table cells).

(** [console.print(table)]: the columns are rendered one after the other,
    the header first, then the cells. *)
Definition console_print_table `{RichConsole} (table : Table) : M unit :=
  for_each_m table
    (fun '(header, column) _ =>
       _ <- console_render header ;;
       for_each_m column
         (fun cell _ =>
            match cell with
            | Str s => console_render s
            | Text _ => ret tt
            end)
         tt)
    tt.

(** ** koddi_healthcheck.py *)

Module koddi_healthcheck.
Section WithRuntime.
Context `{PyRuntime} `{RichConsole}.

Definition status_icon (status : Status) : string :=
  match status with
  | PASS => "[green]✅ PASS[/green]"
  | WARN => "[yellow]⚠️  WARN[/yellow]"
  | FAIL => "[red]❌ FAIL[/red]"
  | SKIPPED => "[dim]⏭️  SKIPPED[/dim]"
  end.

Definition status_plain (status : Status) : string :=
  match status with
  | PASS => "PASS"
  | WARN => "WARN"
  | FAIL => "FAIL"
  | SKIPPED => "SKIPPED"
  end.

Definition print_result (result : CheckResult) (use_json : bool) : M unit :=
  if use_json then ret tt
  else
    let icon := status_icon (status result) in
    _ <- console_print ("  " ++ icon ++ " — " ++ details result) ;;
    console_print_blank.

Definition print_check_header (number : Z) (name : string) (use_json : bool)
    : M unit :=
  if use_json then ret tt
  else
    console_print ("[bold]🔄 Running Check " ++ str_of_Z number ++ ": " ++ name ++ "...[/bold]").

Definition make_request (method url : string) (token : PyVal)
    (json_body : option PyVal) : M Response :=
  let headers := if py_truthy token then [("Authorization", token)] else [] in
  if String.eqb method "GET" then client_get url headers
  else client_post url headers json_body.

(** Check 1: Authentication *)
Definition check_auth (base_url email password : string) (member_group_id : Z)
    : M (CheckResult * PyVal) :=
  let name := "Authentication" in
  try_except
    (resp <- make_request "POST" (base_url ++ "/session/login") PNone
               (Some (PDict [ ("email", PStr email);
                              ("password", PStr password);
                              ("member_group_id", PInt member_group_id) ])) ;;
     lift (
       data <~ resp_json resp ;;
       st <~ py_get data "status" PNone ;;
       if py_eq_str st "success" then
         result <~ py_get data "result" (PDict []) ;;
         tok <~ py_get result "token" (PDict []) ;;
         token <~ py_get tok "id_token" PNone ;;
         if py_truthy token then
           inr (check_result 1 name PASS "Authenticated successfully", token)
         else
           inr (check_result 1 name FAIL "No id_token in response", PNone)
       else
         error_code <~ py_get data "error_code" (PStr "unknown") ;;
         fallback <~ py_get data "error" (PStr "unknown error") ;;
         error_msg <~ py_get data "message" fallback ;;
         inr (check_result 1 name FAIL
                ("Login failed — code " ++ py_str error_code ++ ": "
                 ++ py_str error_msg),
              PNone)))
    (fun exc =>
       match exc with
       | TimeoutException _ =>
           ret (check_result 1 name FAIL "Request timed out", PNone)
       | ConnectError _ =>
           ret (check_result 1 name FAIL "Connection error — cannot reach API",
                PNone)
       | OtherException msg =>
           ret (check_result 1 name FAIL ("Unexpected error: " ++ msg), PNone)
       end).

(** Check 2: Advertiser Exists *)
Definition check_advertiser (base_url : string) (token : PyVal)
    (member_group_id advertiser_id : Z) : M CheckResult :=
  let name := "Advertiser Exists" in
  try_except
    (let url := base_url ++ "/member_groups/" ++ str_of_Z member_group_id
                ++ "/advertisers/" ++ str_of_Z advertiser_id in
     resp <- make_request "GET" url token None ;;
     lift (
       data <~ resp_json resp ;;
       st <~ py_get data "status" PNone ;;
       if py_eq_str st "success" then
         result <~ py_get data "result" (PDict []) ;;
         adv_name <~ py_get result "name" (PStr "N/A") ;;
         adv_status <~ py_get result "status" (PStr "N/A") ;;
         entity_count <~ py_get result "entity_count" (PStr "N/A") ;;
         currency <~ py_get result "currency_code" (PStr "N/A") ;;
         let details :=
           "Found: " ++ py_str adv_name ++ " | status=" ++ py_str adv_status
           ++ " | " ++ "entities=" ++ py_str entity_count ++ " | currency="
           ++ py_str currency in
         inr (check_result 2 name PASS details)
       else
         error_code <~ py_get data "error_code" (PStr "unknown") ;;
         fallback <~ py_get data "error" (PStr "unknown error") ;;
         error_msg <~ py_get data "message" fallback ;;
         inr (check_result 2 name FAIL
                ("Error " ++ py_str error_code ++ ": " ++ py_str error_msg))))
    (fun exc =>
       match exc with
       | TimeoutException _ => ret (check_result 2 name FAIL "Request timed out")
       | ConnectError _ => ret (check_result 2 name FAIL "Connection error")
       | OtherException msg =>
           ret (check_result 2 name FAIL ("Unexpected error: " ++ msg))
       end).

(** Check 3: Campaigns Report *)
Definition check_campaigns (base_url : string) (token : PyVal)
    (member_group_id advertiser_id : Z) : M CheckResult :=
  let name := "Campaigns Report" in
  try_except
    (let url := base_url ++ "/member_groups/" ++ str_of_Z member_group_id
                ++ "/advertisers/" ++ str_of_Z advertiser_id
                ++ "/campaigns_report" in
     resp <- make_request "POST" url token
               (Some (PDict [("pagination", PDict [("start", PInt 0)])])) ;;
     lift (
       data <~ resp_json resp ;;
       st <~ py_get data "status" PNone ;;
       if negb (py_eq_str st "success") then
         error_code <~ py_get data "error_code" (PStr "unknown") ;;
         fallback <~ py_get data "error" (PStr "unknown error") ;;
         error_msg <~ py_get data "message" fallback ;;
         inr (check_result 3 name FAIL
                ("Error " ++ py_str error_code ++ ": " ++ py_str error_msg))
       else
         result <~ py_get data "result" (PDict []) ;;
         campaigns <~ py_get result "campaigns" (PList []) ;;
         n <~ py_len campaigns ;;
         total <~ py_get result "total" (PInt n) ;;
         if py_eq_zero total then
           inr (check_result 3 name WARN
                  "⚠️  Zero campaigns found for this advertiser")
         else
           let lines := ["Found " ++ py_str total ++ " campaign(s)"] in
           items <~ py_iter campaigns ;;
           lines <~ for_each items
             (fun c lines =>
                c_name <~ py_get c "name" (PStr "N/A") ;;
                c_status <~ py_get c "status" (PStr "N/A") ;;
                always_on <~ py_get c "always_on" (PStr "N/A") ;;
                budget_type <~ py_get c "budget_type" (PStr "N/A") ;;
                budget_amount <~ py_get c "budget_amount" (PStr "N/A") ;;
                inr (list_append lines
                       ("  • " ++ py_str c_name ++ " | status="
                        ++ py_str c_status ++ " | always_on="
                        ++ py_str always_on ++ " " ++ "| budget="
                        ++ py_str budget_type ++ "/" ++ py_str budget_amount)))
             lines ;;
           inr (check_result 3 name PASS (String.concat newline lines))))
    (fun exc =>
       match exc with
       | TimeoutException _ => ret (check_result 3 name FAIL "Request timed out")
       | ConnectError _ => ret (check_result 3 name FAIL "Connection error")
       | OtherException msg =>
           ret (check_result 3 name FAIL ("Unexpected error: " ++ msg))
       end).

(** Check 4: Entity Registration Failures *)
Definition check_entity_failures (base_url : string) (token : PyVal)
    (member_group_id advertiser_id : Z) : M CheckResult :=
  let name := "Entity Registration Failures" in
  try_except
    (let url := base_url ++ "/member_groups/" ++ str_of_Z member_group_id
                ++ "/advertisers/" ++ str_of_Z advertiser_id
                ++ "/entity_registrations/failed/report" in
     resp <- make_request "POST" url token
               (Some (PDict [("pagination",
                              PDict [("count", PInt 50); ("start", PInt 0)])])) ;;
     lift (
       data <~ resp_json resp ;;
       st <~ py_get data "status" PNone ;;
       if negb (py_eq_str st "success") then
         error_code <~ py_get data "error_code" (PStr "unknown") ;;
         fallback <~ py_get data "error" (PStr "unknown error") ;;
         error_msg <~ py_get data "message" fallback ;;
         inr (check_result 4 name FAIL
                ("Error " ++ py_str error_code ++ ": " ++ py_str error_msg))
       else
         result <~ py_get data "result" (PDict []) ;;
         total <~ py_get result "total" (PInt 0) ;;
         if py_eq_zero total then
           inr (check_result 4 name PASS "No entity registration failures")
         else
           registrations <~ py_get result "entity_registrations" (PList []) ;;
           failures <~ py_slice_to 5 registrations ;;
           n <~ py_len failures ;;
           let lines :=
             [ "⚠️  " ++ py_str total ++ " registration failure(s) found. First "
               ++ str_of_Z n ++ ":" ] in
           items <~ py_iter failures ;;
           lines <~ for_each items
             (fun f lines =>
                err_msg <~ py_get f "error_message" (PStr "N/A") ;;
                err_code <~ py_get f "error_code" (PStr "N/A") ;;
                inr (list_append lines
                       ("  • [" ++ py_str err_code ++ "] " ++ py_str err_msg)))
             lines ;;
           inr (check_result 4 name WARN (String.concat newline lines))))
    (fun exc =>
       match exc with
       | TimeoutException _ => ret (check_result 4 name FAIL "Request timed out")
       | ConnectError _ => ret (check_result 4 name FAIL "Connection error")
       | OtherException msg =>
           ret (check_result 4 name FAIL ("Unexpected error: " ++ msg))
       end).

(** Check 5: Active Bidders Cache *)
Definition check_active_bidders (base_url : string) (token : PyVal)
    (member_group_id : Z) : M CheckResult :=
  let name := "Active Bidders Cache" in
  try_except
    (let url := base_url ++ "/member_groups/" ++ str_of_Z member_group_id
                ++ "/active_bidders" in
     resp <- make_request "GET" url token None ;;
     lift (
       data <~ resp_json resp ;;
       st <~ py_get data "status" PNone ;;
       if negb (py_eq_str st "success") then
         error_code <~ py_get data "error_code" (PStr "unknown") ;;
         fallback <~ py_get data "error" (PStr "unknown error") ;;
         error_msg <~ py_get data "message" fallback ;;
         inr (check_result 5 name FAIL
                ("Error " ++ py_str error_code ++ ": " ++ py_str error_msg))
       else
         result <~ py_get data "result" (PDict []) ;;
         bidders <~ py_get result "active_bidders" (PList []) ;;
         if negb (py_truthy bidders) then
           inr (check_result 5 name WARN
                  "⚠️  Active bidders list is empty — no ad groups are active")
         else
           n <~ py_len bidders ;;
           inr (check_result 5 name PASS
                  (str_of_Z n ++ " active bidder(s) in cache"))))
    (fun exc =>
       match exc with
       | TimeoutException _ => ret (check_result 5 name FAIL "Request timed out")
       | ConnectError _ => ret (check_result 5 name FAIL "Connection error")
       | OtherException msg =>
           ret (check_result 5 name FAIL ("Unexpected error: " ++ msg))
       end).

(** Check 6: Attributable Entities Cache *)
Definition check_attributable_entities (base_url : string) (token : PyVal)
    (member_group_id : Z) : M CheckResult :=
  let name := "Attributable Entities Cache" in
  try_except
    (let url := base_url ++ "/member_groups/" ++ str_of_Z member_group_id
                ++ "/attributable_entities" in
     resp <- make_request "GET" url token None ;;
     lift (
       data <~ resp_json resp ;;
       st <~ py_get data "status" PNone ;;
       if negb (py_eq_str st "success") then
         error_code <~ py_get data "error_code" (PStr "unknown") ;;
         fallback <~ py_get data "error" (PStr "unknown error") ;;
         error_msg <~ py_get data "message" fallback ;;
         inr (check_result 6 name FAIL
                ("Error " ++ py_str error_code ++ ": " ++ py_str error_msg))
       else
         result <~ py_get data "result" (PDict []) ;;
         entities <~ py_get result "attributable_entities" (PList []) ;;
         if negb (py_truthy entities) then
           inr (check_result 6 name WARN
                  "⚠️  No attributable entities — conversions won't attribute")
         else
           n <~ py_len entities ;;
           inr (check_result 6 name PASS
                  (str_of_Z n ++ " attributable entit(ies) in cache"))))
    (fun exc =>
       match exc with
       | TimeoutException _ => ret (check_result 6 name FAIL "Request timed out")
       | ConnectError _ => ret (check_result 6 name FAIL "Connection error")
       | OtherException msg =>
           ret (check_result 6 name FAIL ("Unexpected error: " ++ msg))
       end).

(** Check 7: Winning Ads (Test Auction) *)
Definition check_winning_ads (client_name site_id : string)
    (experience_name : option string) : M CheckResult :=
  let name := "Winning Ads (Test Auction)" in
  try_except
    (let url := "https://" ++ client_name
                ++ ".koddi.io/auction-engine/winning_ads" in
     let body :=
       [ ("client_name", PStr client_name);
         ("site_id", PStr site_id);
         ("slots_available", PInt 1);
         ("max_requested", PInt 1);
         ("user", PDict [("guid", PStr "healthcheck-test-user")]);
         ("bidders", PList []) ] in
     let body :=
       match experience_name with
       | Some e => list_append body ("experience_name", PStr e)
       | None => body
       end in
     resp <- make_request "POST" url PNone (Some (PDict body)) ;;
     lift (
       if negb (status_code resp =? 200) then
         inr (check_result 7 name FAIL
                ("HTTP " ++ str_of_Z (status_code resp)
                 ++ " — auction engine may be misconfigured "
                 ++ "or client '" ++ client_name ++ "' is not provisioned"))
       else
         data <~ resp_json resp ;;
         listings <~ py_get data "sponsored_listings" (PList []) ;;
         count <~ py_len listings ;;
         let detail :=
           if negb (count =? 0) then
             "Auction responded OK — " ++ str_of_Z count
             ++ " sponsored listing(s) returned"
           else
             "Auction responded OK — 0 listings (expected with empty bidders)" in
         inr (check_result 7 name PASS detail)))
    (fun exc =>
       match exc with
       | TimeoutException _ => ret (check_result 7 name FAIL "Request timed out")
       | ConnectError _ =>
           ret (check_result 7 name FAIL
                  ("Connection error — cannot reach " ++ client_name
                   ++ ".koddi.io"))
       | OtherException msg =>
           ret (check_result 7 name FAIL ("Unexpected error: " ++ msg))
       end).

(** The document [results_to_json] hands to [json.dumps]. *)
Definition results_to_json (results : list CheckResult) : PyVal :=
  let output :=
    fold_left
      (fun output r =>
         list_append output
           (PDict [ ("check", PInt (number r));
                    ("name", PStr (name r));
                    ("status", PStr (Status_value (status r)));
                    ("details", PStr (details r)) ]))
      results [] in
  let has_failure := existsb (fun r => Status_eqb (status r) FAIL) results in
  PDict [ ("checks", PList output);
          ("overall", PStr (if has_failure then "fail" else "pass")) ].

(** [print_summary], the detail column of a row: the first line of the
    details, cut to 57 characters and an ellipsis when longer than 60. *)
Definition short_detail (details : string) : string :=
  let short_detail := first_line details in
  if 60 <? str_len short_detail then str_slice_to 57 short_detail ++ "..."
  else short_detail.

(** [print_summary], the rows handed to [table.add_row]: number, name,
    plain status and short detail (the styles are left out). *)
Definition print_summary_rows (results : list CheckResult)
    : list (string * string * string * string) :=
  map (fun r => (str_of_Z (number r), name r, status_plain (status r),
                 short_detail (details r)))
    results.

(** [print_summary], the four counters of its last line: passes, warns,
    fails and skips. *)
Definition print_summary_counts (results : list CheckResult) : Z * Z * Z * Z :=
  let passes := count_ones (fun r => Status_eqb (status r) PASS) results in
  let warns := count_ones (fun r => Status_eqb (status r) WARN) results in
  let fails := count_ones (fun r => Status_eqb (status r) FAIL) results in
  let skips := count_ones (fun r => Status_eqb (status r) SKIPPED) results in
  (passes, warns, fails, skips).

(** [print_summary]: the rule, the table of the rows, and the line of the
    counters. *)
Definition print_summary (results : list CheckResult) : M unit :=
  _ <- console_print_blank ;;
  _ <- console_rule "[bold]Health Check Summary[/bold]" ;;
  _ <- console_print_blank ;;
  let table : Table := [] in
  let table := add_column "Check #" table in
  let table := add_column "Name" table in
  let table := add_column "Status" table in
  let table := add_column "Details" table in
  let table :=
    fold_left
      (fun table '(number, name, status, short_detail) =>
         add_row [Str number; Str name; Text status; Text short_detail] table)
      (print_summary_rows results) table in
  _ <- console_print_table table ;;
  let '(passes, warns, fails, skips) := print_summary_counts results in
  _ <- console_print_blank ;;
  _ <- console_print
         ("  [green]" ++ str_of_Z passes ++ " passed[/green]  "
          ++ "[yellow]" ++ str_of_Z warns ++ " warning(s)[/yellow]  "
          ++ "[red]" ++ str_of_Z fails ++ " failed[/red]  "
          ++ "[dim]" ++ str_of_Z skips ++ " skipped[/dim]") ;;
  console_print_blank.

(** The command: the checks run on a fresh client over [net].  What the
    console shows is not kept, but no handler surrounds the printing: an
    exception raised by the console ends the run.  A run that reaches
    [sys.exit] leaves its results, the JSON document echoed with
    [--json-output], and the exit code. *)
Definition main (net : Transport) (a : Args) : Res RunOutput * Client :=
  (let base_url := rstrip_slash (base_url a) in
   let results : list CheckResult := [] in
   let has_failure := false in
   _ <- (if negb (use_json a) then
           _ <- console_print_blank ;;
           _ <- console_rule "[bold blue]Koddi Health Check[/bold blue]" ;;
           _ <- console_print
                  ("  member_group_id=" ++ str_of_Z (member_group_id a)
                   ++ "  advertiser_id=" ++ str_of_Z (advertiser_id a)
                   ++ "  client=" ++ client_name a) ;;
           console_print_blank
         else ret tt) ;;
   _ <- print_check_header 1 "Authentication" (use_json a) ;;
   '(auth_result, token) <-
      check_auth base_url (email a) (password a) (member_group_id a) ;;
   let results := list_append results auth_result in
   _ <- print_result auth_result (use_json a) ;;
   let has_failure :=
     if Status_eqb (status auth_result) FAIL then true else has_failure in
   '(results, has_failure) <-
      (if py_is_none token then
         results <-
           for_each_m auth_dependent
             (fun '(num, name) results =>
                let r := check_result num name SKIPPED
                           "Skipped — authentication failed" in
                let results := list_append results r in
                _ <- print_check_header num name (use_json a) ;;
                _ <- print_result r (use_json a) ;;
                ret results)
             results ;;
         ret (results, has_failure)
       else
         _ <- print_check_header 2 "Advertiser Exists" (use_json a) ;;
         r2 <- check_advertiser base_url token (member_group_id a)
                 (advertiser_id a) ;;
         let results := list_append results r2 in
         _ <- print_result r2 (use_json a) ;;
         '(results, has_failure) <-
            (if Status_eqb (status r2) FAIL then
               let has_failure := true in
               results <-
                 for_each_m (list_slice 1 3 auth_dependent)
                   (fun '(num, name) results =>
                      let r := check_result num name SKIPPED
                                 "Skipped — advertiser check failed" in
                      let results := list_append results r in
                      _ <- print_check_header num name (use_json a) ;;
                      _ <- print_result r (use_json a) ;;
                      ret results)
                   results ;;
               ret (results, has_failure)
             else
               _ <- print_check_header 3 "Campaigns Report" (use_json a) ;;
               r3 <- check_campaigns base_url token (member_group_id a)
                       (advertiser_id a) ;;
               let results := list_append results r3 in
               _ <- print_result r3 (use_json a) ;;
               let has_failure :=
                 if Status_eqb (status r3) FAIL then true else has_failure in
               _ <- print_check_header 4 "Entity Registration Failures"
                      (use_json a) ;;
               r4 <- check_entity_failures base_url token (member_group_id a)
                       (advertiser_id a) ;;
               let results := list_append results r4 in
               _ <- print_result r4 (use_json a) ;;
               let has_failure :=
                 if Status_eqb (status r4) FAIL then true else has_failure in
               ret (results, has_failure)) ;;
         _ <- print_check_header 5 "Active Bidders Cache" (use_json a) ;;
         r5 <- check_active_bidders base_url token (member_group_id a) ;;
         let results := list_append results r5 in
         _ <- print_result r5 (use_json a) ;;
         let has_failure :=
           if Status_eqb (status r5) FAIL then true else has_failure in
         _ <- print_check_header 6 "Attributable Entities Cache"
                (use_json a) ;;
         r6 <- check_attributable_entities base_url token (member_group_id a) ;;
         let results := list_append results r6 in
         _ <- print_result r6 (use_json a) ;;
         let has_failure :=
           if Status_eqb (status r6) FAIL then true else has_failure in
         ret (results, has_failure)) ;;
   _ <- print_check_header 7 "Winning Ads (Test Auction)" (use_json a) ;;
   r7 <- check_winning_ads (client_name a) (site_id a) (experience_name a) ;;
   let results := list_append results r7 in
   _ <- print_result r7 (use_json a) ;;
   let has_failure :=
     if Status_eqb (status r7) FAIL then true else has_failure in
   out_json <-
     (if use_json a then
        (* click.echo(results_to_json(results)) *)
        ret (Some (results_to_json results))
      else
        _ <- print_summary results ;;
        ret None) ;;
   (* sys.exit(1 if has_failure else 0) *)
   ret {| out_results := results;
          out_json := out_json;
          exit_code := if has_failure then 1 else 0 |})
  (new_client net).

End WithRuntime.
End koddi_healthcheck.

(** ** app.py *)

Module app.
Section WithRuntime.
Context `{PyRuntime}.

Definition make_request (method url : string) (token : PyVal)
    (json_body : option PyVal) : M Response :=
  let headers := if py_truthy token then [("Authorization", token)] else [] in
  if String.eqb method "GET" then client_get url headers
  else client_post url headers json_body.

(** Check 1 of the web front end: Authentication *)
Definition check_auth (base_url email password : string) (member_group_id : Z)
    : M (CheckResult * PyVal) :=
  let name := "Authentication" in
  try_except
    (resp <- make_request "POST" (base_url ++ "/session/login") PNone
               (Some (PDict [ ("email", PStr email);
                              ("password", PStr password);
                              ("member_group_id", PInt member_group_id) ])) ;;
     lift (
       data <~ resp_json resp ;;
       st <~ py_get data "status" PNone ;;
       if py_eq_str st "success" then
         result <~ py_get data "result" (PDict []) ;;
         tok <~ py_get result "token" (PDict []) ;;
         token <~ py_get tok "id_token" PNone ;;
         if py_truthy token then
           inr (check_result 1 name PASS "Authenticated successfully", token)
         else
           inr (check_result 1 name FAIL "No id_token in response", PNone)
       else
         error_code <~ py_get data "error_code" (PStr "unknown") ;;
         fallback <~ py_get data "error" (PStr "unknown error") ;;
         error_msg <~ py_get data "message" fallback ;;
         inr (check_result 1 name FAIL
                ("Login failed — code " ++ py_str error_code ++ ": "
                 ++ py_str error_msg),
              PNone)))
    (fun exc =>
       match exc with
       | TimeoutException _ =>
           ret (check_result 1 name FAIL "Request timed out", PNone)
       | ConnectError _ =>
           ret (check_result 1 name FAIL "Connection error — cannot reach API",
                PNone)
       | OtherException msg =>
           ret (check_result 1 name FAIL ("Unexpected error: " ++ msg), PNone)
       end).

(** Check 2 of the web front end: Advertiser Exists *)
Definition check_advertiser (base_url : string) (token : PyVal)
    (member_group_id advertiser_id : Z) : M CheckResult :=
  let name := "Advertiser Exists" in
  try_except
    (let url := base_url ++ "/member_groups/" ++ str_of_Z member_group_id
                ++ "/advertisers/" ++ str_of_Z advertiser_id in
     resp <- make_request "GET" url token None ;;
     lift (
       data <~ resp_json resp ;;
       st <~ py_get data "status" PNone ;;
       if py_eq_str st "success" then
         result <~ py_get data "result" (PDict []) ;;
         r_name <~ py_get result "name" (PStr "N/A") ;;
         r_status <~ py_get result "status" (PStr "N/A") ;;
         r_entity_count <~ py_get result "entity_count" (PStr "N/A") ;;
         r_currency_code <~ py_get result "currency_code" (PStr "N/A") ;;
         let details :=
           "Found: " ++ py_str r_name ++ " | status=" ++ py_str r_status
           ++ " | " ++ "entities=" ++ py_str r_entity_count ++ " | currency="
           ++ py_str r_currency_code in
         inr (check_result 2 name PASS details)
       else
         error_code <~ py_get data "error_code" (PStr "unknown") ;;
         fallback <~ py_get data "error" (PStr "unknown error") ;;
         error_msg <~ py_get data "message" fallback ;;
         inr (check_result 2 name FAIL
                ("Error " ++ py_str error_code ++ ": " ++ py_str error_msg))))
    (fun exc =>
       match exc with
       | TimeoutException _ => ret (check_result 2 name FAIL "Request timed out")
       | ConnectError _ => ret (check_result 2 name FAIL "Connection error")
       | OtherException msg =>
           ret (check_result 2 name FAIL ("Unexpected error: " ++ msg))
       end).

(** Check 3 of the web front end: Campaigns Report *)
Definition check_campaigns (base_url : string) (token : PyVal)
    (member_group_id advertiser_id : Z) : M CheckResult :=
  let name := "Campaigns Report" in
  try_except
    (let url := base_url ++ "/member_groups/" ++ str_of_Z member_group_id
                ++ "/advertisers/" ++ str_of_Z advertiser_id
                ++ "/campaigns_report" in
     resp <- make_request "POST" url token
               (Some (PDict [("pagination", PDict [("start", PInt 0)])])) ;;
     lift (
       data <~ resp_json resp ;;
       st <~ py_get data "status" PNone ;;
       if negb (py_eq_str st "success") then
         error_code <~ py_get data "error_code" (PStr "unknown") ;;
         fallback <~ py_get data "error" (PStr "unknown error") ;;
         error_msg <~ py_get data "message" fallback ;;
         inr (check_result 3 name FAIL
                ("Error " ++ py_str error_code ++ ": " ++ py_str error_msg))
       else
         result <~ py_get data "result" (PDict []) ;;
         campaigns <~ py_get result "campaigns" (PList []) ;;
         n <~ py_len campaigns ;;
         total <~ py_get result "total" (PInt n) ;;
         if py_eq_zero total then
           inr (check_result 3 name WARN
                  "Zero campaigns found for this advertiser")
         else
           let lines := ["Found " ++ py_str total ++ " campaign(s)"] in
           items <~ py_iter campaigns ;;
           lines <~ for_each items
             (fun c lines =>
                c_name <~ py_get c "name" (PStr "N/A") ;;
                c_status <~ py_get c "status" (PStr "N/A") ;;
                always_on <~ py_get c "always_on" (PStr "N/A") ;;
                budget_type <~ py_get c "budget_type" (PStr "N/A") ;;
                budget_amount <~ py_get c "budget_amount" (PStr "N/A") ;;
                inr (list_append lines
                       ("  • " ++ py_str c_name ++ " | status="
                        ++ py_str c_status ++ " | " ++ "always_on="
                        ++ py_str always_on ++ " | budget="
                        ++ py_str budget_type ++ "/" ++ py_str budget_amount)))
             lines ;;
           inr (check_result 3 name PASS (String.concat newline lines))))
    (fun exc =>
       match exc with
       | TimeoutException _ => ret (check_result 3 name FAIL "Request timed out")
       | ConnectError _ => ret (check_result 3 name FAIL "Connection error")
       | OtherException msg =>
           ret (check_result 3 name FAIL ("Unexpected error: " ++ msg))
       end).

(** Check 4 of the web front end: Entity Registration Failures *)
Definition check_entity_failures (base_url : string) (token : PyVal)
    (member_group_id advertiser_id : Z) : M CheckResult :=
  let name := "Entity Registration Failures" in
  try_except
    (let url := base_url ++ "/member_groups/" ++ str_of_Z member_group_id
                ++ "/advertisers/" ++ str_of_Z advertiser_id
                ++ "/entity_registrations/failed/report" in
     resp <- make_request "POST" url token
               (Some (PDict [("pagination",
                              PDict [("count", PInt 50); ("start", PInt 0)])])) ;;
     lift (
       data <~ resp_json resp ;;
       st <~ py_get data "status" PNone ;;
       if negb (py_eq_str st "success") then
         error_code <~ py_get data "error_code" (PStr "unknown") ;;
         fallback <~ py_get data "error" (PStr "unknown error") ;;
         error_msg <~ py_get data "message" fallback ;;
         inr (check_result 4 name FAIL
                ("Error " ++ py_str error_code ++ ": " ++ py_str error_msg))
       else
         result <~ py_get data "result" (PDict []) ;;
         total <~ py_get result "total" (PInt 0) ;;
         if py_eq_zero total then
           inr (check_result 4 name PASS "No entity registration failures")
         else
           registrations <~ py_get result "entity_registrations" (PList []) ;;
           failures <~ py_slice_to 5 registrations ;;
           n <~ py_len failures ;;
           let lines :=
             [ py_str total ++ " registration failure(s) found. First "
               ++ str_of_Z n ++ ":" ] in
           items <~ py_iter failures ;;
           lines <~ for_each items
             (fun f lines =>
                err_code <~ py_get f "error_code" (PStr "N/A") ;;
                err_msg <~ py_get f "error_message" (PStr "N/A") ;;
                inr (list_append lines
                       ("  • [" ++ py_str err_code ++ "] " ++ py_str err_msg)))
             lines ;;
           inr (check_result 4 name WARN (String.concat newline lines))))
    (fun exc =>
       match exc with
       | TimeoutException _ => ret (check_result 4 name FAIL "Request timed out")
       | ConnectError _ => ret (check_result 4 name FAIL "Connection error")
       | OtherException msg =>
           ret (check_result 4 name FAIL ("Unexpected error: " ++ msg))
       end).

(** Check 5 of the web front end: Active Bidders Cache *)
Definition check_active_bidders (base_url : string) (token : PyVal)
    (member_group_id : Z) : M CheckResult :=
  let name := "Active Bidders Cache" in
  try_except
    (let url := base_url ++ "/member_groups/" ++ str_of_Z member_group_id
                ++ "/active_bidders" in
     resp <- make_request "GET" url token None ;;
     lift (
       data <~ resp_json resp ;;
       st <~ py_get data "status" PNone ;;
       if negb (py_eq_str st "success") then
         error_code <~ py_get data "error_code" (PStr "unknown") ;;
         fallback <~ py_get data "error" (PStr "unknown error") ;;
         error_msg <~ py_get data "message" fallback ;;
         inr (check_result 5 name FAIL
                ("Error " ++ py_str error_code ++ ": " ++ py_str error_msg))
       else
         result <~ py_get data "result" (PDict []) ;;
         bidders <~ py_get result "active_bidders" (PList []) ;;
         if negb (py_truthy bidders) then
           inr (check_result 5 name WARN
                  "Active bidders list is empty — no ad groups are active")
         else
           n <~ py_len bidders ;;
           inr (check_result 5 name PASS
                  (str_of_Z n ++ " active bidder(s) in cache"))))
    (fun exc =>
       match exc with
       | TimeoutException _ => ret (check_result 5 name FAIL "Request timed out")
       | ConnectError _ => ret (check_result 5 name FAIL "Connection error")
       | OtherException msg =>
           ret (check_result 5 name FAIL ("Unexpected error: " ++ msg))
       end).

(** Check 6 of the web front end: Attributable Entities Cache *)
Definition check_attributable_entities (base_url : string) (token : PyVal)
    (member_group_id : Z) : M CheckResult :=
  let name := "Attributable Entities Cache" in
  try_except
    (let url := base_url ++ "/member_groups/" ++ str_of_Z member_group_id
                ++ "/attributable_entities" in
     resp <- make_request "GET" url token None ;;
     lift (
       data <~ resp_json resp ;;
       st <~ py_get data "status" PNone ;;
       if negb (py_eq_str st "success") then
         error_code <~ py_get data "error_code" (PStr "unknown") ;;
         fallback <~ py_get data "error" (PStr "unknown error") ;;
         error_msg <~ py_get data "message" fallback ;;
         inr (check_result 6 name FAIL
                ("Error " ++ py_str error_code ++ ": " ++ py_str error_msg))
       else
         result <~ py_get data "result" (PDict []) ;;
         entities <~ py_get result "attributable_entities" (PList []) ;;
         if negb (py_truthy entities) then
           inr (check_result 6 name WARN
                  "No attributable entities — conversions won't attribute")
         else
           n <~ py_len entities ;;
           inr (check_result 6 name PASS
                  (str_of_Z n ++ " attributable entit(ies) in cache"))))
    (fun exc =>
       match exc with
       | TimeoutException _ => ret (check_result 6 name FAIL "Request timed out")
       | ConnectError _ => ret (check_result 6 name FAIL "Connection error")
       | OtherException msg =>
           ret (check_result 6 name FAIL ("Unexpected error: " ++ msg))
       end).

(** Check 7 of the web front end: Winning Ads (Test Auction) *)
Definition check_winning_ads (client_name site_id : string)
    (experience_name : option string) : M CheckResult :=
  let name := "Winning Ads (Test Auction)" in
  try_except
    (let url := "https://" ++ client_name
                ++ ".koddi.io/auction-engine/winning_ads" in
     let body :=
       [ ("client_name", PStr client_name);
         ("site_id", PStr site_id);
         ("slots_available", PInt 1);
         ("max_requested", PInt 1);
         ("user", PDict [("guid", PStr "healthcheck-test-user")]);
         ("bidders", PList []) ] in
     let body :=
       match experience_name with
       | Some e =>
           if negb (String.eqb e "") then
             list_append body ("experience_name", PStr e)
           else body
       | None => body
       end in
     resp <- make_request "POST" url PNone (Some (PDict body)) ;;
     lift (
       if negb (status_code resp =? 200) then
         inr (check_result 7 name FAIL
                ("HTTP " ++ str_of_Z (status_code resp)
                 ++ " — auction engine may be misconfigured "
                 ++ "or client '" ++ client_name ++ "' is not provisioned"))
       else
         data <~ resp_json resp ;;
         listings <~ py_get data "sponsored_listings" (PList []) ;;
         count <~ py_len listings ;;
         let detail :=
           if negb (count =? 0) then
             "Auction responded OK — " ++ str_of_Z count
             ++ " sponsored listing(s) returned"
           else
             "Auction responded OK — 0 listings (expected with empty bidders)" in
         inr (check_result 7 name PASS detail)))
    (fun exc =>
       match exc with
       | TimeoutException _ => ret (check_result 7 name FAIL "Request timed out")
       | ConnectError _ =>
           ret (check_result 7 name FAIL
                  ("Connection error — cannot reach " ++ client_name
                   ++ ".koddi.io"))
       | OtherException msg =>
           ret (check_result 7 name FAIL ("Unexpected error: " ++ msg))
       end).

(** All checks, run on a fresh client over [net]; [progress_callback] only
    drives the progress bar and is left out. *)
Definition run_checks (net : Transport) (a : Args)
    : Res (list CheckResult) * Client :=
  (let base_url := rstrip_slash (base_url a) in
   let results : list CheckResult := [] in
   '(auth_result, token) <-
      check_auth base_url (email a) (password a) (member_group_id a) ;;
   let results := list_append results auth_result in
   results <-
     (if py_is_none token then
        ret (fold_left
               (fun results '(num, name) =>
                  list_append results
                    (check_result num name SKIPPED
                       "Skipped — authentication failed"))
               auth_dependent results)
      else
        r2 <- check_advertiser base_url token (member_group_id a)
                (advertiser_id a) ;;
        let results := list_append results r2 in
        results <-
          (if Status_eqb (status r2) FAIL then
             ret (fold_left
                    (fun results '(num, name) =>
                       list_append results
                         (check_result num name SKIPPED
                            "Skipped — advertiser check failed"))
                    (list_slice 1 3 auth_dependent) results)
           else
             r3 <- check_campaigns base_url token (member_group_id a)
                     (advertiser_id a) ;;
             let results := list_append results r3 in
             r4 <- check_entity_failures base_url token (member_group_id a)
                     (advertiser_id a) ;;
             let results := list_append results r4 in
             ret results) ;;
        r5 <- check_active_bidders base_url token (member_group_id a) ;;
        let results := list_append results r5 in
        r6 <- check_attributable_entities base_url token (member_group_id a) ;;
        let results := list_append results r6 in
        ret results) ;;
   r7 <- check_winning_ads (client_name a) (site_id a) (experience_name a) ;;
   let results := list_append results r7 in
   ret results)
  (new_client net).

(** The summary metrics of the page. *)
Definition passes (results : list CheckResult) : Z :=
  count_ones (fun r => Status_eqb (status r) PASS) results.

Definition warns (results : list CheckResult) : Z :=
  count_ones (fun r => Status_eqb (status r) WARN) results.

Definition fails (results : list CheckResult) : Z :=
  count_ones (fun r => Status_eqb (status r) FAIL) results.

Definition skips (results : list CheckResult) : Z :=
  count_ones (fun r => Status_eqb (status r) SKIPPED) results.

(** The banner under the metrics: [inl] is [st.success], [inr] is
    [st.error]. *)
Definition banner (results : list CheckResult) : string + string :=
  if fails results =? 0 then inl "All checks passed!"
  else inr (str_of_Z (fails results) ++ " check(s) failed.").

(** The document of the JSON export, as handed to [json.dumps]. *)
Definition json_output (results : list CheckResult) : PyVal :=
  PDict [ ("checks",
           PList (map (fun r =>
                         PDict [ ("check", PInt (number r));
                                 ("name", PStr (name r));
                                 ("status", PStr (Status_value (status r)));
                                 ("details", PStr (details r)) ])
                    results));
          ("overall", PStr (if 0 <? fails results then "fail" else "pass")) ].

(** The sidebar: the values of its widgets.  A number input is [None]
    until a number is entered, and holds at least 1 afterwards. *)
Record Form : Type := {
  form_email : string;
  form_password : string;
  form_member_group_id : option Z;
  form_advertiser_id : option Z;
  form_client_name : string;
  form_site_id : string;
  form_experience_name : string;
  form_base_url : string;
  form_timeout : Z
}.

Definition int_truthy (n : option Z) : bool :=
  match n with
  | Some z => negb (z =? 0)
  | None => false
  end.

(** [can_run]: every required field is filled in. *)
Definition can_run (f : Form) : bool :=
  (negb (String.eqb (form_email f) "")
   && negb (String.eqb (form_password f) "")
   && int_truthy (form_member_group_id f)
   && int_truthy (form_advertiser_id f)
   && negb (String.eqb (form_client_name f) ""))%bool.

(** The call of [run_checks] made when the button is pressed, which the page
    allows only when [can_run] holds: the arguments read from the form. *)
Definition form_args (f : Form) : option Args :=
  if can_run f then
    match form_member_group_id f, form_advertiser_id f with
    | Some member_group_id, Some advertiser_id =>
        Some {| email := form_email f;
                password := form_password f;
                member_group_id := member_group_id;
                advertiser_id := advertiser_id;
                client_name := form_client_name f;
                site_id := if negb (String.eqb (form_site_id f) "")
                           then form_site_id f else "homepage";
                experience_name :=
                  if negb (String.eqb (form_experience_name f) "")
                  then Some (form_experience_name f) else None;
                base_url := form_base_url f;
                timeout := form_timeout f;
                use_json := false |}
    | _, _ => None
    end
  else None.

End WithRuntime.
End app.

(** ** Vocabulary of the statements *)

(** The result of a check when the network answers its call with [out]. *)
Definition answer {A : Type} (chk : M A) (out : Exn + Response) : Res A :=
  fst (chk (new_client (fun _ _ => out))).

(** The outbound HTTP surface: the one request each check issues. *)
Definition login_request (base_url email password : string)
    (member_group_id : Z) : Request :=
  {| method := "POST";
     url := base_url ++ "/session/login";
     headers := [];
     json_body := Some (PDict [ ("email", PStr email);
                                ("password", PStr password);
                                ("member_group_id", PInt member_group_id) ]) |}.

Definition auth_headers (token : PyVal) : list (string * PyVal) :=
  if py_truthy token then [("Authorization", token)] else [].

Definition advertiser_request (base_url : string) (token : PyVal)
    (member_group_id advertiser_id : Z) : Request :=
  {| method := "GET";
     url := base_url ++ "/member_groups/" ++ str_of_Z member_group_id
            ++ "/advertisers/" ++ str_of_Z advertiser_id;
     headers := auth_headers token;
     json_body := None |}.

Definition campaigns_request (base_url : string) (token : PyVal)
    (member_group_id advertiser_id : Z) : Request :=
  {| method := "POST";
     url := base_url ++ "/member_groups/" ++ str_of_Z member_group_id
            ++ "/advertisers/" ++ str_of_Z advertiser_id
            ++ "/campaigns_report";
     headers := auth_headers token;
     json_body := Some (PDict [("pagination", PDict [("start", PInt 0)])]) |}.

Definition entity_failures_request (base_url : string) (token : PyVal)
    (member_group_id advertiser_id : Z) : Request :=
  {| method := "POST";
     url := base_url ++ "/member_groups/" ++ str_of_Z member_group_id
            ++ "/advertisers/" ++ str_of_Z advertiser_id
            ++ "/entity_registrations/failed/report";
     headers := auth_headers token;
     json_body :=
       Some (PDict [("pagination",
                     PDict [("count", PInt 50); ("start", PInt 0)])]) |}.

Definition active_bidders_request (base_url : string) (token : PyVal)
    (member_group_id : Z) : Request :=
  {| method := "GET";
     url := base_url ++ "/member_groups/" ++ str_of_Z member_group_id
            ++ "/active_bidders";
     headers := auth_headers token;
     json_body := None |}.

Definition attributable_entities_request (base_url : string) (token : PyVal)
    (member_group_id : Z) : Request :=
  {| method := "GET";
     url := base_url ++ "/member_groups/" ++ str_of_Z member_group_id
            ++ "/attributable_entities";
     headers := auth_headers token;
     json_body := None |}.

(** The auction request carries no header; [experience] is the experience
    name that goes into the body, if any. *)
Definition auction_request (client_name site_id : string)
    (experience : option string) : Request :=
  {| method := "POST";
     url := "https://" ++ client_name ++ ".koddi.io/auction-engine/winning_ads";
     headers := [];
     json_body :=
       Some (PDict
               ([ ("client_name", PStr client_name);
                  ("site_id", PStr site_id);
                  ("slots_available", PInt 1);
                  ("max_requested", PInt 1);
                  ("user", PDict [("guid", PStr "healthcheck-test-user")]);
                  ("bidders", PList []) ]
                ++ match experience with
                   | Some e => [("experience_name", PStr e)]
                   | None => []
                   end)%list) |}.

(** The web front end sends an experience name only when it is not empty. *)
Definition web_experience (experience_name : option string) : option string :=
  match experience_name with
  | Some e => if String.eqb e "" then None else Some e
  | None => None
  end.

(** [r] is the skipped result of check [num] and its details name [cause]. *)
Definition skipped_naming (cause : string) (num : Z) (r : CheckResult) : Prop :=
  number r = num /\ status r = SKIPPED /\ contains cause (details r) = true.

(** [d.get(key, default)] on the bindings of a [dict]. *)
Definition dict_get (kvs : list (string * PyVal)) (key : string)
    (default : PyVal) : PyVal :=
  match assoc key kvs with
  | Some v => v
  | None => default
  end.

(** "{error_code}: {error_message}" of an error envelope. *)
Definition envelope_error `{PyRuntime} (kvs : list (string * PyVal)) : string :=
  py_str (dict_get kvs "error_code" (PStr "unknown")) ++ ": "
  ++ py_str (dict_get kvs "message"
               (dict_get kvs "error" (PStr "unknown error"))).

(** The details a check gives for a failure of the transport. *)
Definition transport_failure_details (connect_detail : string) (e : Exn)
    : string :=
  match e with
  | TimeoutException _ => "Request timed out"
  | ConnectError _ => connect_detail
  | OtherException msg => "Unexpected error: " ++ msg
  end.

(** One line of the campaigns listing. *)
Definition campaign_line `{PyRuntime} (kvs : list (string * PyVal)) : string :=
  "  • " ++ py_str (dict_get kvs "name" (PStr "N/A"))
  ++ " | status=" ++ py_str (dict_get kvs "status" (PStr "N/A"))
  ++ " | always_on=" ++ py_str (dict_get kvs "always_on" (PStr "N/A"))
  ++ " | budget=" ++ py_str (dict_get kvs "budget_type" (PStr "N/A"))
  ++ "/" ++ py_str (dict_get kvs "budget_amount" (PStr "N/A")).

Definition warn_prefix : string := "⚠️  ".

(** Two results that agree on everything, except that a warning of the
    command-line tool starts with a warning sign the web one lacks. *)
Definition same_up_to_warn_prefix (cli web : CheckResult) : Prop :=
  number cli = number web /\ name cli = name web /\
  status cli = status web /\ extra cli = extra web /\
  details cli = match status web with
                | WARN => warn_prefix ++ details web
                | _ => details web
                end.

(** [r] is the result of an executed check [num]: it carries that number
    and is not a skip. *)
Definition executed (num : Z) (r : CheckResult) : Prop :=
  number r = num /\ status r <> SKIPPED.

(** Check 1 either passes with a token, or fails with none. *)
Definition auth_result (rt : CheckResult * PyVal) : Prop :=
  executed 1 (fst rt) /\
  ((status (fst rt) = PASS /\ py_truthy (snd rt) = true) \/
   (status (fst rt) = FAIL /\ snd rt = PNone)).

(** The result recorded for a check that is not attempted. *)
Definition skipped (cause : string) (num : Z) (name : string) : CheckResult :=
  check_result num name SKIPPED ("Skipped — " ++ cause).

(** The verdict over a list of results: is one of them a failure? *)
Definition any_failed (results : list CheckResult) : bool :=
  existsb (fun r => Status_eqb (status r) FAIL) results.

(** What the command-line tool leaves behind for a list of results. *)
Definition run_output (a : Args) (results : list CheckResult) : RunOutput :=
  {| out_results := results;
     out_json := if use_json a then
                   Some (koddi_healthcheck.results_to_json results)
                 else None;
     exit_code := if any_failed results then 1 else 0 |}.

(** A console that renders every text. *)
Definition lenient_console : RichConsole :=
  {| markup_error := fun _ => None |}.

(** The run of the command on the lenient console: the checks alone. *)
Definition lenient_main `{PyRuntime} (net : Transport) (a : Args)
    : Res RunOutput * Client :=
  @koddi_healthcheck.main _ lenient_console net a.

(** [m] returns [v] and leaves the client as it was. *)
Definition yields {A : Type} (m : M A) (v : A) : Prop :=
  forall c, m c = (inr v, c).

(** Whenever [m] returns, [m'] returns the same from the same client. *)
Definition completes_as {A : Type} (m m' : M A) : Prop :=
  forall c a c', m c = (inr a, c') -> m' c = (inr a, c').

(** [m] returns, or raises what the console raised on some text. *)
Definition returns_or_console_raises `{RichConsole} {A : Type} (m : M A)
    : Prop :=
  forall c,
    (exists a c', m c = (inr a, c'))
    \/ (exists text msg c',
          markup_error text = Some msg
          /\ m c = (inl (OtherException msg), c')).

(** The exit status of the process: the one given to [sys.exit], or 1 when
    the run ends on an exception that nothing catches. *)
Definition process_exit_code (run : Res RunOutput) : Z :=
  match run with
  | inr out => exit_code out
  | inl _ => 1
  end.

(** [chk] issues the single call [req], never raises, turns a failure [e]
    of that call into the result [failed details], the details being those
    of [transport_failure_details], and treats an HTTP 200 response whose
    body is not JSON ([resp.json()] raises with text [msg]) as an unexpected
    error. *)
Definition recovers_failures {A : Type} (chk : M A) (req : Request)
    (failed : string -> A) (connect_detail : string) : Prop :=
  (forall c,
     chk c = (answer chk (transport c (calls c) req), record_call req c))
  /\ (forall out, exists a, answer chk out = inr a)
  /\ (forall e,
        answer chk (inl e)
        = inr (failed (transport_failure_details connect_detail e)))
  /\ (forall msg,
        answer chk (inr {| status_code := 200; json := inl msg |})
        = inr (failed ("Unexpected error: " ++ msg))).

(** Every result of a [Res] computation that returns satisfies [P]. *)
Definition res_all {A : Type} (P : A -> Prop) (r : Res A) : Prop :=
  match r with
  | inl _ => True
  | inr a => P a
  end.

(** Two [Res] computations raise the same exception or return related
    results. *)
Definition res_rel {A B : Type} (R : A -> B -> Prop) (r1 : Res A) (r2 : Res B)
    : Prop :=
  match r1, r2 with
  | inl e1, inl e2 => e1 = e2
  | inr a, inr b => R a b
  | _, _ => False
  end.

(** A sample runtime, for evaluating the checks on concrete responses. *)
Definition sample_runtime : PyRuntime :=
  {| float_repr := fun _ => "0.0";
     str_repr := fun s => "'" ++ s ++ "'";
     dict_slice_error := "unhashable type: 'slice'" |}.

(** Whether a byte continues a UTF-8 character. *)
Definition is_continuation_byte (ch : ascii) : bool :=
  let n := N_of_ascii ch in ((128 <=? n) && (n <? 192))%N.

(** The first character of a tag: a letter from a to z, [#], [/] or [@]. *)
Definition is_tag_start (ch : ascii) : bool :=
  let n := N_of_ascii ch in
  (((97 <=? n) && (n <=? 122)) || (n =? 35) || (n =? 47) || (n =? 64))%N.

(** [text.partition("=")]: the name of a tag and its parameters, if any. *)
Fixpoint tag_partition (text : string) : string * option string :=
  match text with
  | EmptyString => (EmptyString, None)
  | String ch rest =>
      if Ascii.eqb ch "=" then (EmptyString, Some rest)
      else let '(name, parameters) := tag_partition rest in
           (String ch name, parameters)
  end.

(** [pop_style]: the open tags without the innermost one named [name]. *)
Fixpoint pop_style (name : string) (open_tags : list string)
    : option (list string) :=
  match open_tags with
  | [] => None
  | tag :: rest =>
      if String.eqb tag name then Some rest
      else option_map (cons tag) (pop_style name rest)
  end.

(** The tag [text] found at [position]: the open tags after it, or the
    message of the [MarkupError]. *)
Definition markup_tag (position : Z) (text : string) (open_tags : list string)
    : string + list string :=
  let '(name, parameters) := tag_partition text in
  match name with
  | String "/" style_name =>
      let markup :=
        match parameters with
        | None => "[" ++ name ++ "]"
        | Some p => "[" ++ name ++ "=" ++ p ++ "]"
        end in
      if String.eqb style_name "" then
        match open_tags with
        | [] => inl ("closing tag '[/]' at position " ++ str_of_Z position
                     ++ " has nothing to close")
        | _ :: rest => inr rest
        end
      else
        match pop_style style_name open_tags with
        | None => inl ("closing tag '" ++ markup ++ "' at position "
                       ++ str_of_Z position ++ " doesn't match any open tag")
        | Some rest => inr rest
        end
  | _ => inr (name :: open_tags)
  end.

(** One pass over the bytes of a text.  [position] counts the characters
    read, [backslashes] the backslashes that end what was read, [tag] holds
    the position, the escape and the text of the tag being read. *)
Fixpoint markup_scan (s : string) (position : Z) (backslashes : nat)
    (open_tags : list string) (tag : option (Z * bool * string))
    : option string :=
  match s with
  | EmptyString => None
  | String ch rest =>
      let next := if is_continuation_byte ch then position else position + 1 in
      if Ascii.eqb ch "[" then
        markup_scan rest next 0 open_tags
          (Some (position, Nat.odd backslashes, EmptyString))
      else if Ascii.eqb ch "]" then
        match tag with
        | Some (start, escaped, String c text) =>
            if escaped then markup_scan rest next 0 open_tags None
            else
              match markup_tag start (String c text) open_tags with
              | inl msg => Some msg
              | inr open_tags => markup_scan rest next 0 open_tags None
              end
        | _ => markup_scan rest next 0 open_tags None
        end
      else
        let backslashes := if Ascii.eqb ch "\" then S backslashes else O in
        match tag with
        | Some (start, escaped, text) =>
            if (String.eqb text "" && negb (is_tag_start ch))%bool then
              markup_scan rest next backslashes open_tags None
            else
              markup_scan rest next backslashes open_tags
                (Some (start, escaped, text ++ String ch EmptyString))
        | None => markup_scan rest next backslashes open_tags None
        end
  end.

(** A sample console, for evaluating runs on concrete texts: the matching
    of tags of [rich.markup.render].  A tag is a bracketed text that starts
    with a letter from a to z, [#], [/] or [@] and holds no opening bracket;
    an odd number of backslashes before it escapes it; a closing tag must
    name an open one.  Style names are compared as written (rich first
    normalises them, so that [b] and [bold] are one style), and the
    parameters of [@] tags are not evaluated. *)
Definition sample_console : RichConsole :=
  {| markup_error := fun text => markup_scan text 0 0 [] None |}.

(** An HTTP 200 response carrying the JSON document [v]. *)
Definition ok_response (v : PyVal) : Exn + Response :=
  inr {| status_code := 200; json := inr v |}.

Definition sample_args : Args :=
  {| email := "bob@company.com";
     password := "secret";
     member_group_id := 1234;
     advertiser_id := 5678;
     client_name := "myretailer";
     site_id := "homepage";
     experience_name := None;
     base_url := "https://koddi.io/console/v1";
     timeout := 30;
     use_json := true |}.

(** The lines of the two loops of Check 4 differ by the warning sign that
    opens the first line of the command-line tool. *)
Definition lines_up_to_warn_prefix (cli web : list string) : Prop :=
  exists first rest, cli = (warn_prefix ++ first) :: rest /\ web = first :: rest.

(** Sample transports and responses. *)
Definition timing_out : Transport :=
  fun _ _ => inl (TimeoutException "timed out").

Definition login_success : Exn + Response :=
  ok_response
    (PDict [ ("status", PStr "success");
             ("result", PDict [("token", PDict [("id_token", PStr "abc")])]) ]).

Definition login_rejected : Response :=
  {| status_code := 401;
     json := inr (PDict [ ("status", PStr "error");
                          ("error_code", PStr "E401");
                          ("message", PStr "bad credentials") ]) |}.

Definition advertiser_found : Exn + Response :=
  ok_response
    (PDict [ ("status", PStr "success");
             ("result", PDict [ ("name", PStr "Acme");
                                ("status", PStr "active");
                                ("entity_count", PInt 3);
                                ("currency_code", PStr "USD") ]) ]).

Definition no_campaigns : Response :=
  {| status_code := 200;
     json := inr (PDict [ ("status", PStr "success");
                          ("result", PDict [ ("campaigns", PList []);
                                             ("total", PInt 0) ]) ]) |}.

Definition one_campaign : Response :=
  {| status_code := 200;
     json :=
       inr (PDict
              [ ("status", PStr "success");
                ("result",
                 PDict [ ("campaigns",
                          PList [PDict [ ("name", PStr "Spring");
                                         ("status", PStr "active");
                                         ("always_on", PBool true);
                                         ("budget_type", PStr "daily");
                                         ("budget_amount", PInt 100) ]]);
                         ("total", PInt 1) ]) ]) |}.

(** The login succeeds, then the network is unreachable. *)
Definition advertiser_down : Transport :=
  scripted (fun n =>
              match n with
              | O => login_success
              | _ => inl (ConnectError "connection refused")
              end).

(** Login and advertiser succeed, the advertiser has no campaign, and every
    later call times out. *)
Definition empty_advertiser : nat -> Exn + Response :=
  fun n =>
    match n with
    | O => login_success
    | 1%nat => advertiser_found
    | 2%nat => inr no_campaigns
    | _ => inl (TimeoutException "timed out")
    end.

(** The sample arguments without [--json-output]: the run prints on the
    console. *)
Definition console_args : Args :=
  {| email := "bob@company.com";
     password := "secret";
     member_group_id := 1234;
     advertiser_id := 5678;
     client_name := "myretailer";
     site_id := "homepage";
     experience_name := None;
     base_url := "https://koddi.io/console/v1";
     timeout := 30;
     use_json := false |}.

(** An error envelope. *)
Definition error_response (code : Z) (error_code message : string)
    : Exn + Response :=
  inr {| status_code := code;
         json := inr (PDict [ ("status", PStr "error");
                              ("error_code", PStr error_code);
                              ("message", PStr message) ]) |}.

(** The login is refused with a message that quotes the route between
    brackets, and every later call times out. *)
Definition login_without_route : nat -> Exn + Response :=
  fun n =>
    match n with
    | O => error_response 404 "E404" "no route [/session/login]"
    | _ => inl (TimeoutException "timed out")
    end.

(** The login succeeds, the advertiser request is refused with a message
    that quotes the route between brackets, and every later call times
    out. *)
Definition advertiser_without_route : nat -> Exn + Response :=
  fun n =>
    match n with
    | O => login_success
    | 1%nat => error_response 404 "E404" "no route [/advertisers/5678]"
    | _ => inl (TimeoutException "timed out")
    end.

(** An account in which every check passes, with one campaign of the given
    name. *)
Definition healthy_account (campaign : string) : nat -> Exn + Response :=
  fun n =>
    match n with
    | O => login_success
    | 1%nat => advertiser_found
    | 2%nat =>
        ok_response
          (PDict
             [ ("status", PStr "success");
               ("result",
                PDict [ ("campaigns",
                         PList [PDict [ ("name", PStr campaign);
                                        ("status", PStr "active");
                                        ("always_on", PBool true);
                                        ("budget_type", PStr "daily");
                                        ("budget_amount", PInt 100) ]]);
                        ("total", PInt 1) ]) ])
    | 3%nat =>
        ok_response
          (PDict [ ("status", PStr "success");
                   ("result", PDict [ ("registrations", PList []);
                                      ("total", PInt 0) ]) ])
    | 4%nat =>
        ok_response
          (PDict [ ("status", PStr "success");
                   ("result", PDict [("active_bidders", PList [PInt 1])]) ])
    | 5%nat =>
        ok_response
          (PDict [ ("status", PStr "success");
                   ("result",
                    PDict [("attributable_entities", PList [PInt 1])]) ])
    | _ =>
        ok_response (PDict [("sponsored_listings", PList [PDict []])])
    end.

(** ** Vocabulary of the further properties *)

(** One line of the listing of registration failures. *)
Definition failure_line `{PyRuntime} (kvs : list (string * PyVal)) : string :=
  "  • [" ++ py_str (dict_get kvs "error_code" (PStr "N/A")) ++ "] "
  ++ py_str (dict_get kvs "error_message" (PStr "N/A")).

(** The entry of a result in the JSON report. *)
Definition report_entry (r : CheckResult) : PyVal :=
  PDict [ ("check", PInt (number r));
          ("name", PStr (name r));
          ("status", PStr (Status_value (status r)));
          ("details", PStr (details r)) ].

(** What the reports show of a result: everything but [extra]. *)
Definition shown (r : CheckResult) : Z * string * Status * string :=
  (number r, name r, status r, details r).

(** [r] is the result of the executed check [num], and is a pass or a
    failure. *)
Definition pass_or_fail (num : Z) (r : CheckResult) : Prop :=
  number r = num /\ (status r = PASS \/ status r = FAIL).

(** The three shapes of a run: the token of Check 1, the results and the
    calls issued, in order.  [auction] is the request of Check 7. *)
Inductive run_path (a : Args) (auction : Request)
    : PyVal -> list CheckResult -> list Request -> Prop :=
| path_auth_failed (r1 r7 : CheckResult) :
    number r1 = 1 -> status r1 = FAIL -> pass_or_fail 7 r7 ->
    run_path a auction PNone
      [ r1;
        skipped "authentication failed" 2 "Advertiser Exists";
        skipped "authentication failed" 3 "Campaigns Report";
        skipped "authentication failed" 4 "Entity Registration Failures";
        skipped "authentication failed" 5 "Active Bidders Cache";
        skipped "authentication failed" 6 "Attributable Entities Cache";
        r7 ]
      [ login_request (rstrip_slash (base_url a)) (email a) (password a)
          (member_group_id a);
        auction ]
| path_advertiser_failed (tok : PyVal) (r1 r2 r5 r6 r7 : CheckResult) :
    py_truthy tok = true ->
    number r1 = 1 -> status r1 = PASS ->
    number r2 = 2 -> status r2 = FAIL ->
    executed 5 r5 -> executed 6 r6 -> pass_or_fail 7 r7 ->
    run_path a auction tok
      [ r1; r2;
        skipped "advertiser check failed" 3 "Campaigns Report";
        skipped "advertiser check failed" 4 "Entity Registration Failures";
        r5; r6; r7 ]
      [ login_request (rstrip_slash (base_url a)) (email a) (password a)
          (member_group_id a);
        advertiser_request (rstrip_slash (base_url a)) tok (member_group_id a)
          (advertiser_id a);
        active_bidders_request (rstrip_slash (base_url a)) tok
          (member_group_id a);
        attributable_entities_request (rstrip_slash (base_url a)) tok
          (member_group_id a);
        auction ]
| path_all_run (tok : PyVal) (r1 r2 r3 r4 r5 r6 r7 : CheckResult) :
    py_truthy tok = true ->
    number r1 = 1 -> status r1 = PASS ->
    number r2 = 2 -> status r2 = PASS ->
    executed 3 r3 -> executed 4 r4 -> executed 5 r5 -> executed 6 r6 ->
    pass_or_fail 7 r7 ->
    run_path a auction tok [r1; r2; r3; r4; r5; r6; r7]
      [ login_request (rstrip_slash (base_url a)) (email a) (password a)
          (member_group_id a);
        advertiser_request (rstrip_slash (base_url a)) tok (member_group_id a)
          (advertiser_id a);
        campaigns_request (rstrip_slash (base_url a)) tok (member_group_id a)
          (advertiser_id a);
        entity_failures_request (rstrip_slash (base_url a)) tok
          (member_group_id a) (advertiser_id a);
        active_bidders_request (rstrip_slash (base_url a)) tok
          (member_group_id a);
        attributable_entities_request (rstrip_slash (base_url a)) tok
          (member_group_id a);
        auction ].

(** Bytes 128 to 191 continue a UTF-8 character. *)
Fixpoint all_continuation (s : string) : bool :=
  match s with
  | EmptyString => true
  | String a rest => (is_continuation a && all_continuation rest)%bool
  end.

(** One character: a byte that starts it and the bytes that continue it. *)
Definition is_char (s : string) : bool :=
  match s with
  | EmptyString => false
  | String a rest => (negb (is_continuation a) && all_continuation rest)%bool
  end.

Fixpoint has_newline (s : string) : bool :=
  match s with
  | EmptyString => false
  | String a rest => (Ascii.eqb a (ascii_of_nat 10) || has_newline rest)%bool
  end.

(** [n] slashes. *)
Fixpoint slashes (n : nat) : string :=
  match n with
  | O => EmptyString
  | S k => String "/" (slashes k)
  end.

(** The arguments [a] with another base URL. *)
Definition with_base_url (a : Args) (b : string) : Args :=
  {| email := email a;
     password := password a;
     member_group_id := member_group_id a;
     advertiser_id := advertiser_id a;
     client_name := client_name a;
     site_id := site_id a;
     experience_name := experience_name a;
     base_url := b;
     timeout := timeout a;
     use_json := use_json a |}.

(** Bytes that continue a character, with none to start it. *)
Definition is_lead (s : string) : bool :=
  match s with
  | EmptyString => false
  | _ => all_continuation s
  end.

(** A list of characters, the first of which may lack its first byte. *)
Definition is_text (l : list string) : bool :=
  match l with
  | [] => true
  | c :: cs => ((is_char c || is_lead c) && forallb is_char cs)%bool
  end.

(** The value of a cache entry that is null ([None]) or a list. *)
Definition cache_value (cache : option (list PyVal)) : PyVal :=
  match cache with
  | None => PNone
  | Some l => PList l
  end.


(** The token of Check 1: carried by a pass, and by nothing else. *)
Definition token_with_pass (rt : CheckResult * PyVal) : Prop :=
  (status (fst rt) = PASS /\ details (fst rt) = "Authenticated successfully"
   /\ py_truthy (snd rt) = true)
  \/ (status (fst rt) = FAIL /\ snd rt = PNone).

(** ** Generic facts about checks *)

Lemma res_all_bind {A B : Type} (P : B -> Prop) (m : Res A) (k : A -> Res B) :
  (forall a, res_all P (k a)) -> res_all P (res_bind m k).
Proof.
  intros Hk. destruct m as [e | a]; simpl; [exact I | apply Hk].
Qed.

Lemma res_rel_bind {A B C : Type} (R : B -> C -> Prop) (m : Res A)
    (k1 : A -> Res B) (k2 : A -> Res C) :
  (forall a, res_rel R (k1 a) (k2 a)) ->
  res_rel R (res_bind m k1) (res_bind m k2).
Proof.
  intros Hk. destruct m as [e | a]; simpl; [reflexivity | apply Hk].
Qed.

(** A check is one call followed by code that leaves the client alone: its
    result is the [answer] to that call, and the call is recorded. *)
Lemma try_call_run {A : Type} (req : Request) (k : Response -> Res A)
    (h : Exn -> M A) :
  (forall e, exists r, forall c, h e c = (r, c)) ->
  forall c,
    try_except (resp <- client_send req ;; lift (k resp)) h c
    = (answer (try_except (resp <- client_send req ;; lift (k resp)) h)
         (transport c (calls c) req),
       record_call req c).
Proof.
  intros Hh c. unfold answer, try_except, bind, client_send, lift. simpl.
  destruct (transport c (calls c) req) as [e | resp].
  - destruct (Hh e) as [r Hr]. rewrite !Hr. reflexivity.
  - destruct (k resp) as [e | a]; [| reflexivity].
    destruct (Hh e) as [r Hr]. rewrite !Hr. reflexivity.
Qed.

(** A check whose handlers all return never raises, and what holds of every
    result of the body and of the handlers holds of the result. *)
Lemma try_call_total {A : Type} (P : A -> Prop) (req : Request)
    (k : Response -> Res A) (h : Exn -> M A) :
  (forall resp, res_all P (k resp)) ->
  (forall e c, exists a, h e c = (inr a, c) /\ P a) ->
  forall out,
    exists a,
      answer (try_except (resp <- client_send req ;; lift (k resp)) h) out
      = inr a /\ P a.
Proof.
  intros Hk Hh out. unfold answer, try_except, bind, client_send, lift. simpl.
  destruct out as [e | resp].
  - destruct (Hh e (record_call req (new_client (fun _ _ => inl e))))
      as [a [Ha HP]].
    rewrite Ha. exists a. split; [reflexivity | exact HP].
  - specialize (Hk resp). destruct (k resp) as [e | a].
    + destruct (Hh e (record_call req (new_client (fun _ _ => inr resp))))
        as [a [Ha HP]].
      rewrite Ha. exists a. split; [reflexivity | exact HP].
    + exists a. split; [reflexivity | exact Hk].
Qed.

Lemma bind_run {A B : Type} (m : M A) (k : A -> M B) (c c' : Client) (a : A) :
  m c = (inr a, c') -> bind m k c = k a c'.
Proof.
  intros Hm. unfold bind. rewrite Hm. reflexivity.
Qed.

(** ** Each check is one call, and never raises *)

Ltac handler_returns :=
  let e := fresh "e" in
  intros e; destruct e; eexists; intros; reflexivity.

Ltac res_leaf :=
  cbv beta iota zeta delta [res_all executed auth_result fst snd check_result
                            number status];
  repeat split; try reflexivity; try discriminate; auto.

Ltac res_steps :=
  cbv zeta;
  repeat first
    [ apply res_all_bind; intros
    | match goal with
      | |- res_all _ (if ?b then _ else _) => destruct b eqn:?
      end ];
  try res_leaf.

Ltac handler_total :=
  let e := fresh "e" in
  let c := fresh "c" in
  intros e c; destruct e; eexists; (split; [reflexivity | res_leaf]).

Section CliChecks.
Context `{PyRuntime}.

Lemma cli_check_auth_run (b e p : string) (m : Z) (c : Client) :
  koddi_healthcheck.check_auth b e p m c
  = (answer (koddi_healthcheck.check_auth b e p m)
       (transport c (calls c) (login_request b e p m)),
     record_call (login_request b e p m) c).
Proof.
  apply (try_call_run (login_request b e p m)). handler_returns.
Qed.

Lemma cli_check_auth_total (b e p : string) (m : Z) (out : Exn + Response) :
  exists rt,
    answer (koddi_healthcheck.check_auth b e p m) out = inr rt /\ auth_result rt.
Proof.
  apply (try_call_total auth_result (login_request b e p m)).
  - intros resp. res_steps.
  - handler_total.
Qed.

Lemma cli_check_advertiser_run (b : string) (tok : PyVal) (m a : Z) (c : Client) :
  koddi_healthcheck.check_advertiser b tok m a c
  = (answer (koddi_healthcheck.check_advertiser b tok m a)
       (transport c (calls c) (advertiser_request b tok m a)),
     record_call (advertiser_request b tok m a) c).
Proof.
  apply (try_call_run (advertiser_request b tok m a)). handler_returns.
Qed.

Lemma cli_check_advertiser_total (b : string) (tok : PyVal) (m a : Z) (out : Exn + Response) :
  exists r,
    answer (koddi_healthcheck.check_advertiser b tok m a) out = inr r /\ executed 2 r.
Proof.
  apply (try_call_total (executed 2) (advertiser_request b tok m a)).
  - intros resp. res_steps.
  - handler_total.
Qed.

Lemma cli_check_campaigns_run (b : string) (tok : PyVal) (m a : Z) (c : Client) :
  koddi_healthcheck.check_campaigns b tok m a c
  = (answer (koddi_healthcheck.check_campaigns b tok m a)
       (transport c (calls c) (campaigns_request b tok m a)),
     record_call (campaigns_request b tok m a) c).
Proof.
  apply (try_call_run (campaigns_request b tok m a)). handler_returns.
Qed.

Lemma cli_check_campaigns_total (b : string) (tok : PyVal) (m a : Z) (out : Exn + Response) :
  exists r,
    answer (koddi_healthcheck.check_campaigns b tok m a) out = inr r /\ executed 3 r.
Proof.
  apply (try_call_total (executed 3) (campaigns_request b tok m a)).
  - intros resp. res_steps.
  - handler_total.
Qed.

Lemma cli_check_entity_failures_run (b : string) (tok : PyVal) (m a : Z) (c : Client) :
  koddi_healthcheck.check_entity_failures b tok m a c
  = (answer (koddi_healthcheck.check_entity_failures b tok m a)
       (transport c (calls c) (entity_failures_request b tok m a)),
     record_call (entity_failures_request b tok m a) c).
Proof.
  apply (try_call_run (entity_failures_request b tok m a)). handler_returns.
Qed.

Lemma cli_check_entity_failures_total (b : string) (tok : PyVal) (m a : Z) (out : Exn + Response) :
  exists r,
    answer (koddi_healthcheck.check_entity_failures b tok m a) out = inr r /\ executed 4 r.
Proof.
  apply (try_call_total (executed 4) (entity_failures_request b tok m a)).
  - intros resp. res_steps.
  - handler_total.
Qed.

Lemma cli_check_active_bidders_run (b : string) (tok : PyVal) (m : Z) (c : Client) :
  koddi_healthcheck.check_active_bidders b tok m c
  = (answer (koddi_healthcheck.check_active_bidders b tok m)
       (transport c (calls c) (active_bidders_request b tok m)),
     record_call (active_bidders_request b tok m) c).
Proof.
  apply (try_call_run (active_bidders_request b tok m)). handler_returns.
Qed.

Lemma cli_check_active_bidders_total (b : string) (tok : PyVal) (m : Z) (out : Exn + Response) :
  exists r,
    answer (koddi_healthcheck.check_active_bidders b tok m) out = inr r /\ executed 5 r.
Proof.
  apply (try_call_total (executed 5) (active_bidders_request b tok m)).
  - intros resp. res_steps.
  - handler_total.
Qed.

Lemma cli_check_attributable_entities_run (b : string) (tok : PyVal) (m : Z) (c : Client) :
  koddi_healthcheck.check_attributable_entities b tok m c
  = (answer (koddi_healthcheck.check_attributable_entities b tok m)
       (transport c (calls c) (attributable_entities_request b tok m)),
     record_call (attributable_entities_request b tok m) c).
Proof.
  apply (try_call_run (attributable_entities_request b tok m)). handler_returns.
Qed.

Lemma cli_check_attributable_entities_total (b : string) (tok : PyVal) (m : Z) (out : Exn + Response) :
  exists r,
    answer (koddi_healthcheck.check_attributable_entities b tok m) out = inr r /\ executed 6 r.
Proof.
  apply (try_call_total (executed 6) (attributable_entities_request b tok m)).
  - intros resp. res_steps.
  - handler_total.
Qed.

Lemma cli_check_winning_ads_run (cn sid : string) (ex : option string)
    (c : Client) :
  koddi_healthcheck.check_winning_ads cn sid ex c
  = (answer (koddi_healthcheck.check_winning_ads cn sid ex)
       (transport c (calls c) (auction_request cn sid ex)),
     record_call (auction_request cn sid ex) c).
Proof.
  destruct ex as [e |];
    [ apply (try_call_run (auction_request cn sid (Some e)))
    | apply (try_call_run (auction_request cn sid None)) ];
    handler_returns.
Qed.

Lemma cli_check_winning_ads_total (cn sid : string) (ex : option string)
    (out : Exn + Response) :
  exists r,
    answer (koddi_healthcheck.check_winning_ads cn sid ex) out = inr r /\ executed 7 r.
Proof.
  destruct ex as [e |].
  - apply (try_call_total (executed 7) (auction_request cn sid (Some e)));
      [intros resp; res_steps | handler_total].
  - apply (try_call_total (executed 7) (auction_request cn sid None));
      [intros resp; res_steps | handler_total].
Qed.

End CliChecks.

Section WebChecks.
Context `{PyRuntime}.

Lemma web_check_auth_run (b e p : string) (m : Z) (c : Client) :
  app.check_auth b e p m c
  = (answer (app.check_auth b e p m)
       (transport c (calls c) (login_request b e p m)),
     record_call (login_request b e p m) c).
Proof.
  apply (try_call_run (login_request b e p m)). handler_returns.
Qed.

Lemma web_check_auth_total (b e p : string) (m : Z) (out : Exn + Response) :
  exists rt,
    answer (app.check_auth b e p m) out = inr rt /\ auth_result rt.
Proof.
  apply (try_call_total auth_result (login_request b e p m)).
  - intros resp. res_steps.
  - handler_total.
Qed.

Lemma web_check_advertiser_run (b : string) (tok : PyVal) (m a : Z) (c : Client) :
  app.check_advertiser b tok m a c
  = (answer (app.check_advertiser b tok m a)
       (transport c (calls c) (advertiser_request b tok m a)),
     record_call (advertiser_request b tok m a) c).
Proof.
  apply (try_call_run (advertiser_request b tok m a)). handler_returns.
Qed.

Lemma web_check_advertiser_total (b : string) (tok : PyVal) (m a : Z) (out : Exn + Response) :
  exists r,
    answer (app.check_advertiser b tok m a) out = inr r /\ executed 2 r.
Proof.
  apply (try_call_total (executed 2) (advertiser_request b tok m a)).
  - intros resp. res_steps.
  - handler_total.
Qed.

Lemma web_check_campaigns_run (b : string) (tok : PyVal) (m a : Z) (c : Client) :
  app.check_campaigns b tok m a c
  = (answer (app.check_campaigns b tok m a)
       (transport c (calls c) (campaigns_request b tok m a)),
     record_call (campaigns_request b tok m a) c).
Proof.
  apply (try_call_run (campaigns_request b tok m a)). handler_returns.
Qed.

Lemma web_check_campaigns_total (b : string) (tok : PyVal) (m a : Z) (out : Exn + Response) :
  exists r,
    answer (app.check_campaigns b tok m a) out = inr r /\ executed 3 r.
Proof.
  apply (try_call_total (executed 3) (campaigns_request b tok m a)).
  - intros resp. res_steps.
  - handler_total.
Qed.

Lemma web_check_entity_failures_run (b : string) (tok : PyVal) (m a : Z) (c : Client) :
  app.check_entity_failures b tok m a c
  = (answer (app.check_entity_failures b tok m a)
       (transport c (calls c) (entity_failures_request b tok m a)),
     record_call (entity_failures_request b tok m a) c).
Proof.
  apply (try_call_run (entity_failures_request b tok m a)). handler_returns.
Qed.

Lemma web_check_entity_failures_total (b : string) (tok : PyVal) (m a : Z) (out : Exn + Response) :
  exists r,
    answer (app.check_entity_failures b tok m a) out = inr r /\ executed 4 r.
Proof.
  apply (try_call_total (executed 4) (entity_failures_request b tok m a)).
  - intros resp. res_steps.
  - handler_total.
Qed.

Lemma web_check_active_bidders_run (b : string) (tok : PyVal) (m : Z) (c : Client) :
  app.check_active_bidders b tok m c
  = (answer (app.check_active_bidders b tok m)
       (transport c (calls c) (active_bidders_request b tok m)),
     record_call (active_bidders_request b tok m) c).
Proof.
  apply (try_call_run (active_bidders_request b tok m)). handler_returns.
Qed.

Lemma web_check_active_bidders_total (b : string) (tok : PyVal) (m : Z) (out : Exn + Response) :
  exists r,
    answer (app.check_active_bidders b tok m) out = inr r /\ executed 5 r.
Proof.
  apply (try_call_total (executed 5) (active_bidders_request b tok m)).
  - intros resp. res_steps.
  - handler_total.
Qed.

Lemma web_check_attributable_entities_run (b : string) (tok : PyVal) (m : Z) (c : Client) :
  app.check_attributable_entities b tok m c
  = (answer (app.check_attributable_entities b tok m)
       (transport c (calls c) (attributable_entities_request b tok m)),
     record_call (attributable_entities_request b tok m) c).
Proof.
  apply (try_call_run (attributable_entities_request b tok m)). handler_returns.
Qed.

Lemma web_check_attributable_entities_total (b : string) (tok : PyVal) (m : Z) (out : Exn + Response) :
  exists r,
    answer (app.check_attributable_entities b tok m) out = inr r /\ executed 6 r.
Proof.
  apply (try_call_total (executed 6) (attributable_entities_request b tok m)).
  - intros resp. res_steps.
  - handler_total.
Qed.

Lemma web_check_winning_ads_run (cn sid : string) (ex : option string)
    (c : Client) :
  app.check_winning_ads cn sid ex c
  = (answer (app.check_winning_ads cn sid ex)
       (transport c (calls c) (auction_request cn sid (web_experience ex))),
     record_call (auction_request cn sid (web_experience ex)) c).
Proof.
  destruct ex as [e |]; unfold app.check_winning_ads, web_experience;
    cbv beta iota zeta; [destruct (String.eqb e "") |].
  - apply (try_call_run (auction_request cn sid None)). handler_returns.
  - apply (try_call_run (auction_request cn sid (Some e))). handler_returns.
  - apply (try_call_run (auction_request cn sid None)). handler_returns.
Qed.

Lemma web_check_winning_ads_total (cn sid : string) (ex : option string)
    (out : Exn + Response) :
  exists r,
    answer (app.check_winning_ads cn sid ex) out = inr r /\ executed 7 r.
Proof.
  destruct ex as [e |]; unfold app.check_winning_ads;
    cbv beta iota zeta; [destruct (String.eqb e "") |].
  - apply (try_call_total (executed 7) (auction_request cn sid None));
      [intros resp; res_steps | handler_total].
  - apply (try_call_total (executed 7) (auction_request cn sid (Some e)));
      [intros resp; res_steps | handler_total].
  - apply (try_call_total (executed 7) (auction_request cn sid None));
      [intros resp; res_steps | handler_total].
Qed.

End WebChecks.

(** ** Printing on the lenient console *)

Lemma bind_yields {A B : Type} (m : M A) (v : A) (k : A -> M B) (c : Client) :
  yields m v -> bind m k c = k v c.
Proof. intros Hm. unfold bind. rewrite Hm. reflexivity. Qed.

Lemma yields_ret {A : Type} (v : A) : yields (ret v) v.
Proof. intros c. reflexivity. Qed.

Lemma yields_bind {A B : Type} (m : M A) (v : A) (k : A -> M B) (w : B) :
  yields m v -> yields (k v) w -> yields (bind m k) w.
Proof. intros Hm Hk c. rewrite (bind_yields m v k c Hm). apply Hk. Qed.

Lemma yields_if {A : Type} (b : bool) (m1 m2 : M A) (v1 v2 : A) :
  yields m1 v1 -> yields m2 v2 ->
  yields (if b then m1 else m2) (if b then v1 else v2).
Proof. destruct b; auto. Qed.

Lemma yields_for_each_m {A S : Type} (f : S -> A -> S) (items : list A)
    (body : A -> S -> M S) :
  (forall x acc, yields (body x acc) (f acc x)) ->
  forall acc, yields (for_each_m items body acc) (fold_left f items acc).
Proof.
  intros Hbody. induction items as [| x rest IH]; intros acc; simpl.
  - apply yields_ret.
  - eapply yields_bind; [apply Hbody | apply IH].
Qed.

Lemma lenient_render (text : string) :
  yields (@console_render lenient_console text) tt.
Proof. intros c. reflexivity. Qed.

Lemma lenient_print_result (r : CheckResult) (use_json : bool) :
  yields (@koddi_healthcheck.print_result lenient_console r use_json) tt.
Proof. destruct use_json; intros c; reflexivity. Qed.

Lemma lenient_print_check_header (number : Z) (name : string) (use_json : bool) :
  yields (@koddi_healthcheck.print_check_header lenient_console number name
            use_json) tt.
Proof. destruct use_json; intros c; reflexivity. Qed.

Lemma yields_for_each_unit {A : Type} (items : list A)
    (body : A -> unit -> M unit) :
  (forall x, yields (body x tt) tt) -> yields (for_each_m items body tt) tt.
Proof.
  intros Hbody. induction items as [| x rest IH]; simpl.
  - apply yields_ret.
  - eapply yields_bind; [apply Hbody | exact IH].
Qed.

Lemma lenient_print_table (table : Table) :
  yields (@console_print_table lenient_console table) tt.
Proof.
  unfold console_print_table.
  apply yields_for_each_unit. intros [header column].
  eapply yields_bind; [apply lenient_render |].
  apply yields_for_each_unit.
  intros [s | s]; [apply lenient_render | apply yields_ret].
Qed.

Lemma lenient_print_summary `{PyRuntime} (results : list CheckResult) :
  yields (@koddi_healthcheck.print_summary lenient_console results) tt.
Proof.
  unfold koddi_healthcheck.print_summary.
  destruct (koddi_healthcheck.print_summary_counts results)
    as [[[passes warns] fails] skips].
  intros c. unfold console_print_blank, console_rule, console_print.
  repeat first [ rewrite (bind_yields _ tt) by apply yields_ret
               | rewrite (bind_yields _ tt) by apply lenient_render
               | rewrite (bind_yields _ tt) by apply lenient_print_table ].
  apply yields_ret.
Qed.

(** ** The three paths of a run *)

Lemma bind_answer {A B : Type} (chk : M A) (req : Request) (k : A -> M B)
    (c : Client) (a : A) :
  (forall c, chk c = (answer chk (transport c (calls c) req), record_call req c)) ->
  answer chk (transport c (calls c) req) = inr a ->
  bind chk k c = k a (record_call req c).
Proof.
  intros Hrun Ha. apply bind_run. rewrite Hrun, Ha. reflexivity.
Qed.

Ltac finish_run :=
  unfold run_output, any_failed; cbn [existsb];
  repeat match goal with
         | E : Status_eqb (status _) FAIL = _ |- _ => rewrite E; clear E
         end;
  repeat match goal with
         | |- context [Status_eqb (status ?r) FAIL] =>
             is_var r; destruct (Status_eqb (status r) FAIL)
         end;
  reflexivity.


Ltac yields_solve :=
  cbv beta iota zeta;
  repeat first
    [ apply yields_ret
    | apply lenient_render
    | apply lenient_print_result
    | apply lenient_print_check_header
    | apply lenient_print_summary
    | apply yields_if
    | eapply yields_bind
    | progress cbn [for_each_m]
    | progress cbv beta iota zeta ].

(** Past the printing that comes next. *)
Ltac skip_prints :=
  repeat (erewrite bind_yields by yields_solve; cbv beta iota zeta).

(** Past the call of the check that comes next. *)
Ltac run_check req r Hrun Hanswer :=
  match goal with
  | |- context [bind _ _ ?c] =>
      rewrite (bind_answer _ req _ c r Hrun Hanswer)
  end;
  cbv beta iota zeta.

Section CliPaths.
Context `{PyRuntime}.
Variable net : Transport.
Variable a : Args.

Let base := rstrip_slash (base_url a).
Let login := login_request base (email a) (password a) (member_group_id a).
Let auction :=
  auction_request (client_name a) (site_id a) (experience_name a).

(** Authentication gave no token: checks 2 to 6 are skipped. *)
Lemma cli_main_auth_failed (r1 r7 : CheckResult) :
  answer (koddi_healthcheck.check_auth base (email a) (password a)
            (member_group_id a)) (net [] login) = inr (r1, PNone) ->
  answer (koddi_healthcheck.check_winning_ads (client_name a) (site_id a)
            (experience_name a)) (net [login] auction) = inr r7 ->
  lenient_main net a
  = (inr (run_output a
           
            [ r1;
              skipped "authentication failed" 2 "Advertiser Exists";
              skipped "authentication failed" 3 "Campaigns Report";
              skipped "authentication failed" 4 "Entity Registration Failures";
              skipped "authentication failed" 5 "Active Bidders Cache";
              skipped "authentication failed" 6 "Attributable Entities Cache";
              r7 ]),
     {| transport := net; calls := [login; auction] |}).
Proof.
  intros H1 H7. unfold lenient_main, koddi_healthcheck.main.
  unfold console_print_blank, console_rule, console_print.
  skip_prints.
  run_check login (r1, PNone) (cli_check_auth_run base (email a) (password a)
                                 (member_group_id a)) H1.
  cbn [py_is_none]. unfold auth_dependent. skip_prints.
  run_check auction r7 (cli_check_winning_ads_run (client_name a) (site_id a)
                          (experience_name a)) H7.
  skip_prints. unfold ret, run_output.
  destruct (use_json a); finish_run.
Qed.

Variable tok : PyVal.
Hypothesis tok_some : py_is_none tok = false.

Let advertiser :=
  advertiser_request base tok (member_group_id a) (advertiser_id a).
Let campaigns :=
  campaigns_request base tok (member_group_id a) (advertiser_id a).
Let entity_failures :=
  entity_failures_request base tok (member_group_id a) (advertiser_id a).
Let active_bidders := active_bidders_request base tok (member_group_id a).
Let attributable_entities :=
  attributable_entities_request base tok (member_group_id a).

(** The advertiser check failed: checks 3 and 4 are skipped, 5 and 6 run. *)
Lemma cli_main_advertiser_failed (r1 r2 r5 r6 r7 : CheckResult) :
  answer (koddi_healthcheck.check_auth base (email a) (password a)
            (member_group_id a)) (net [] login) = inr (r1, tok) ->
  answer (koddi_healthcheck.check_advertiser base tok (member_group_id a)
            (advertiser_id a)) (net [login] advertiser) = inr r2 ->
  Status_eqb (status r2) FAIL = true ->
  answer (koddi_healthcheck.check_active_bidders base tok (member_group_id a))
    (net [login; advertiser] active_bidders) = inr r5 ->
  answer (koddi_healthcheck.check_attributable_entities base tok
            (member_group_id a))
    (net [login; advertiser; active_bidders] attributable_entities) = inr r6 ->
  answer (koddi_healthcheck.check_winning_ads (client_name a) (site_id a)
            (experience_name a))
    (net [login; advertiser; active_bidders; attributable_entities] auction)
  = inr r7 ->
  lenient_main net a
  = (inr (run_output a
           
            [ r1; r2;
              skipped "advertiser check failed" 3 "Campaigns Report";
              skipped "advertiser check failed" 4
                "Entity Registration Failures";
              r5; r6; r7 ]),
     {| transport := net;
        calls := [login; advertiser; active_bidders; attributable_entities;
                  auction] |}).
Proof.
  intros H1 H2 F2 H5 H6 H7. unfold lenient_main, koddi_healthcheck.main.
  unfold console_print_blank, console_rule, console_print.
  skip_prints.
  run_check login (r1, tok) (cli_check_auth_run base (email a) (password a)
                               (member_group_id a)) H1.
  skip_prints. rewrite tok_some. cbv iota. unfold bind at 1. skip_prints.
  run_check advertiser r2 (cli_check_advertiser_run base tok (member_group_id a)
                             (advertiser_id a)) H2.
  skip_prints. rewrite F2. unfold auth_dependent, list_slice.
  cbn [firstn skipn Nat.sub]. skip_prints.
  run_check active_bidders r5 (cli_check_active_bidders_run base tok
                                 (member_group_id a)) H5.
  skip_prints.
  run_check attributable_entities r6
    (cli_check_attributable_entities_run base tok (member_group_id a)) H6.
  skip_prints. unfold ret at 1. cbv beta iota. skip_prints.
  run_check auction r7 (cli_check_winning_ads_run (client_name a) (site_id a)
                          (experience_name a)) H7.
  skip_prints. unfold ret, run_output.
  destruct (use_json a); finish_run.
Qed.

(** The advertiser check did not fail: every check runs. *)
Lemma cli_main_all_run (r1 r2 r3 r4 r5 r6 r7 : CheckResult) :
  answer (koddi_healthcheck.check_auth base (email a) (password a)
            (member_group_id a)) (net [] login) = inr (r1, tok) ->
  answer (koddi_healthcheck.check_advertiser base tok (member_group_id a)
            (advertiser_id a)) (net [login] advertiser) = inr r2 ->
  Status_eqb (status r2) FAIL = false ->
  answer (koddi_healthcheck.check_campaigns base tok (member_group_id a)
            (advertiser_id a)) (net [login; advertiser] campaigns) = inr r3 ->
  answer (koddi_healthcheck.check_entity_failures base tok (member_group_id a)
            (advertiser_id a))
    (net [login; advertiser; campaigns] entity_failures) = inr r4 ->
  answer (koddi_healthcheck.check_active_bidders base tok (member_group_id a))
    (net [login; advertiser; campaigns; entity_failures] active_bidders)
  = inr r5 ->
  answer (koddi_healthcheck.check_attributable_entities base tok
            (member_group_id a))
    (net [login; advertiser; campaigns; entity_failures; active_bidders]
       attributable_entities) = inr r6 ->
  answer (koddi_healthcheck.check_winning_ads (client_name a) (site_id a)
            (experience_name a))
    (net [login; advertiser; campaigns; entity_failures; active_bidders;
          attributable_entities] auction) = inr r7 ->
  lenient_main net a
  = (inr (run_output a
           [r1; r2; r3; r4; r5; r6; r7]),
     {| transport := net;
        calls := [login; advertiser; campaigns; entity_failures;
                  active_bidders; attributable_entities; auction] |}).
Proof.
  intros H1 H2 F2 H3 H4 H5 H6 H7. unfold lenient_main, koddi_healthcheck.main.
  unfold console_print_blank, console_rule, console_print.
  skip_prints.
  run_check login (r1, tok) (cli_check_auth_run base (email a) (password a)
                               (member_group_id a)) H1.
  skip_prints. rewrite tok_some. cbv iota. unfold bind at 1. skip_prints.
  run_check advertiser r2 (cli_check_advertiser_run base tok (member_group_id a)
                             (advertiser_id a)) H2.
  skip_prints. rewrite F2. cbv iota. unfold bind at 1. skip_prints.
  run_check campaigns r3 (cli_check_campaigns_run base tok (member_group_id a)
                            (advertiser_id a)) H3.
  skip_prints.
  run_check entity_failures r4
    (cli_check_entity_failures_run base tok (member_group_id a)
       (advertiser_id a)) H4.
  skip_prints. unfold ret at 1. cbv beta iota. skip_prints.
  run_check active_bidders r5 (cli_check_active_bidders_run base tok
                                 (member_group_id a)) H5.
  skip_prints.
  run_check attributable_entities r6
    (cli_check_attributable_entities_run base tok (member_group_id a)) H6.
  skip_prints. unfold ret at 1. cbv beta iota. skip_prints.
  run_check auction r7 (cli_check_winning_ads_run (client_name a) (site_id a)
                          (experience_name a)) H7.
  skip_prints. unfold ret, run_output.
  destruct (use_json a); finish_run.
Qed.

End CliPaths.

Section WebPaths.
Context `{PyRuntime}.
Variable net : Transport.
Variable a : Args.

Let base := rstrip_slash (base_url a).
Let login := login_request base (email a) (password a) (member_group_id a).
Let auction :=
  auction_request (client_name a) (site_id a) (web_experience (experience_name a)).

(** Authentication gave no token: checks 2 to 6 are skipped. *)
Lemma web_run_checks_auth_failed (r1 r7 : CheckResult) :
  answer (app.check_auth base (email a) (password a)
            (member_group_id a)) (net [] login) = inr (r1, PNone) ->
  answer (app.check_winning_ads (client_name a) (site_id a)
            (experience_name a)) (net [login] auction) = inr r7 ->
  app.run_checks net a
  = (inr 
            [ r1;
              skipped "authentication failed" 2 "Advertiser Exists";
              skipped "authentication failed" 3 "Campaigns Report";
              skipped "authentication failed" 4 "Entity Registration Failures";
              skipped "authentication failed" 5 "Active Bidders Cache";
              skipped "authentication failed" 6 "Attributable Entities Cache";
              r7 ],
     {| transport := net; calls := [login; auction] |}).
Proof.
  intros H1 H7. unfold app.run_checks.
  rewrite (bind_answer _ login _ (new_client net) (r1, PNone)
             (web_check_auth_run _ _ _ _) H1).
  cbv beta iota zeta delta [py_is_none].
  unfold bind at 1, ret at 1. cbv beta iota.
  rewrite (bind_answer _ auction _ (record_call login (new_client net)) r7
             (web_check_winning_ads_run _ _ _) H7).
  reflexivity.
Qed.

Variable tok : PyVal.
Hypothesis tok_some : py_is_none tok = false.

Let advertiser :=
  advertiser_request base tok (member_group_id a) (advertiser_id a).
Let campaigns :=
  campaigns_request base tok (member_group_id a) (advertiser_id a).
Let entity_failures :=
  entity_failures_request base tok (member_group_id a) (advertiser_id a).
Let active_bidders := active_bidders_request base tok (member_group_id a).
Let attributable_entities :=
  attributable_entities_request base tok (member_group_id a).

(** The advertiser check failed: checks 3 and 4 are skipped, 5 and 6 run. *)
Lemma web_run_checks_advertiser_failed (r1 r2 r5 r6 r7 : CheckResult) :
  answer (app.check_auth base (email a) (password a)
            (member_group_id a)) (net [] login) = inr (r1, tok) ->
  answer (app.check_advertiser base tok (member_group_id a)
            (advertiser_id a)) (net [login] advertiser) = inr r2 ->
  Status_eqb (status r2) FAIL = true ->
  answer (app.check_active_bidders base tok (member_group_id a))
    (net [login; advertiser] active_bidders) = inr r5 ->
  answer (app.check_attributable_entities base tok
            (member_group_id a))
    (net [login; advertiser; active_bidders] attributable_entities) = inr r6 ->
  answer (app.check_winning_ads (client_name a) (site_id a)
            (experience_name a))
    (net [login; advertiser; active_bidders; attributable_entities] auction)
  = inr r7 ->
  app.run_checks net a
  = (inr 
            [ r1; r2;
              skipped "advertiser check failed" 3 "Campaigns Report";
              skipped "advertiser check failed" 4
                "Entity Registration Failures";
              r5; r6; r7 ],
     {| transport := net;
        calls := [login; advertiser; active_bidders; attributable_entities;
                  auction] |}).
Proof.
  intros H1 H2 F2 H5 H6 H7. unfold app.run_checks.
  rewrite (bind_answer _ login _ (new_client net) (r1, tok)
             (web_check_auth_run _ _ _ _) H1).
  cbv beta iota zeta. rewrite tok_some.
  unfold bind at 1.
  rewrite (bind_answer _ advertiser _ (record_call login (new_client net)) r2
             (web_check_advertiser_run _ _ _ _) H2).
  rewrite F2. cbv beta iota zeta.
  unfold bind at 1, ret at 1. cbv beta iota.
  rewrite (bind_answer _ active_bidders _
             (record_call advertiser (record_call login (new_client net))) r5
             (web_check_active_bidders_run _ _ _) H5).
  rewrite (bind_answer _ attributable_entities _
             (record_call active_bidders
                (record_call advertiser (record_call login (new_client net))))
             r6 (web_check_attributable_entities_run _ _ _) H6).
  unfold ret at 1. cbv beta iota.
  rewrite (bind_answer _ auction _
             (record_call attributable_entities
                (record_call active_bidders
                   (record_call advertiser
                      (record_call login (new_client net)))))
             r7 (web_check_winning_ads_run _ _ _) H7).
  reflexivity.
Qed.

(** The advertiser check did not fail: every check runs. *)
Lemma web_run_checks_all_run (r1 r2 r3 r4 r5 r6 r7 : CheckResult) :
  answer (app.check_auth base (email a) (password a)
            (member_group_id a)) (net [] login) = inr (r1, tok) ->
  answer (app.check_advertiser base tok (member_group_id a)
            (advertiser_id a)) (net [login] advertiser) = inr r2 ->
  Status_eqb (status r2) FAIL = false ->
  answer (app.check_campaigns base tok (member_group_id a)
            (advertiser_id a)) (net [login; advertiser] campaigns) = inr r3 ->
  answer (app.check_entity_failures base tok (member_group_id a)
            (advertiser_id a))
    (net [login; advertiser; campaigns] entity_failures) = inr r4 ->
  answer (app.check_active_bidders base tok (member_group_id a))
    (net [login; advertiser; campaigns; entity_failures] active_bidders)
  = inr r5 ->
  answer (app.check_attributable_entities base tok
            (member_group_id a))
    (net [login; advertiser; campaigns; entity_failures; active_bidders]
       attributable_entities) = inr r6 ->
  answer (app.check_winning_ads (client_name a) (site_id a)
            (experience_name a))
    (net [login; advertiser; campaigns; entity_failures; active_bidders;
          attributable_entities] auction) = inr r7 ->
  app.run_checks net a
  = (inr [r1; r2; r3; r4; r5; r6; r7],
     {| transport := net;
        calls := [login; advertiser; campaigns; entity_failures;
                  active_bidders; attributable_entities; auction] |}).
Proof.
  intros H1 H2 F2 H3 H4 H5 H6 H7. unfold app.run_checks.
  rewrite (bind_answer _ login _ (new_client net) (r1, tok)
             (web_check_auth_run _ _ _ _) H1).
  cbv beta iota zeta. rewrite tok_some.
  unfold bind at 1.
  rewrite (bind_answer _ advertiser _ (record_call login (new_client net)) r2
             (web_check_advertiser_run _ _ _ _) H2).
  rewrite F2.
  unfold bind at 1.
  rewrite (bind_answer _ campaigns _
             (record_call advertiser (record_call login (new_client net))) r3
             (web_check_campaigns_run _ _ _ _) H3).
  rewrite (bind_answer _ entity_failures _
             (record_call campaigns
                (record_call advertiser (record_call login (new_client net))))
             r4 (web_check_entity_failures_run _ _ _ _) H4).
  unfold ret at 1. cbv beta iota.
  rewrite (bind_answer _ active_bidders _
             (record_call entity_failures
                (record_call campaigns
                   (record_call advertiser
                      (record_call login (new_client net)))))
             r5 (web_check_active_bidders_run _ _ _) H5).
  rewrite (bind_answer _ attributable_entities _
             (record_call active_bidders
                (record_call entity_failures
                   (record_call campaigns
                      (record_call advertiser
                         (record_call login (new_client net))))))
             r6 (web_check_attributable_entities_run _ _ _) H6).
  unfold ret at 1. cbv beta iota.
  rewrite (bind_answer _ auction _
             (record_call attributable_entities
                (record_call active_bidders
                   (record_call entity_failures
                      (record_call campaigns
                         (record_call advertiser
                            (record_call login (new_client net)))))))
             r7 (web_check_winning_ads_run _ _ _) H7).
  reflexivity.
Qed.

End WebPaths.

(** ** The run and the console *)

Lemma completes_as_refl {A : Type} (m : M A) : completes_as m m.
Proof. intros c a c' E. exact E. Qed.

Lemma completes_as_bind {A B : Type} (m m' : M A) (k k' : A -> M B) :
  completes_as m m' -> (forall a, completes_as (k a) (k' a)) ->
  completes_as (bind m k) (bind m' k').
Proof.
  intros Hm Hk c b c'. unfold bind.
  destruct (m c) as [[e | a] c1] eqn:E; [discriminate |].
  rewrite (Hm c a c1 E). apply Hk.
Qed.

Lemma completes_as_if {A : Type} (b : bool) (m1 m1' m2 m2' : M A) :
  completes_as m1 m1' -> completes_as m2 m2' ->
  completes_as (if b then m1 else m2) (if b then m1' else m2').
Proof. destruct b; auto. Qed.

Lemma completes_as_for_each_m {A S : Type} (items : list A)
    (body body' : A -> S -> M S) :
  (forall x acc, completes_as (body x acc) (body' x acc)) ->
  forall acc,
    completes_as (for_each_m items body acc) (for_each_m items body' acc).
Proof.
  intros Hbody. induction items as [| x rest IH]; intros acc; simpl.
  - apply completes_as_refl.
  - apply completes_as_bind; [apply Hbody | exact IH].
Qed.

(** What a console renders, the lenient console renders. *)
Lemma completes_as_render `{RichConsole} (text : string) :
  completes_as (console_render text) (@console_render lenient_console text).
Proof.
  intros c [] c'. unfold console_render. simpl.
  destruct (markup_error text); [discriminate | auto].
Qed.

Ltac completes_steps :=
  repeat first
    [ apply completes_as_render
    | apply completes_as_bind; [| intros ?]
    | apply completes_as_if
    | apply completes_as_for_each_m; intros ? ?
    | match goal with
      | |- completes_as (let (_, _) := ?x in _) _ => destruct x
      end
    | apply completes_as_refl ].

Lemma completes_as_print_result `{RichConsole} (r : CheckResult)
    (use_json : bool) :
  completes_as (koddi_healthcheck.print_result r use_json)
    (@koddi_healthcheck.print_result lenient_console r use_json).
Proof.
  unfold koddi_healthcheck.print_result, console_print. completes_steps.
Qed.

Lemma completes_as_print_check_header `{RichConsole} (number : Z)
    (name : string) (use_json : bool) :
  completes_as (koddi_healthcheck.print_check_header number name use_json)
    (@koddi_healthcheck.print_check_header lenient_console number name
       use_json).
Proof.
  unfold koddi_healthcheck.print_check_header, console_print. completes_steps.
Qed.

Lemma completes_as_print_table `{RichConsole} (table : Table) :
  completes_as (console_print_table table)
    (@console_print_table lenient_console table).
Proof.
  unfold console_print_table. apply completes_as_for_each_m.
  intros [header column] acc. completes_steps.
  destruct x; completes_steps.
Qed.

Lemma completes_as_print_summary `{PyRuntime} `{RichConsole}
    (results : list CheckResult) :
  completes_as (koddi_healthcheck.print_summary results)
    (@koddi_healthcheck.print_summary lenient_console results).
Proof.
  unfold koddi_healthcheck.print_summary, console_rule, console_print.
  destruct (koddi_healthcheck.print_summary_counts results)
    as [[[passes warns] fails] skips].
  repeat first [ apply completes_as_print_table
               | apply completes_as_render
               | apply completes_as_bind; [| intros ?]
               | apply completes_as_refl ].
Qed.

(** A run that returns on some console returns the same on the lenient one:
    the results, the calls and the exit code do not depend on the console. *)
Lemma main_on_any_console `{PyRuntime} `{RichConsole} (net : Transport)
    (a : Args) (out : RunOutput) (c : Client) :
  koddi_healthcheck.main net a = (inr out, c) ->
  lenient_main net a = (inr out, c).
Proof.
  unfold lenient_main, koddi_healthcheck.main.
  match goal with
  | |- ?m _ = _ -> ?m' _ = _ => assert (R : completes_as m m')
  end; [| apply R].
  unfold console_rule, console_print.
  repeat first
    [ apply completes_as_print_result
    | apply completes_as_print_check_header
    | apply completes_as_print_summary
    | apply completes_as_render
    | apply completes_as_bind; [| intros ?]
    | apply completes_as_if
    | apply completes_as_for_each_m; intros ? ?
    | match goal with
      | |- completes_as (let (_, _) := ?x in _) _ => destruct x
      end
    | apply completes_as_refl ].
Qed.

(** With [--json-output] nothing is printed through the console. *)
Lemma main_json_mode `{PyRuntime} `{RichConsole} (net : Transport) (a : Args) :
  use_json a = true -> koddi_healthcheck.main net a = lenient_main net a.
Proof.
  intros Hjson. unfold lenient_main, koddi_healthcheck.main.
  rewrite Hjson. reflexivity.
Qed.

Section ConsoleRaises.
Context `{PyRuntime} `{RichConsole}.

Lemma roc_ret {A : Type} (v : A) : returns_or_console_raises (ret v).
Proof. intros c. left. exists v, c. reflexivity. Qed.

Lemma roc_bind {A B : Type} (m : M A) (k : A -> M B) :
  returns_or_console_raises m ->
  (forall a, returns_or_console_raises (k a)) ->
  returns_or_console_raises (bind m k).
Proof.
  intros Hm Hk c. unfold bind.
  destruct (Hm c) as [(a & c1 & E) | (text & msg & c1 & Ht & E)]; rewrite E.
  - apply Hk.
  - right. exists text, msg, c1. split; [exact Ht | reflexivity].
Qed.

Lemma roc_if {A : Type} (b : bool) (m1 m2 : M A) :
  returns_or_console_raises m1 -> returns_or_console_raises m2 ->
  returns_or_console_raises (if b then m1 else m2).
Proof. destruct b; auto. Qed.

Lemma roc_for_each_m {A S : Type} (items : list A) (body : A -> S -> M S) :
  (forall x acc, returns_or_console_raises (body x acc)) ->
  forall acc, returns_or_console_raises (for_each_m items body acc).
Proof.
  intros Hbody. induction items as [| x rest IH]; intros acc; simpl.
  - apply roc_ret.
  - apply roc_bind; [apply Hbody | exact IH].
Qed.

Lemma roc_render (text : string) :
  returns_or_console_raises (console_render text).
Proof.
  intros c. unfold console_render.
  destruct (markup_error text) as [msg |] eqn:E.
  - right. exists text, msg, c. split; [exact E | reflexivity].
  - left. exists tt, c. reflexivity.
Qed.

(** A check returns: it is one call, and every answer gives a result. *)
Lemma roc_check {A : Type} (P : A -> Prop) (chk : M A) (req : Request) :
  (forall c, chk c = (answer chk (transport c (calls c) req), record_call req c)) ->
  (forall out, exists a, answer chk out = inr a /\ P a) ->
  returns_or_console_raises chk.
Proof.
  intros Hrun Htotal c. left.
  destruct (Htotal (transport c (calls c) req)) as [a [E _]].
  exists a, (record_call req c). rewrite Hrun, E. reflexivity.
Qed.

Ltac roc_steps :=
  repeat first
    [ apply roc_ret
    | apply roc_render
    | apply roc_bind; [| intros ?]
    | apply roc_if
    | apply roc_for_each_m; intros ? ?; cbv beta
    | match goal with
      | |- returns_or_console_raises (let (_, _) := ?x in _) => destruct x
      | |- returns_or_console_raises ((let (_, _) := ?x in _) _) =>
          destruct x
      | |- returns_or_console_raises (match ?x with Str _ => _ | Text _ => _ end)
        => destruct x
      end ].

Lemma roc_print_summary (results : list CheckResult) :
  returns_or_console_raises (koddi_healthcheck.print_summary results).
Proof.
  unfold koddi_healthcheck.print_summary, console_rule, console_print,
    console_print_blank, console_print_table.
  destruct (koddi_healthcheck.print_summary_counts results)
    as [[[passes warns] fails] skips].
  roc_steps.
Qed.

(** A run of the command returns, or ends on what the console raised. *)
Lemma main_returns_or_console_raises (net : Transport) (a : Args) :
  (exists out c, koddi_healthcheck.main net a = (inr out, c))
  \/ (exists text msg c,
        markup_error text = Some msg
        /\ koddi_healthcheck.main net a = (inl (OtherException msg), c)).
Proof.
  unfold koddi_healthcheck.main.
  match goal with
  | |- (exists out c, ?m ?c0 = _) \/ _ =>
      assert (R : returns_or_console_raises m); [| exact (R c0)]
  end.
  unfold koddi_healthcheck.print_result, koddi_healthcheck.print_check_header,
    console_rule, console_print, console_print_blank.
  repeat first
    [ match goal with
      | |- returns_or_console_raises (let (_, _) := ?x in _) => destruct x
      | |- returns_or_console_raises ((let (_, _) := ?x in _) _) =>
          destruct x
      | |- returns_or_console_raises (koddi_healthcheck.print_summary _) =>
          apply roc_print_summary
      | |- returns_or_console_raises (koddi_healthcheck.check_auth _ _ _ _) =>
          apply (roc_check _ _ _ (cli_check_auth_run _ _ _ _)
                   (cli_check_auth_total _ _ _ _))
      | |- returns_or_console_raises
             (koddi_healthcheck.check_advertiser _ _ _ _) =>
          apply (roc_check _ _ _ (cli_check_advertiser_run _ _ _ _)
                   (cli_check_advertiser_total _ _ _ _))
      | |- returns_or_console_raises
             (koddi_healthcheck.check_campaigns _ _ _ _) =>
          apply (roc_check _ _ _ (cli_check_campaigns_run _ _ _ _)
                   (cli_check_campaigns_total _ _ _ _))
      | |- returns_or_console_raises
             (koddi_healthcheck.check_entity_failures _ _ _ _) =>
          apply (roc_check _ _ _ (cli_check_entity_failures_run _ _ _ _)
                   (cli_check_entity_failures_total _ _ _ _))
      | |- returns_or_console_raises
             (koddi_healthcheck.check_active_bidders _ _ _) =>
          apply (roc_check _ _ _ (cli_check_active_bidders_run _ _ _)
                   (cli_check_active_bidders_total _ _ _))
      | |- returns_or_console_raises
             (koddi_healthcheck.check_attributable_entities _ _ _) =>
          apply (roc_check _ _ _ (cli_check_attributable_entities_run _ _ _)
                   (cli_check_attributable_entities_total _ _ _))
      | |- returns_or_console_raises
             (koddi_healthcheck.check_winning_ads _ _ _) =>
          apply (roc_check _ _ _ (cli_check_winning_ads_run _ _ _)
                   (cli_check_winning_ads_total _ _ _))
      end
    | apply roc_bind; [| intros ?]
    | apply roc_if
    | apply roc_ret
    | apply roc_render
    | apply roc_for_each_m; intros ? ?; cbv beta ].
Qed.

End ConsoleRaises.

(** What a run returns, on any console, is what it returns on the lenient
    one; with [--json-output] it does return it. *)
Lemma main_returns_as_lenient `{PyRuntime} `{RichConsole} (net : Transport)
    (a : Args) (out0 : RunOutput) (c0 : Client) :
  lenient_main net a = (inr out0, c0) ->
  (use_json a = true -> koddi_healthcheck.main net a = (inr out0, c0))
  /\ (forall out c,
        koddi_healthcheck.main net a = (inr out, c) -> out = out0 /\ c = c0).
Proof.
  intros Hlenient. split.
  - intros Hjson. rewrite (main_json_mode net a Hjson). exact Hlenient.
  - intros out c Hrun. apply main_on_any_console in Hrun.
    rewrite Hlenient in Hrun. injection Hrun as <- <-. split; reflexivity.
Qed.

(** ** Facts shared by the claims *)

Lemma Status_eqb_eq (s t : Status) : Status_eqb s t = true <-> s = t.
Proof.
  destruct s, t; simpl; split; intros E; try reflexivity; discriminate.
Qed.

Lemma py_is_none_true (v : PyVal) : py_is_none v = true <-> v = PNone.
Proof.
  destruct v; simpl; split; intros E; try reflexivity; discriminate.
Qed.

(** Check 1 fails exactly when it carries no token. *)
Lemma auth_result_no_token (r1 : CheckResult) (tok : PyVal) :
  auth_result (r1, tok) -> status r1 = FAIL \/ tok = PNone -> tok = PNone.
Proof.
  unfold auth_result. simpl. intros [_ [[P T] | [_ N]]] [F | N']; auto.
  rewrite P in F. discriminate.
Qed.

(** Checks 1 and 2 are the same code in the two front ends. *)
Lemma check_auth_shared `{PyRuntime} :
  app.check_auth = koddi_healthcheck.check_auth.
Proof. reflexivity. Qed.

Lemma check_advertiser_shared `{PyRuntime} :
  app.check_advertiser = koddi_healthcheck.check_advertiser.
Proof. reflexivity. Qed.

Lemma skipped_is_named (cause : string) (num : Z) (name : string) :
  contains cause ("Skipped — " ++ cause) = true ->
  skipped_naming cause num (skipped cause num name).
Proof.
  intros Hc. unfold skipped_naming, skipped. simpl. auto.
Qed.

Lemma overall_verdict `{PyRuntime} (results : list CheckResult) :
  py_get (koddi_healthcheck.results_to_json results) "overall" PNone
  = inr (PStr (if any_failed results then "fail" else "pass")).
Proof. reflexivity. Qed.

Lemma any_failed_Exists (results : list CheckResult) :
  any_failed results = true <-> Exists (fun r => status r = FAIL) results.
Proof.
  unfold any_failed. rewrite existsb_exists, Exists_exists.
  split; intros [r [Hin Hr]]; exists r; split; auto; apply Status_eqb_eq; exact Hr.
Qed.

(** Every run of the command-line tool on the lenient console ends on one
    of the three paths. *)
Lemma cli_main_cases `{PyRuntime} (net : Transport) (a : Args) :
  exists (rs : list CheckResult) (cs : list Request) (r7 : CheckResult),
    lenient_main net a
    = (inr (run_output a (rs ++ [r7])%list),
       {| transport := net;
          calls := (cs ++ [auction_request (client_name a) (site_id a)
                             (experience_name a)])%list |})
    /\ map number rs = [1; 2; 3; 4; 5; 6]
    /\ executed 7 r7.
Proof.
  set (base := rstrip_slash (base_url a)).
  set (login := login_request base (email a) (password a) (member_group_id a)).
  destruct (cli_check_auth_total base (email a) (password a) (member_group_id a)
              (net [] login)) as [[r1 tok] [E1 P1]].
  assert (N1 : number r1 = 1) by apply P1.
  destruct (py_is_none tok) eqn:Etok.
  - apply py_is_none_true in Etok. subst tok.
    destruct (cli_check_winning_ads_total (client_name a) (site_id a)
                (experience_name a)
                (net [login] (auction_request (client_name a) (site_id a)
                                (experience_name a)))) as [r7 [E7 P7]].
    eexists [r1; _; _; _; _; _], [login], r7.
    split; [exact (cli_main_auth_failed net a r1 r7 E1 E7) |].
    split; [simpl; rewrite N1; reflexivity | exact P7].
  - set (advertiser :=
           advertiser_request base tok (member_group_id a) (advertiser_id a)).
    destruct (cli_check_advertiser_total base tok (member_group_id a)
                (advertiser_id a) (net [login] advertiser)) as [r2 [E2 [N2 _]]].
    destruct (Status_eqb (status r2) FAIL) eqn:F2.
    + set (bidders := active_bidders_request base tok (member_group_id a)).
      set (entities :=
             attributable_entities_request base tok (member_group_id a)).
      destruct (cli_check_active_bidders_total base tok (member_group_id a)
                  (net [login; advertiser] bidders)) as [r5 [E5 [N5 _]]].
      destruct (cli_check_attributable_entities_total base tok
                  (member_group_id a)
                  (net [login; advertiser; bidders] entities))
        as [r6 [E6 [N6 _]]].
      destruct (cli_check_winning_ads_total (client_name a) (site_id a)
                  (experience_name a)
                  (net [login; advertiser; bidders; entities]
                     (auction_request (client_name a) (site_id a)
                        (experience_name a)))) as [r7 [E7 P7]].
      eexists [r1; r2; _; _; r5; r6], [login; advertiser; bidders; entities], r7.
      split; [exact (cli_main_advertiser_failed net a tok Etok r1 r2 r5 r6 r7
                       E1 E2 F2 E5 E6 E7) |].
      split; [simpl; rewrite N1, N2, N5, N6; reflexivity | exact P7].
    + set (campaigns :=
             campaigns_request base tok (member_group_id a) (advertiser_id a)).
      set (failures :=
             entity_failures_request base tok (member_group_id a)
               (advertiser_id a)).
      set (bidders := active_bidders_request base tok (member_group_id a)).
      set (entities :=
             attributable_entities_request base tok (member_group_id a)).
      destruct (cli_check_campaigns_total base tok (member_group_id a)
                  (advertiser_id a) (net [login; advertiser] campaigns))
        as [r3 [E3 [N3 _]]].
      destruct (cli_check_entity_failures_total base tok (member_group_id a)
                  (advertiser_id a) (net [login; advertiser; campaigns] failures))
        as [r4 [E4 [N4 _]]].
      destruct (cli_check_active_bidders_total base tok (member_group_id a)
                  (net [login; advertiser; campaigns; failures] bidders))
        as [r5 [E5 [N5 _]]].
      destruct (cli_check_attributable_entities_total base tok
                  (member_group_id a)
                  (net [login; advertiser; campaigns; failures; bidders]
                     entities)) as [r6 [E6 [N6 _]]].
      destruct (cli_check_winning_ads_total (client_name a) (site_id a)
                  (experience_name a)
                  (net [login; advertiser; campaigns; failures; bidders;
                        entities]
                     (auction_request (client_name a) (site_id a)
                        (experience_name a)))) as [r7 [E7 P7]].
      exists [r1; r2; r3; r4; r5; r6],
        [login; advertiser; campaigns; failures; bidders; entities], r7.
      split; [exact (cli_main_all_run net a tok Etok r1 r2 r3 r4 r5 r6 r7
                       E1 E2 F2 E3 E4 E5 E6 E7) |].
      split; [simpl; rewrite N1, N2, N3, N4, N5, N6; reflexivity | exact P7].
Qed.

(** So does every run of the web front end. *)
Lemma web_run_checks_cases `{PyRuntime} (net : Transport) (a : Args) :
  exists (rs : list CheckResult) (cs : list Request) (r7 : CheckResult),
    app.run_checks net a
    = (inr (rs ++ [r7])%list,
       {| transport := net;
          calls := (cs ++ [auction_request (client_name a) (site_id a)
                             (web_experience (experience_name a))])%list |})
    /\ map number rs = [1; 2; 3; 4; 5; 6]
    /\ executed 7 r7.
Proof.
  set (base := rstrip_slash (base_url a)).
  set (login := login_request base (email a) (password a) (member_group_id a)).
  destruct (web_check_auth_total base (email a) (password a) (member_group_id a)
              (net [] login)) as [[r1 tok] [E1 P1]].
  assert (N1 : number r1 = 1) by apply P1.
  destruct (py_is_none tok) eqn:Etok.
  - apply py_is_none_true in Etok. subst tok.
    destruct (web_check_winning_ads_total (client_name a) (site_id a)
                (experience_name a)
                (net [login] (auction_request (client_name a) (site_id a)
                                (web_experience (experience_name a))))) as [r7 [E7 P7]].
    eexists [r1; _; _; _; _; _], [login], r7.
    split; [exact (web_run_checks_auth_failed net a r1 r7 E1 E7) |].
    split; [simpl; rewrite N1; reflexivity | exact P7].
  - set (advertiser :=
           advertiser_request base tok (member_group_id a) (advertiser_id a)).
    destruct (web_check_advertiser_total base tok (member_group_id a)
                (advertiser_id a) (net [login] advertiser)) as [r2 [E2 [N2 _]]].
    destruct (Status_eqb (status r2) FAIL) eqn:F2.
    + set (bidders := active_bidders_request base tok (member_group_id a)).
      set (entities :=
             attributable_entities_request base tok (member_group_id a)).
      destruct (web_check_active_bidders_total base tok (member_group_id a)
                  (net [login; advertiser] bidders)) as [r5 [E5 [N5 _]]].
      destruct (web_check_attributable_entities_total base tok
                  (member_group_id a)
                  (net [login; advertiser; bidders] entities))
        as [r6 [E6 [N6 _]]].
      destruct (web_check_winning_ads_total (client_name a) (site_id a)
                  (experience_name a)
                  (net [login; advertiser; bidders; entities]
                     (auction_request (client_name a) (site_id a)
                        (web_experience (experience_name a))))) as [r7 [E7 P7]].
      eexists [r1; r2; _; _; r5; r6], [login; advertiser; bidders; entities], r7.
      split; [exact (web_run_checks_advertiser_failed net a tok Etok r1 r2 r5 r6 r7
                       E1 E2 F2 E5 E6 E7) |].
      split; [simpl; rewrite N1, N2, N5, N6; reflexivity | exact P7].
    + set (campaigns :=
             campaigns_request base tok (member_group_id a) (advertiser_id a)).
      set (failures :=
             entity_failures_request base tok (member_group_id a)
               (advertiser_id a)).
      set (bidders := active_bidders_request base tok (member_group_id a)).
      set (entities :=
             attributable_entities_request base tok (member_group_id a)).
      destruct (web_check_campaigns_total base tok (member_group_id a)
                  (advertiser_id a) (net [login; advertiser] campaigns))
        as [r3 [E3 [N3 _]]].
      destruct (web_check_entity_failures_total base tok (member_group_id a)
                  (advertiser_id a) (net [login; advertiser; campaigns] failures))
        as [r4 [E4 [N4 _]]].
      destruct (web_check_active_bidders_total base tok (member_group_id a)
                  (net [login; advertiser; campaigns; failures] bidders))
        as [r5 [E5 [N5 _]]].
      destruct (web_check_attributable_entities_total base tok
                  (member_group_id a)
                  (net [login; advertiser; campaigns; failures; bidders]
                     entities)) as [r6 [E6 [N6 _]]].
      destruct (web_check_winning_ads_total (client_name a) (site_id a)
                  (experience_name a)
                  (net [login; advertiser; campaigns; failures; bidders;
                        entities]
                     (auction_request (client_name a) (site_id a)
                        (web_experience (experience_name a))))) as [r7 [E7 P7]].
      exists [r1; r2; r3; r4; r5; r6],
        [login; advertiser; campaigns; failures; bidders; entities], r7.
      split; [exact (web_run_checks_all_run net a tok Etok r1 r2 r3 r4 r5 r6 r7
                       E1 E2 F2 E3 E4 E5 E6 E7) |].
      split; [simpl; rewrite N1, N2, N3, N4, N5, N6; reflexivity | exact P7].
Qed.

(** ** The orchestrator *)

(** X26: when Check 1 fails or yields no token, the web front end records
    checks 2 to 6 as skipped with details naming "authentication failed",
    issues the login and the auction request and no other call, and executes
    Check 7; so does every run of the command-line tool that returns, and
    with [--json-output] every run returns. *)
Theorem auth_failure_skips_checks_2_to_6 `{PyRuntime} `{RichConsole}
    (net : Transport) (a : Args) (r1 : CheckResult) (tok : PyVal) :
  fst (koddi_healthcheck.check_auth (rstrip_slash (base_url a)) (email a)
         (password a) (member_group_id a) (new_client net)) = inr (r1, tok) ->
  status r1 = FAIL \/ tok = PNone ->
  exists s2 s3 s4 s5 s6 r7 r7',
    (forall out c,
       koddi_healthcheck.main net a = (inr out, c) ->
       c = {| transport := net;
              calls := [ login_request (rstrip_slash (base_url a)) (email a)
                           (password a) (member_group_id a);
                         auction_request (client_name a) (site_id a)
                           (experience_name a) ] |}
       /\ out_results out = [r1; s2; s3; s4; s5; s6; r7])
    /\ (use_json a = true ->
        exists out c, koddi_healthcheck.main net a = (inr out, c))
    /\ app.run_checks net a
       = (inr [r1; s2; s3; s4; s5; s6; r7'],
          {| transport := net;
             calls := [ login_request (rstrip_slash (base_url a)) (email a)
                          (password a) (member_group_id a);
                        auction_request (client_name a) (site_id a)
                          (web_experience (experience_name a)) ] |})
    /\ skipped_naming "authentication failed" 2 s2
    /\ skipped_naming "authentication failed" 3 s3
    /\ skipped_naming "authentication failed" 4 s4
    /\ skipped_naming "authentication failed" 5 s5
    /\ skipped_naming "authentication failed" 6 s6
    /\ executed 7 r7 /\ executed 7 r7'.
Proof.
  intros H1 Hfail.
  set (base := rstrip_slash (base_url a)) in *.
  set (login := login_request base (email a) (password a) (member_group_id a)).
  rewrite cli_check_auth_run in H1. cbn [fst] in H1.
  change (answer (koddi_healthcheck.check_auth base (email a) (password a)
                    (member_group_id a)) (net [] login) = inr (r1, tok)) in H1.
  destruct (cli_check_auth_total base (email a) (password a) (member_group_id a)
              (net [] login)) as [rt [E1 P1]].
  rewrite H1 in E1. injection E1 as <-.
  pose proof (auth_result_no_token r1 tok P1 Hfail) as ->.
  destruct (cli_check_winning_ads_total (client_name a) (site_id a)
              (experience_name a)
              (net [login] (auction_request (client_name a) (site_id a)
                              (experience_name a)))) as [r7 [E7 P7]].
  destruct (web_check_winning_ads_total (client_name a) (site_id a)
              (experience_name a)
              (net [login] (auction_request (client_name a) (site_id a)
                              (web_experience (experience_name a)))))
    as [r7' [E7' P7']].
  destruct (main_returns_as_lenient net a _ _
              (cli_main_auth_failed net a r1 r7 H1 E7)) as [Hjson Hany].
  do 7 eexists.
  split.
  { intros out c Hrun. destruct (Hany out c Hrun) as [-> ->].
    split; reflexivity. }
  split; [intros J; do 2 eexists; exact (Hjson J) |].
  split; [exact (web_run_checks_auth_failed net a r1 r7' H1 E7') |].
  repeat (split; [apply skipped_is_named; reflexivity |]).
  split; assumption.
Qed.

(** X27: when Check 1 yields a token and Check 2 fails, the web front end
    records checks 3 and 4 as skipped with details naming "advertiser check
    failed" and issues no call for them, while checks 5 and 6 are executed:
    their requests follow the advertiser request.  So does every run of the
    command-line tool that returns, and with [--json-output] every run
    returns. *)
Theorem advertiser_failure_skips_checks_3_and_4 `{PyRuntime} `{RichConsole}
    (net : Transport) (a : Args) (r1 r2 : CheckResult) (tok : PyVal) :
  fst (koddi_healthcheck.check_auth (rstrip_slash (base_url a)) (email a)
         (password a) (member_group_id a) (new_client net)) = inr (r1, tok) ->
  tok <> PNone ->
  fst (koddi_healthcheck.check_advertiser (rstrip_slash (base_url a)) tok
         (member_group_id a) (advertiser_id a)
         (record_call
            (login_request (rstrip_slash (base_url a)) (email a) (password a)
               (member_group_id a))
            (new_client net))) = inr r2 ->
  status r2 = FAIL ->
  exists s3 s4 r5 r6 r7 r5' r6' r7',
    (forall out c,
       koddi_healthcheck.main net a = (inr out, c) ->
       c = {| transport := net;
              calls := [ login_request (rstrip_slash (base_url a)) (email a)
                           (password a) (member_group_id a);
                         advertiser_request (rstrip_slash (base_url a)) tok
                           (member_group_id a) (advertiser_id a);
                         active_bidders_request (rstrip_slash (base_url a))
                           tok (member_group_id a);
                         attributable_entities_request
                           (rstrip_slash (base_url a)) tok (member_group_id a);
                         auction_request (client_name a) (site_id a)
                           (experience_name a) ] |}
       /\ out_results out = [r1; r2; s3; s4; r5; r6; r7])
    /\ (use_json a = true ->
        exists out c, koddi_healthcheck.main net a = (inr out, c))
    /\ app.run_checks net a
       = (inr [r1; r2; s3; s4; r5'; r6'; r7'],
          {| transport := net;
             calls := [ login_request (rstrip_slash (base_url a)) (email a)
                          (password a) (member_group_id a);
                        advertiser_request (rstrip_slash (base_url a)) tok
                          (member_group_id a) (advertiser_id a);
                        active_bidders_request (rstrip_slash (base_url a)) tok
                          (member_group_id a);
                        attributable_entities_request
                          (rstrip_slash (base_url a)) tok (member_group_id a);
                        auction_request (client_name a) (site_id a)
                          (web_experience (experience_name a)) ] |})
    /\ skipped_naming "advertiser check failed" 3 s3
    /\ skipped_naming "advertiser check failed" 4 s4
    /\ executed 5 r5 /\ executed 6 r6 /\ executed 7 r7
    /\ executed 5 r5' /\ executed 6 r6' /\ executed 7 r7'.
Proof.
  intros H1 Htok H2 F2.
  set (base := rstrip_slash (base_url a)) in *.
  set (login := login_request base (email a) (password a) (member_group_id a))
    in *.
  set (advertiser :=
         advertiser_request base tok (member_group_id a) (advertiser_id a)).
  set (bidders := active_bidders_request base tok (member_group_id a)).
  set (entities := attributable_entities_request base tok (member_group_id a)).
  rewrite cli_check_auth_run in H1. cbn [fst] in H1.
  change (answer (koddi_healthcheck.check_auth base (email a) (password a)
                    (member_group_id a)) (net [] login) = inr (r1, tok)) in H1.
  rewrite cli_check_advertiser_run in H2. cbn [fst] in H2.
  change (answer (koddi_healthcheck.check_advertiser base tok
                    (member_group_id a) (advertiser_id a))
            (net [login] advertiser) = inr r2) in H2.
  assert (Etok : py_is_none tok = false).
  { destruct (py_is_none tok) eqn:E; [| reflexivity].
    apply py_is_none_true in E. contradiction. }
  apply Status_eqb_eq in F2.
  destruct (cli_check_active_bidders_total base tok (member_group_id a)
              (net [login; advertiser] bidders)) as [r5 [E5 P5]].
  destruct (cli_check_attributable_entities_total base tok (member_group_id a)
              (net [login; advertiser; bidders] entities)) as [r6 [E6 P6]].
  destruct (cli_check_winning_ads_total (client_name a) (site_id a)
              (experience_name a)
              (net [login; advertiser; bidders; entities]
                 (auction_request (client_name a) (site_id a)
                    (experience_name a)))) as [r7 [E7 P7]].
  destruct (web_check_active_bidders_total base tok (member_group_id a)
              (net [login; advertiser] bidders)) as [r5' [E5' P5']].
  destruct (web_check_attributable_entities_total base tok (member_group_id a)
              (net [login; advertiser; bidders] entities)) as [r6' [E6' P6']].
  destruct (web_check_winning_ads_total (client_name a) (site_id a)
              (experience_name a)
              (net [login; advertiser; bidders; entities]
                 (auction_request (client_name a) (site_id a)
                    (web_experience (experience_name a)))))
    as [r7' [E7' P7']].
  destruct (main_returns_as_lenient net a _ _
              (cli_main_advertiser_failed net a tok Etok r1 r2 r5 r6 r7
                 H1 H2 F2 E5 E6 E7)) as [Hjson Hany].
  do 8 eexists.
  split.
  { intros out c Hrun. destruct (Hany out c Hrun) as [-> ->].
    split; reflexivity. }
  split; [intros J; do 2 eexists; exact (Hjson J) |].
  split; [exact (web_run_checks_advertiser_failed net a tok Etok r1 r2 r5' r6'
                   r7' H1 H2 F2 E5' E6' E7') |].
  repeat (split; [apply skipped_is_named; reflexivity |]).
  repeat split; (apply P5 || apply P6 || apply P7 || apply P5' || apply P6'
                 || apply P7').
Qed.

(** X28: in every run of the web front end, and in every run of the
    command-line tool that returns (with [--json-output] every run does),
    Check 7 is executed: its request, which carries no header and is built
    from the client name, the site id and the experience name alone, is the
    last call issued on the client, and its result, the last of the list,
    is not a skip. *)
Theorem check_7_always_executed `{PyRuntime} `{RichConsole} (net : Transport)
    (a : Args) :
  (forall out c,
     koddi_healthcheck.main net a = (inr out, c) ->
     exists rs r7 cs,
       out_results out = (rs ++ [r7])%list /\ length rs = 6%nat
       /\ executed 7 r7
       /\ calls c = (cs ++ [auction_request (client_name a) (site_id a)
                              (experience_name a)])%list)
  /\ (use_json a = true ->
      exists out c, koddi_healthcheck.main net a = (inr out, c))
  /\ (exists rs r7 cs c,
        app.run_checks net a = (inr (rs ++ [r7])%list, c)
        /\ length rs = 6%nat /\ executed 7 r7
        /\ calls c = (cs ++ [auction_request (client_name a) (site_id a)
                               (web_experience (experience_name a))])%list)
  /\ forall experience,
       headers (auction_request (client_name a) (site_id a) experience) = [].
Proof.
  destruct (cli_main_cases net a) as (rs & cs & r7 & Hrun & Hnum & P7).
  destruct (main_returns_as_lenient net a _ _ Hrun) as [Hjson Hany].
  split; [| split; [| split; [| reflexivity]]].
  - intros out c Hout. destruct (Hany out c Hout) as [-> ->].
    exists rs, r7, cs.
    split; [reflexivity |].
    split; [rewrite <- (length_map number), Hnum; reflexivity |].
    split; [exact P7 | reflexivity].
  - intros J. do 2 eexists. exact (Hjson J).
  - destruct (web_run_checks_cases net a) as (rs' & cs' & r7' & Hweb & Hnum' & P7').
    exists rs', r7', cs'. eexists.
    split; [exact Hweb |].
    split; [rewrite <- (length_map number), Hnum'; reflexivity |].
    split; [exact P7' | reflexivity].
Qed.

(** X30: every run of the web front end returns exactly seven results, one
    per check number, in ascending order, whatever the transport answers;
    so does every run of the command-line tool that returns.  With
    [--json-output] every run returns, and a run that does not return ended
    on an exception the console raised on a text it was given to print. *)
Theorem seven_results_in_order `{PyRuntime} `{RichConsole} (net : Transport)
    (a : Args) :
  (forall out c,
     koddi_healthcheck.main net a = (inr out, c) ->
     map number (out_results out) = [1; 2; 3; 4; 5; 6; 7])
  /\ (use_json a = true ->
      exists out c, koddi_healthcheck.main net a = (inr out, c))
  /\ ((exists out c, koddi_healthcheck.main net a = (inr out, c))
      \/ (exists text msg c,
            markup_error text = Some msg
            /\ koddi_healthcheck.main net a = (inl (OtherException msg), c)))
  /\ (exists rs c,
        app.run_checks net a = (inr rs, c)
        /\ map number rs = [1; 2; 3; 4; 5; 6; 7]).
Proof.
  destruct (cli_main_cases net a) as (rs & cs & r7 & Hrun & Hnum & [N7 _]).
  destruct (main_returns_as_lenient net a _ _ Hrun) as [Hjson Hany].
  split; [| split; [| split]].
  - intros out c Hout. destruct (Hany out c Hout) as [-> ->].
    simpl. rewrite map_app, Hnum. simpl. rewrite N7. reflexivity.
  - intros J. do 2 eexists. exact (Hjson J).
  - apply main_returns_or_console_raises.
  - destruct (web_run_checks_cases net a)
      as (rs' & cs' & r7' & Hweb & Hnum' & [N7' _]).
    do 2 eexists. split; [exact Hweb |].
    rewrite map_app, Hnum'. simpl. rewrite N7'. reflexivity.
Qed.

(** X29: in every run of the command-line tool that returns, the overall
    verdict of the JSON document is "fail" exactly when one of the seven
    results has status FAIL, it is "pass" when every result is a pass, a
    warning or a skip, and the exit code is 0 exactly when the verdict is
    "pass" and 1 exactly when it is "fail".  With [--json-output] every run
    returns, and the document it echoes is the one of its results. *)
Theorem verdict_and_exit_code `{PyRuntime} `{RichConsole} (net : Transport)
    (a : Args) :
  (forall out c,
     koddi_healthcheck.main net a = (inr out, c) ->
     exists verdict,
       length (out_results out) = 7%nat
       /\ py_get (koddi_healthcheck.results_to_json (out_results out))
            "overall" PNone = inr (PStr verdict)
       /\ (verdict = "fail"
           <-> Exists (fun r => status r = FAIL) (out_results out))
       /\ (Forall (fun r => status r = PASS \/ status r = WARN
                            \/ status r = SKIPPED) (out_results out)
           -> verdict = "pass")
       /\ (exit_code out = 0 <-> verdict = "pass")
       /\ (exit_code out = 1 <-> verdict = "fail"))
  /\ (use_json a = true ->
      exists out c,
        koddi_healthcheck.main net a = (inr out, c)
        /\ out_json out
           = Some (koddi_healthcheck.results_to_json (out_results out))).
Proof.
  destruct (cli_main_cases net a) as (rs & cs & r7 & Hrun & Hnum & _).
  destruct (main_returns_as_lenient net a _ _ Hrun) as [Hjson Hany].
  split.
  2:{ intros J. do 2 eexists. split; [exact (Hjson J) |].
      unfold run_output. simpl. rewrite J. reflexivity. }
  intros out c Hout. destruct (Hany out c Hout) as [-> ->].
  eexists.
  split.
  { simpl. rewrite length_app, <- (length_map number rs), Hnum. reflexivity. }
  split; [apply overall_verdict |].
  simpl out_results. simpl exit_code.
  pose proof (any_failed_Exists (rs ++ [r7])) as Hany'.
  destruct (any_failed (rs ++ [r7])) eqn:E.
  - repeat split; try reflexivity; try discriminate.
    + intros _. apply Hany'. reflexivity.
    + intros Hall. exfalso.
      destruct Hany' as [Hex _]. specialize (Hex eq_refl).
      apply Exists_exists in Hex. destruct Hex as [r [Hin Hr]].
      rewrite Forall_forall in Hall. specialize (Hall r Hin).
      rewrite Hr in Hall. destruct Hall as [D | [D | D]]; discriminate.
  - repeat split; try reflexivity; try discriminate.
    intros Hex. apply Hany' in Hex. discriminate.
Qed.

(** ** The classification of a response *)

Lemma answer_response {A : Type} (req : Request) (k : Response -> Res A)
    (h : Exn -> M A) (resp : Response) (a : A) :
  k resp = inr a ->
  answer (try_except (resp <- client_send req ;; lift (k resp)) h) (inr resp)
  = inr a.
Proof.
  intros Hk. unfold answer, try_except, bind, client_send, lift. simpl.
  rewrite Hk. reflexivity.
Qed.

Lemma answer_raise {A : Type} (req : Request) (k : Response -> Res A)
    (h : Exn -> M A) (e : Exn) (a : A) :
  (forall c, h e c = (inr a, c)) ->
  answer (try_except (resp <- client_send req ;; lift (k resp)) h) (inl e)
  = inr a.
Proof.
  intros Hh. unfold answer, try_except, bind, client_send, lift. simpl.
  rewrite Hh. reflexivity.
Qed.

Lemma resp_json_parsed (resp : Response) (v : PyVal) :
  json resp = inr v -> resp_json resp = inr v.
Proof.
  intros Hj. unfold resp_json. rewrite Hj. reflexivity.
Qed.

Lemma py_get_dict (kvs : list (string * PyVal)) (key : string) (d : PyVal) :
  py_get (PDict kvs) key d = inr (dict_get kvs key d).
Proof. reflexivity. Qed.

Lemma res_bind_ret {A B : Type} (a : A) (k : A -> Res B) :
  res_bind (inr a) k = k a.
Proof. reflexivity. Qed.

Lemma py_len_list (l : list PyVal) : py_len (PList l) = inr (Z.of_nat (length l)).
Proof. reflexivity. Qed.

Lemma py_iter_list (l : list PyVal) : py_iter (PList l) = inr l.
Proof. reflexivity. Qed.

Ltac py_steps :=
  repeat first
    [ rewrite py_get_dict
    | rewrite py_len_list
    | rewrite py_iter_list
    | rewrite res_bind_ret
    | progress cbv beta zeta ].

(** Runs the body of a check on a response whose document is a [dict] with
    a known comparison of its status field. *)
Ltac on_envelope Hjson Hstatus :=
  cbv beta zeta;
  rewrite (resp_json_parsed _ _ Hjson);
  py_steps; rewrite Hstatus; cbv beta iota delta [negb]; py_steps.

(** C6 (as amended): whenever the document of the response is an object
    whose status field is not "success", checks 2 to 6 of both front ends
    fail with details "Error {error_code}: {error_message}", where the code
    defaults to "unknown" and the message is the message field, else the
    error field, else "unknown error"; Check 1 fails on the same envelope
    with details "Login failed — code {error_code}: {error_message}" and
    carries no token. *)
Theorem error_envelope_is_a_failure `{PyRuntime} (resp : Response)
    (kvs : list (string * PyVal)) (b e p : string) (tok : PyVal) (m adv : Z) :
  json resp = inr (PDict kvs) ->
  py_eq_str (dict_get kvs "status" PNone) "success" = false ->
  answer (koddi_healthcheck.check_auth b e p m) (inr resp)
  = inr (check_result 1 "Authentication" FAIL
           ("Login failed — code " ++ envelope_error kvs), PNone)
  /\ answer (koddi_healthcheck.check_advertiser b tok m adv) (inr resp)
    = inr (check_result 2 "Advertiser Exists" FAIL
             ("Error " ++ envelope_error kvs))
  /\ answer (koddi_healthcheck.check_campaigns b tok m adv) (inr resp)
    = inr (check_result 3 "Campaigns Report" FAIL
             ("Error " ++ envelope_error kvs))
  /\ answer (koddi_healthcheck.check_entity_failures b tok m adv) (inr resp)
    = inr (check_result 4 "Entity Registration Failures" FAIL
             ("Error " ++ envelope_error kvs))
  /\ answer (koddi_healthcheck.check_active_bidders b tok m) (inr resp)
    = inr (check_result 5 "Active Bidders Cache" FAIL
             ("Error " ++ envelope_error kvs))
  /\ answer (koddi_healthcheck.check_attributable_entities b tok m) (inr resp)
    = inr (check_result 6 "Attributable Entities Cache" FAIL
             ("Error " ++ envelope_error kvs))
  /\ answer (app.check_auth b e p m) (inr resp)
  = inr (check_result 1 "Authentication" FAIL
           ("Login failed — code " ++ envelope_error kvs), PNone)
  /\ answer (app.check_advertiser b tok m adv) (inr resp)
    = inr (check_result 2 "Advertiser Exists" FAIL
             ("Error " ++ envelope_error kvs))
  /\ answer (app.check_campaigns b tok m adv) (inr resp)
    = inr (check_result 3 "Campaigns Report" FAIL
             ("Error " ++ envelope_error kvs))
  /\ answer (app.check_entity_failures b tok m adv) (inr resp)
    = inr (check_result 4 "Entity Registration Failures" FAIL
             ("Error " ++ envelope_error kvs))
  /\ answer (app.check_active_bidders b tok m) (inr resp)
    = inr (check_result 5 "Active Bidders Cache" FAIL
             ("Error " ++ envelope_error kvs))
  /\ answer (app.check_attributable_entities b tok m) (inr resp)
    = inr (check_result 6 "Attributable Entities Cache" FAIL
             ("Error " ++ envelope_error kvs)).
Proof.
  intros Hjson Hstatus. repeat apply conj.
  - apply (answer_response (login_request b e p m)).
    on_envelope Hjson Hstatus. reflexivity.
  - apply (answer_response (advertiser_request b tok m adv)).
    on_envelope Hjson Hstatus. reflexivity.
  - apply (answer_response (campaigns_request b tok m adv)).
    on_envelope Hjson Hstatus. reflexivity.
  - apply (answer_response (entity_failures_request b tok m adv)).
    on_envelope Hjson Hstatus. reflexivity.
  - apply (answer_response (active_bidders_request b tok m)).
    on_envelope Hjson Hstatus. reflexivity.
  - apply (answer_response (attributable_entities_request b tok m)).
    on_envelope Hjson Hstatus. reflexivity.
  - apply (answer_response (login_request b e p m)).
    on_envelope Hjson Hstatus. reflexivity.
  - apply (answer_response (advertiser_request b tok m adv)).
    on_envelope Hjson Hstatus. reflexivity.
  - apply (answer_response (campaigns_request b tok m adv)).
    on_envelope Hjson Hstatus. reflexivity.
  - apply (answer_response (entity_failures_request b tok m adv)).
    on_envelope Hjson Hstatus. reflexivity.
  - apply (answer_response (active_bidders_request b tok m)).
    on_envelope Hjson Hstatus. reflexivity.
  - apply (answer_response (attributable_entities_request b tok m)).
    on_envelope Hjson Hstatus. reflexivity.
Qed.

(** ** Failures of the transport *)

Lemma cli_winning_ads_raise `{PyRuntime} (cn sid : string) (ex : option string)
    (e : Exn) :
  answer (koddi_healthcheck.check_winning_ads cn sid ex) (inl e)
  = inr (check_result 7 "Winning Ads (Test Auction)" FAIL
           (transport_failure_details
              ("Connection error — cannot reach " ++ cn ++ ".koddi.io") e)).
Proof.
  destruct e; reflexivity.
Qed.

Lemma web_winning_ads_raise `{PyRuntime} (cn sid : string) (ex : option string)
    (e : Exn) :
  answer (app.check_winning_ads cn sid ex) (inl e)
  = inr (check_result 7 "Winning Ads (Test Auction)" FAIL
           (transport_failure_details
              ("Connection error — cannot reach " ++ cn ++ ".koddi.io") e)).
Proof.
  destruct e; reflexivity.
Qed.

(** C7 (as amended): every check of both front ends issues one call, never
    raises, and turns a failure of that call into a FAIL result: a timeout
    gives "Request timed out", any other exception gives
    "Unexpected error: {message}" (so does a body that is not JSON), and a
    connection failure gives
    "Connection error" for checks 2 to 6,
    "Connection error — cannot reach API" for Check 1 (no host is named) and
    "Connection error — cannot reach {client_name}.koddi.io" for Check 7. *)
Theorem transport_failures_become_fail_results `{PyRuntime} (b e p : string)
    (tok : PyVal) (m adv : Z) (cn sid : string) (ex : option string) :
  recovers_failures (koddi_healthcheck.check_auth b e p m)
    (login_request b e p m)
    (fun d => (check_result 1 "Authentication" FAIL d, PNone))
    "Connection error — cannot reach API"
  /\ recovers_failures (koddi_healthcheck.check_advertiser b tok m adv)
      (advertiser_request b tok m adv)
      (check_result 2 "Advertiser Exists" FAIL) "Connection error"
  /\ recovers_failures (koddi_healthcheck.check_campaigns b tok m adv)
      (campaigns_request b tok m adv)
      (check_result 3 "Campaigns Report" FAIL) "Connection error"
  /\ recovers_failures (koddi_healthcheck.check_entity_failures b tok m adv)
      (entity_failures_request b tok m adv)
      (check_result 4 "Entity Registration Failures" FAIL) "Connection error"
  /\ recovers_failures (koddi_healthcheck.check_active_bidders b tok m)
      (active_bidders_request b tok m)
      (check_result 5 "Active Bidders Cache" FAIL) "Connection error"
  /\ recovers_failures (koddi_healthcheck.check_attributable_entities b tok m)
      (attributable_entities_request b tok m)
      (check_result 6 "Attributable Entities Cache" FAIL) "Connection error"
  /\ recovers_failures (koddi_healthcheck.check_winning_ads cn sid ex)
      (auction_request cn sid ex)
      (check_result 7 "Winning Ads (Test Auction)" FAIL)
      ("Connection error — cannot reach " ++ cn ++ ".koddi.io")
  /\ recovers_failures (app.check_auth b e p m)
    (login_request b e p m)
    (fun d => (check_result 1 "Authentication" FAIL d, PNone))
    "Connection error — cannot reach API"
  /\ recovers_failures (app.check_advertiser b tok m adv)
      (advertiser_request b tok m adv)
      (check_result 2 "Advertiser Exists" FAIL) "Connection error"
  /\ recovers_failures (app.check_campaigns b tok m adv)
      (campaigns_request b tok m adv)
      (check_result 3 "Campaigns Report" FAIL) "Connection error"
  /\ recovers_failures (app.check_entity_failures b tok m adv)
      (entity_failures_request b tok m adv)
      (check_result 4 "Entity Registration Failures" FAIL) "Connection error"
  /\ recovers_failures (app.check_active_bidders b tok m)
      (active_bidders_request b tok m)
      (check_result 5 "Active Bidders Cache" FAIL) "Connection error"
  /\ recovers_failures (app.check_attributable_entities b tok m)
      (attributable_entities_request b tok m)
      (check_result 6 "Attributable Entities Cache" FAIL) "Connection error"
  /\ recovers_failures (app.check_winning_ads cn sid ex)
      (auction_request cn sid (web_experience ex))
      (check_result 7 "Winning Ads (Test Auction)" FAIL)
      ("Connection error — cannot reach " ++ cn ++ ".koddi.io").
Proof.
  repeat match goal with |- _ /\ _ => split end.
  - split; [intros c; apply cli_check_auth_run |].
    split; [intros out; destruct (cli_check_auth_total b e p m out)
                          as [r [E _]]; exists r; exact E |].
    split; [intros [msg | msg | msg]; apply (answer_raise (login_request b e p m));
            reflexivity |].
    intros msg. reflexivity.
  - split; [intros c; apply cli_check_advertiser_run |].
    split; [intros out; destruct (cli_check_advertiser_total b tok m adv out)
                          as [r [E _]]; exists r; exact E |].
    split; [intros [msg | msg | msg]; apply (answer_raise (advertiser_request b tok m adv));
            reflexivity |].
    intros msg. reflexivity.
  - split; [intros c; apply cli_check_campaigns_run |].
    split; [intros out; destruct (cli_check_campaigns_total b tok m adv out)
                          as [r [E _]]; exists r; exact E |].
    split; [intros [msg | msg | msg]; apply (answer_raise (campaigns_request b tok m adv));
            reflexivity |].
    intros msg. reflexivity.
  - split; [intros c; apply cli_check_entity_failures_run |].
    split; [intros out; destruct (cli_check_entity_failures_total b tok m adv out)
                          as [r [E _]]; exists r; exact E |].
    split; [intros [msg | msg | msg]; apply (answer_raise (entity_failures_request b tok m adv));
            reflexivity |].
    intros msg. reflexivity.
  - split; [intros c; apply cli_check_active_bidders_run |].
    split; [intros out; destruct (cli_check_active_bidders_total b tok m out)
                          as [r [E _]]; exists r; exact E |].
    split; [intros [msg | msg | msg]; apply (answer_raise (active_bidders_request b tok m));
            reflexivity |].
    intros msg. reflexivity.
  - split; [intros c; apply cli_check_attributable_entities_run |].
    split; [intros out; destruct (cli_check_attributable_entities_total b tok m out)
                          as [r [E _]]; exists r; exact E |].
    split; [intros [msg | msg | msg]; apply (answer_raise (attributable_entities_request b tok m));
            reflexivity |].
    intros msg. reflexivity.
  - split; [intros c; apply cli_check_winning_ads_run |].
    split; [intros out; destruct (cli_check_winning_ads_total cn sid ex out)
                          as [r [E _]]; exists r; exact E |].
    split; [intros [msg | msg | msg]; rewrite (cli_winning_ads_raise cn sid ex);
            reflexivity |].
    intros msg. reflexivity.
  - split; [intros c; apply web_check_auth_run |].
    split; [intros out; destruct (web_check_auth_total b e p m out)
                          as [r [E _]]; exists r; exact E |].
    split; [intros [msg | msg | msg]; apply (answer_raise (login_request b e p m));
            reflexivity |].
    intros msg. reflexivity.
  - split; [intros c; apply web_check_advertiser_run |].
    split; [intros out; destruct (web_check_advertiser_total b tok m adv out)
                          as [r [E _]]; exists r; exact E |].
    split; [intros [msg | msg | msg]; apply (answer_raise (advertiser_request b tok m adv));
            reflexivity |].
    intros msg. reflexivity.
  - split; [intros c; apply web_check_campaigns_run |].
    split; [intros out; destruct (web_check_campaigns_total b tok m adv out)
                          as [r [E _]]; exists r; exact E |].
    split; [intros [msg | msg | msg]; apply (answer_raise (campaigns_request b tok m adv));
            reflexivity |].
    intros msg. reflexivity.
  - split; [intros c; apply web_check_entity_failures_run |].
    split; [intros out; destruct (web_check_entity_failures_total b tok m adv out)
                          as [r [E _]]; exists r; exact E |].
    split; [intros [msg | msg | msg]; apply (answer_raise (entity_failures_request b tok m adv));
            reflexivity |].
    intros msg. reflexivity.
  - split; [intros c; apply web_check_active_bidders_run |].
    split; [intros out; destruct (web_check_active_bidders_total b tok m out)
                          as [r [E _]]; exists r; exact E |].
    split; [intros [msg | msg | msg]; apply (answer_raise (active_bidders_request b tok m));
            reflexivity |].
    intros msg. reflexivity.
  - split; [intros c; apply web_check_attributable_entities_run |].
    split; [intros out; destruct (web_check_attributable_entities_total b tok m out)
                          as [r [E _]]; exists r; exact E |].
    split; [intros [msg | msg | msg]; apply (answer_raise (attributable_entities_request b tok m));
            reflexivity |].
    intros msg. reflexivity.
  - split; [intros c; apply web_check_winning_ads_run |].
    split; [intros out; destruct (web_check_winning_ads_total cn sid ex out)
                          as [r [E _]]; exists r; exact E |].
    split; [intros [msg | msg | msg]; rewrite (web_winning_ads_raise cn sid ex);
            reflexivity |].
    intros msg. reflexivity.
Qed.

(** ** The campaigns report *)

(** The loop of the command-line Check 3 over a list of objects appends one
    line per campaign. *)
Lemma cli_campaign_lines `{PyRuntime} (campaigns : list (list (string * PyVal)))
    (lines : list string) :
  for_each (map PDict campaigns)
    (fun c lines =>
       c_name <~ py_get c "name" (PStr "N/A") ;;
       c_status <~ py_get c "status" (PStr "N/A") ;;
       always_on <~ py_get c "always_on" (PStr "N/A") ;;
       budget_type <~ py_get c "budget_type" (PStr "N/A") ;;
       budget_amount <~ py_get c "budget_amount" (PStr "N/A") ;;
       inr (list_append lines
              ("  • " ++ py_str c_name ++ " | status="
               ++ py_str c_status ++ " | always_on="
               ++ py_str always_on ++ " " ++ "| budget="
               ++ py_str budget_type ++ "/" ++ py_str budget_amount)))
    lines
  = inr (lines ++ map campaign_line campaigns)%list.
Proof.
  revert lines. induction campaigns as [| kvs rest IH]; intros lines.
  - simpl. rewrite app_nil_r. reflexivity.
  - cbn [map for_each]. py_steps. rewrite IH. unfold list_append.
    rewrite <- app_assoc. reflexivity.
Qed.

(** So does the loop of the web Check 3. *)
Lemma web_campaign_lines `{PyRuntime} (campaigns : list (list (string * PyVal)))
    (lines : list string) :
  for_each (map PDict campaigns)
    (fun c lines =>
       c_name <~ py_get c "name" (PStr "N/A") ;;
       c_status <~ py_get c "status" (PStr "N/A") ;;
       always_on <~ py_get c "always_on" (PStr "N/A") ;;
       budget_type <~ py_get c "budget_type" (PStr "N/A") ;;
       budget_amount <~ py_get c "budget_amount" (PStr "N/A") ;;
       inr (list_append lines
              ("  • " ++ py_str c_name ++ " | status="
               ++ py_str c_status ++ " | " ++ "always_on="
               ++ py_str always_on ++ " | budget="
               ++ py_str budget_type ++ "/" ++ py_str budget_amount)))
    lines
  = inr (lines ++ map campaign_line campaigns)%list.
Proof.
  revert lines. induction campaigns as [| kvs rest IH]; intros lines.
  - simpl. rewrite app_nil_r. reflexivity.
  - cbn [map for_each]. py_steps. rewrite IH. unfold list_append.
    rewrite <- app_assoc. reflexivity.
Qed.

(** C8 (as amended): for every campaigns-report response with a success
    envelope whose result is an object and whose campaigns are a list of
    objects, Check 3 warns when total equals 0, with details
    "Zero campaigns found for this advertiser" in the web front end and the
    same text after a warning sign in the command-line tool; otherwise it
    passes, and its details are the header "Found {total} campaign(s)"
    followed by one line per campaign with its name, status, always_on flag
    and budget.  The total defaults to the number of campaigns. *)
Theorem campaigns_report_classification `{PyRuntime} (resp : Response)
    (kvs result : list (string * PyVal))
    (campaigns : list (list (string * PyVal))) (b : string) (tok : PyVal)
    (m adv : Z) :
  json resp = inr (PDict kvs) ->
  py_eq_str (dict_get kvs "status" PNone) "success" = true ->
  dict_get kvs "result" (PDict []) = PDict result ->
  dict_get result "campaigns" (PList []) = PList (map PDict campaigns) ->
  answer (koddi_healthcheck.check_campaigns b tok m adv) (inr resp)
  = inr (let total :=
           dict_get result "total" (PInt (Z.of_nat (length campaigns))) in
         if py_eq_zero total then
           check_result 3 "Campaigns Report" WARN
             "⚠️  Zero campaigns found for this advertiser"
         else
           check_result 3 "Campaigns Report" PASS
             (String.concat newline
                (("Found " ++ py_str total ++ " campaign(s)")
                 :: map campaign_line campaigns)))
  /\ answer (app.check_campaigns b tok m adv) (inr resp)
     = inr (let total :=
              dict_get result "total" (PInt (Z.of_nat (length campaigns))) in
            if py_eq_zero total then
              check_result 3 "Campaigns Report" WARN
                "Zero campaigns found for this advertiser"
            else
              check_result 3 "Campaigns Report" PASS
                (String.concat newline
                   (("Found " ++ py_str total ++ " campaign(s)")
                    :: map campaign_line campaigns))).
Proof.
  intros Hjson Hstatus Hresult Hcampaigns. split.
  - apply (answer_response (campaigns_request b tok m adv)).
    on_envelope Hjson Hstatus.
    rewrite Hresult. py_steps. rewrite Hcampaigns. py_steps.
    rewrite length_map.
    destruct (py_eq_zero _); [reflexivity |].
    py_steps. rewrite cli_campaign_lines. reflexivity.
  - apply (answer_response (campaigns_request b tok m adv)).
    on_envelope Hjson Hstatus.
    rewrite Hresult. py_steps. rewrite Hcampaigns. py_steps.
    rewrite length_map.
    destruct (py_eq_zero _); [reflexivity |].
    py_steps. rewrite web_campaign_lines. reflexivity.
Qed.

(** ** Purity of the classification *)

(** The answer of a check does not depend on the request it sends. *)
Lemma answer_independent {A : Type} (req1 req2 : Request)
    (k : Response -> Res A) (h : Exn -> M A) :
  (forall e, exists r, forall c, h e c = (r, c)) ->
  forall out,
    answer (try_except (resp <- client_send req1 ;; lift (k resp)) h) out
    = answer (try_except (resp <- client_send req2 ;; lift (k resp)) h) out.
Proof.
  intros Hh out. unfold answer, try_except, bind, client_send, lift. simpl.
  destruct out as [e | resp].
  - destruct (Hh e) as [r Hr]. rewrite !Hr. reflexivity.
  - destruct (k resp) as [e | a]; [| reflexivity].
    destruct (Hh e) as [r Hr]. rewrite !Hr. reflexivity.
Qed.

Lemma cli_winning_ads_independent `{PyRuntime} (cn sid1 sid2 : string)
    (ex1 ex2 : option string) (out : Exn + Response) :
  answer (koddi_healthcheck.check_winning_ads cn sid1 ex1) out
  = answer (koddi_healthcheck.check_winning_ads cn sid2 ex2) out.
Proof.
  destruct ex1 as [x |], ex2 as [y |];
    [ apply (answer_independent (auction_request cn sid1 (Some x))
               (auction_request cn sid2 (Some y)))
    | apply (answer_independent (auction_request cn sid1 (Some x))
               (auction_request cn sid2 None))
    | apply (answer_independent (auction_request cn sid1 None)
               (auction_request cn sid2 (Some y)))
    | apply (answer_independent (auction_request cn sid1 None)
               (auction_request cn sid2 None)) ];
    handler_returns.
Qed.

Lemma web_winning_ads_independent `{PyRuntime} (cn sid1 sid2 : string)
    (ex1 ex2 : option string) (out : Exn + Response) :
  answer (app.check_winning_ads cn sid1 ex1) out
  = answer (app.check_winning_ads cn sid2 ex2) out.
Proof.
  assert (Hone : forall sid ex,
             answer (app.check_winning_ads cn sid ex) out
             = answer (koddi_healthcheck.check_winning_ads cn sid None) out).
  { intros sid [x |]; unfold app.check_winning_ads; cbv beta iota zeta;
      [destruct (String.eqb x "") |].
    - apply (answer_independent (auction_request cn sid None)
               (auction_request cn sid None)). handler_returns.
    - apply (answer_independent (auction_request cn sid (Some x))
               (auction_request cn sid None)). handler_returns.
    - apply (answer_independent (auction_request cn sid None)
               (auction_request cn sid None)). handler_returns. }
  rewrite !Hone. apply cli_winning_ads_independent.
Qed.

(** C9: the result of every check (status, details and carried token) is a
    function of the raw response alone: on two clients, whatever their
    transports and the calls already made on them, that answer the next
    call with the same raw response [out], each check returns the same
    result, also when the credentials, the token, the identifiers or the
    base URL differ.  (Check 7 quotes the client name in its details, so
    the client name is kept.) *)
Theorem classifiers_are_pure `{PyRuntime} (out : Exn + Response)
    (c1 c2 : Client) (b1 b2 e1 e2 p1 p2 : string) (tok1 tok2 : PyVal)
    (m1 m2 adv1 adv2 : Z) (cn sid1 sid2 : string) (ex1 ex2 : option string) :
  (forall req, transport c1 (calls c1) req = out) ->
  (forall req, transport c2 (calls c2) req = out) ->
  fst (koddi_healthcheck.check_auth b1 e1 p1 m1 c1)
  = fst (koddi_healthcheck.check_auth b2 e2 p2 m2 c2)
  /\ fst (koddi_healthcheck.check_advertiser b1 tok1 m1 adv1 c1)
    = fst (koddi_healthcheck.check_advertiser b2 tok2 m2 adv2 c2)
  /\ fst (koddi_healthcheck.check_campaigns b1 tok1 m1 adv1 c1)
    = fst (koddi_healthcheck.check_campaigns b2 tok2 m2 adv2 c2)
  /\ fst (koddi_healthcheck.check_entity_failures b1 tok1 m1 adv1 c1)
    = fst (koddi_healthcheck.check_entity_failures b2 tok2 m2 adv2 c2)
  /\ fst (koddi_healthcheck.check_active_bidders b1 tok1 m1 c1)
    = fst (koddi_healthcheck.check_active_bidders b2 tok2 m2 c2)
  /\ fst (koddi_healthcheck.check_attributable_entities b1 tok1 m1 c1)
    = fst (koddi_healthcheck.check_attributable_entities b2 tok2 m2 c2)
  /\ fst (koddi_healthcheck.check_winning_ads cn sid1 ex1 c1)
    = fst (koddi_healthcheck.check_winning_ads cn sid2 ex2 c2)
  /\ fst (app.check_auth b1 e1 p1 m1 c1)
  = fst (app.check_auth b2 e2 p2 m2 c2)
  /\ fst (app.check_advertiser b1 tok1 m1 adv1 c1)
    = fst (app.check_advertiser b2 tok2 m2 adv2 c2)
  /\ fst (app.check_campaigns b1 tok1 m1 adv1 c1)
    = fst (app.check_campaigns b2 tok2 m2 adv2 c2)
  /\ fst (app.check_entity_failures b1 tok1 m1 adv1 c1)
    = fst (app.check_entity_failures b2 tok2 m2 adv2 c2)
  /\ fst (app.check_active_bidders b1 tok1 m1 c1)
    = fst (app.check_active_bidders b2 tok2 m2 c2)
  /\ fst (app.check_attributable_entities b1 tok1 m1 c1)
    = fst (app.check_attributable_entities b2 tok2 m2 c2)
  /\ fst (app.check_winning_ads cn sid1 ex1 c1)
    = fst (app.check_winning_ads cn sid2 ex2 c2).
Proof.
  intros H1 H2. repeat match goal with |- _ /\ _ => split end.
  - rewrite !cli_check_auth_run. cbn [fst]. rewrite H1, H2.
    apply (answer_independent (login_request b1 e1 p1 m1)
             (login_request b2 e2 p2 m2)).
    handler_returns.
  - rewrite !cli_check_advertiser_run. cbn [fst]. rewrite H1, H2.
    apply (answer_independent (advertiser_request b1 tok1 m1 adv1)
             (advertiser_request b2 tok2 m2 adv2)).
    handler_returns.
  - rewrite !cli_check_campaigns_run. cbn [fst]. rewrite H1, H2.
    apply (answer_independent (campaigns_request b1 tok1 m1 adv1)
             (campaigns_request b2 tok2 m2 adv2)).
    handler_returns.
  - rewrite !cli_check_entity_failures_run. cbn [fst]. rewrite H1, H2.
    apply (answer_independent (entity_failures_request b1 tok1 m1 adv1)
             (entity_failures_request b2 tok2 m2 adv2)).
    handler_returns.
  - rewrite !cli_check_active_bidders_run. cbn [fst]. rewrite H1, H2.
    apply (answer_independent (active_bidders_request b1 tok1 m1)
             (active_bidders_request b2 tok2 m2)).
    handler_returns.
  - rewrite !cli_check_attributable_entities_run. cbn [fst]. rewrite H1, H2.
    apply (answer_independent (attributable_entities_request b1 tok1 m1)
             (attributable_entities_request b2 tok2 m2)).
    handler_returns.
  - rewrite !cli_check_winning_ads_run. cbn [fst]. rewrite H1, H2.
    apply cli_winning_ads_independent.
  - rewrite !web_check_auth_run. cbn [fst]. rewrite H1, H2.
    apply (answer_independent (login_request b1 e1 p1 m1)
             (login_request b2 e2 p2 m2)).
    handler_returns.
  - rewrite !web_check_advertiser_run. cbn [fst]. rewrite H1, H2.
    apply (answer_independent (advertiser_request b1 tok1 m1 adv1)
             (advertiser_request b2 tok2 m2 adv2)).
    handler_returns.
  - rewrite !web_check_campaigns_run. cbn [fst]. rewrite H1, H2.
    apply (answer_independent (campaigns_request b1 tok1 m1 adv1)
             (campaigns_request b2 tok2 m2 adv2)).
    handler_returns.
  - rewrite !web_check_entity_failures_run. cbn [fst]. rewrite H1, H2.
    apply (answer_independent (entity_failures_request b1 tok1 m1 adv1)
             (entity_failures_request b2 tok2 m2 adv2)).
    handler_returns.
  - rewrite !web_check_active_bidders_run. cbn [fst]. rewrite H1, H2.
    apply (answer_independent (active_bidders_request b1 tok1 m1)
             (active_bidders_request b2 tok2 m2)).
    handler_returns.
  - rewrite !web_check_attributable_entities_run. cbn [fst]. rewrite H1, H2.
    apply (answer_independent (attributable_entities_request b1 tok1 m1)
             (attributable_entities_request b2 tok2 m2)).
    handler_returns.
  - rewrite !web_check_winning_ads_run. cbn [fst]. rewrite H1, H2.
    apply web_winning_ads_independent.
Qed.

(** ** The two front ends side by side *)

Lemma res_rel_bind2 {A A' B B' : Type} (Q : A -> A' -> Prop)
    (R : B -> B' -> Prop) (m1 : Res A) (m2 : Res A') (k1 : A -> Res B)
    (k2 : A' -> Res B') :
  res_rel Q m1 m2 ->
  (forall a a', Q a a' -> res_rel R (k1 a) (k2 a')) ->
  res_rel R (res_bind m1 k1) (res_bind m2 k2).
Proof.
  intros Hm Hk. destruct m1 as [e1 | a1], m2 as [e2 | a2]; simpl in *;
    try contradiction; [exact Hm | apply Hk; exact Hm].
Qed.

(** Two checks whose bodies and handlers return related results return
    related results, and neither raises. *)
Lemma answer_rel {A B : Type} (R : A -> B -> Prop) (req1 req2 : Request)
    (k1 : Response -> Res A) (k2 : Response -> Res B) (h1 : Exn -> M A)
    (h2 : Exn -> M B) :
  (forall resp, res_rel R (k1 resp) (k2 resp)) ->
  (forall e c1 c2,
     exists a b, h1 e c1 = (inr a, c1) /\ h2 e c2 = (inr b, c2) /\ R a b) ->
  forall out,
    exists a b,
      answer (try_except (resp <- client_send req1 ;; lift (k1 resp)) h1) out
      = inr a
      /\ answer (try_except (resp <- client_send req2 ;; lift (k2 resp)) h2) out
         = inr b
      /\ R a b.
Proof.
  intros Hk Hh out. unfold answer, try_except, bind, client_send, lift. simpl.
  destruct out as [e | resp].
  - destruct (Hh e (record_call req1 (new_client (fun _ _ => inl e)))
                (record_call req2 (new_client (fun _ _ => inl e))))
      as (a & b & Ha & Hb & HR).
    rewrite Ha, Hb. exists a, b. auto.
  - specialize (Hk resp).
    destruct (k1 resp) as [e1 | a], (k2 resp) as [e2 | b]; simpl in Hk;
      try contradiction.
    + subst e2.
      destruct (Hh e1 (record_call req1 (new_client (fun _ _ => inr resp)))
                  (record_call req2 (new_client (fun _ _ => inr resp))))
        as (a & b & Ha & Hb & HR).
      rewrite Ha, Hb. exists a, b. auto.
    + exists a, b. auto.
Qed.

Ltac rel_leaf :=
  cbv beta iota zeta delta [res_rel same_up_to_warn_prefix check_result
                            number name status details extra];
  repeat split; reflexivity.

Ltac rel_steps :=
  cbv zeta;
  repeat first
    [ apply res_rel_bind; intros
    | match goal with
      | |- res_rel _ (if ?b then _ else _) (if ?b then _ else _) =>
          destruct b eqn:?
      end ];
  try rel_leaf.

Ltac handler_rel :=
  let e := fresh "e" in
  let c1 := fresh "c" in
  let c2 := fresh "c" in
  intros e c1 c2; destruct e; do 2 eexists;
  (split; [reflexivity | split; [reflexivity | rel_leaf]]).

Lemma same_up_to_warn_prefix_refl (r : CheckResult) :
  status r <> WARN -> same_up_to_warn_prefix r r.
Proof.
  intros Hw. unfold same_up_to_warn_prefix.
  repeat split. destruct (status r); try reflexivity. contradiction.
Qed.

Lemma joined_lines_up_to_warn_prefix (cli web : list string) :
  lines_up_to_warn_prefix cli web ->
  String.concat newline cli = warn_prefix ++ String.concat newline web.
Proof.
  intros (first & rest & -> & ->). destruct rest; reflexivity.
Qed.

Lemma failure_lines_rel `{PyRuntime} (items : list PyVal)
    (cli web : list string) :
  lines_up_to_warn_prefix cli web ->
  res_rel lines_up_to_warn_prefix
    (for_each items
       (fun f lines =>
          err_msg <~ py_get f "error_message" (PStr "N/A") ;;
          err_code <~ py_get f "error_code" (PStr "N/A") ;;
          inr (list_append lines
                 ("  • [" ++ py_str err_code ++ "] " ++ py_str err_msg)))
       cli)
    (for_each items
       (fun f lines =>
          err_code <~ py_get f "error_code" (PStr "N/A") ;;
          err_msg <~ py_get f "error_message" (PStr "N/A") ;;
          inr (list_append lines
                 ("  • [" ++ py_str err_code ++ "] " ++ py_str err_msg)))
       web).
Proof.
  revert cli web. induction items as [| f rest IH]; intros cli web Hl.
  - exact Hl.
  - cbn [for_each].
    destruct f; try reflexivity.
    py_steps. apply IH.
    destruct Hl as (first & tail & -> & ->).
    exists first. eexists. split; reflexivity.
Qed.

Section SideBySide.
Context `{PyRuntime}.

Lemma check_campaigns_rel (b : string) (tok : PyVal) (m adv : Z)
    (out : Exn + Response) :
  exists r r',
    answer (koddi_healthcheck.check_campaigns b tok m adv) out = inr r
    /\ answer (app.check_campaigns b tok m adv) out = inr r'
    /\ same_up_to_warn_prefix r r'.
Proof.
  apply (answer_rel same_up_to_warn_prefix (campaigns_request b tok m adv)
           (campaigns_request b tok m adv)).
  - intros resp. rel_steps.
  - handler_rel.
Qed.

Lemma check_entity_failures_rel (b : string) (tok : PyVal) (m adv : Z)
    (out : Exn + Response) :
  exists r r',
    answer (koddi_healthcheck.check_entity_failures b tok m adv) out = inr r
    /\ answer (app.check_entity_failures b tok m adv) out = inr r'
    /\ same_up_to_warn_prefix r r'.
Proof.
  apply (answer_rel same_up_to_warn_prefix
           (entity_failures_request b tok m adv)
           (entity_failures_request b tok m adv)).
  - intros resp. rel_steps.
    eapply res_rel_bind2.
    + apply failure_lines_rel. eexists. eexists. split; reflexivity.
    + intros l l' Hl. simpl. unfold same_up_to_warn_prefix. simpl.
      repeat split. apply joined_lines_up_to_warn_prefix. exact Hl.
  - handler_rel.
Qed.

Lemma check_active_bidders_rel (b : string) (tok : PyVal) (m : Z)
    (out : Exn + Response) :
  exists r r',
    answer (koddi_healthcheck.check_active_bidders b tok m) out = inr r
    /\ answer (app.check_active_bidders b tok m) out = inr r'
    /\ same_up_to_warn_prefix r r'.
Proof.
  apply (answer_rel same_up_to_warn_prefix (active_bidders_request b tok m)
           (active_bidders_request b tok m)).
  - intros resp. rel_steps.
  - handler_rel.
Qed.

Lemma check_attributable_entities_rel (b : string) (tok : PyVal) (m : Z)
    (out : Exn + Response) :
  exists r r',
    answer (koddi_healthcheck.check_attributable_entities b tok m) out = inr r
    /\ answer (app.check_attributable_entities b tok m) out = inr r'
    /\ same_up_to_warn_prefix r r'.
Proof.
  apply (answer_rel same_up_to_warn_prefix
           (attributable_entities_request b tok m)
           (attributable_entities_request b tok m)).
  - intros resp. rel_steps.
  - handler_rel.
Qed.

End SideBySide.

Section NoWarning.
Context `{PyRuntime}.

Lemma web_winning_ads_answer (cn sid : string) (ex : option string)
    (out : Exn + Response) :
  answer (app.check_winning_ads cn sid ex) out
  = answer (koddi_healthcheck.check_winning_ads cn sid ex) out.
Proof.
  rewrite (cli_winning_ads_independent cn sid sid ex None).
  destruct ex as [x |]; unfold app.check_winning_ads; cbv beta iota zeta;
    [destruct (String.eqb x "") |].
  - apply (answer_independent (auction_request cn sid None)
             (auction_request cn sid None)). handler_returns.
  - apply (answer_independent (auction_request cn sid (Some x))
             (auction_request cn sid None)). handler_returns.
  - apply (answer_independent (auction_request cn sid None)
             (auction_request cn sid None)). handler_returns.
Qed.

Lemma check_advertiser_no_warn (b : string) (tok : PyVal) (m adv : Z)
    (out : Exn + Response) :
  exists r,
    answer (koddi_healthcheck.check_advertiser b tok m adv) out = inr r
    /\ status r <> WARN.
Proof.
  apply (try_call_total (fun r => status r <> WARN)
           (advertiser_request b tok m adv)).
  - intros resp. res_steps.
  - handler_total.
Qed.

Lemma check_winning_ads_no_warn (cn sid : string) (ex : option string)
    (out : Exn + Response) :
  exists r,
    answer (koddi_healthcheck.check_winning_ads cn sid ex) out = inr r
    /\ status r <> WARN.
Proof.
  destruct ex as [e |].
  - apply (try_call_total (fun r => status r <> WARN)
             (auction_request cn sid (Some e)));
      [intros resp; res_steps | handler_total].
  - apply (try_call_total (fun r => status r <> WARN)
             (auction_request cn sid None));
      [intros resp; res_steps | handler_total].
Qed.

Lemma check_winning_ads_rel (cn sid : string) (ex : option string)
    (out : Exn + Response) :
  exists r r',
    answer (koddi_healthcheck.check_winning_ads cn sid ex) out = inr r
    /\ answer (app.check_winning_ads cn sid ex) out = inr r'
    /\ same_up_to_warn_prefix r r'.
Proof.
  destruct (check_winning_ads_no_warn cn sid ex out) as [r [E W]].
  exists r, r. rewrite web_winning_ads_answer.
  auto using same_up_to_warn_prefix_refl.
Qed.

Lemma auth_result_no_warn (r1 : CheckResult) (tok : PyVal) :
  auth_result (r1, tok) -> status r1 <> WARN.
Proof.
  unfold auth_result. simpl. intros [_ [[P _] | [F _]]] W;
    rewrite W in *; discriminate.
Qed.

End NoWarning.

Lemma skipped_up_to_warn_prefix (cause : string) (num : Z) (name : string) :
  same_up_to_warn_prefix (skipped cause num name) (skipped cause num name).
Proof.
  apply same_up_to_warn_prefix_refl. discriminate.
Qed.

Ltac forall2_results :=
  repeat (apply Forall2_cons;
          [solve [assumption | apply skipped_up_to_warn_prefix] |]);
  apply Forall2_nil.

(** On the lenient console the two orchestrators return lists that agree
    up to the warning sign. *)
Lemma lenient_front_ends_agree `{PyRuntime} (script : nat -> Exn + Response)
    (a : Args) :
  exists out c rs c',
    lenient_main (scripted script) a = (inr out, c)
    /\ app.run_checks (scripted script) a = (inr rs, c')
    /\ Forall2 same_up_to_warn_prefix (out_results out) rs.
Proof.
  set (net := scripted script).
  set (base := rstrip_slash (base_url a)).
  destruct (cli_check_auth_total base (email a) (password a) (member_group_id a)
              (script 0%nat)) as [[r1 tok] [E1 P1]].
  pose proof (same_up_to_warn_prefix_refl r1 (auth_result_no_warn r1 tok P1))
    as R1.
  destruct (py_is_none tok) eqn:Etok.
  - apply py_is_none_true in Etok. subst tok.
    destruct (check_winning_ads_rel (client_name a) (site_id a)
                (experience_name a) (script 1%nat))
      as (r7 & r7' & E7 & E7' & R7).
    do 4 eexists.
    split; [exact (cli_main_auth_failed net a r1 r7 E1 E7) |].
    split; [exact (web_run_checks_auth_failed net a r1 r7' E1 E7') |].
    simpl. forall2_results.
  - destruct (check_advertiser_no_warn base tok (member_group_id a)
                (advertiser_id a) (script 1%nat)) as [r2 [E2 W2]].
    pose proof (same_up_to_warn_prefix_refl r2 W2) as R2.
    destruct (Status_eqb (status r2) FAIL) eqn:F2.
    + destruct (check_active_bidders_rel base tok (member_group_id a)
                  (script 2%nat)) as (r5 & r5' & E5 & E5' & R5).
      destruct (check_attributable_entities_rel base tok (member_group_id a)
                  (script 3%nat)) as (r6 & r6' & E6 & E6' & R6).
      destruct (check_winning_ads_rel (client_name a) (site_id a)
                  (experience_name a) (script 4%nat))
        as (r7 & r7' & E7 & E7' & R7).
      do 4 eexists.
      split; [exact (cli_main_advertiser_failed net a tok Etok r1 r2 r5 r6 r7
                       E1 E2 F2 E5 E6 E7) |].
      split; [exact (web_run_checks_advertiser_failed net a tok Etok r1 r2 r5'
                       r6' r7' E1 E2 F2 E5' E6' E7') |].
      simpl. forall2_results.
    + destruct (check_campaigns_rel base tok (member_group_id a)
                  (advertiser_id a) (script 2%nat))
        as (r3 & r3' & E3 & E3' & R3).
      destruct (check_entity_failures_rel base tok (member_group_id a)
                  (advertiser_id a) (script 3%nat))
        as (r4 & r4' & E4 & E4' & R4).
      destruct (check_active_bidders_rel base tok (member_group_id a)
                  (script 4%nat)) as (r5 & r5' & E5 & E5' & R5).
      destruct (check_attributable_entities_rel base tok (member_group_id a)
                  (script 5%nat)) as (r6 & r6' & E6 & E6' & R6).
      destruct (check_winning_ads_rel (client_name a) (site_id a)
                  (experience_name a) (script 6%nat))
        as (r7 & r7' & E7 & E7' & R7).
      do 4 eexists.
      split; [exact (cli_main_all_run net a tok Etok r1 r2 r3 r4 r5 r6 r7
                       E1 E2 F2 E3 E4 E5 E6 E7) |].
      split; [exact (web_run_checks_all_run net a tok Etok r1 r2 r3' r4' r5'
                       r6' r7' E1 E2 F2 E3' E4' E5' E6' E7') |].
      simpl. forall2_results.
Qed.

(** C10 (as amended): for every configuration and every sequence of HTTP
    responses the web orchestrator returns a list of results, and whenever
    the command-line orchestrator returns (with [--json-output] it does) the
    two lists agree position by position on number, name and status, and on
    the details too, except that the details of a warning (checks 3 to 6)
    start with a warning sign in the command-line tool only. *)
Theorem front_ends_agree_up_to_warning_sign `{PyRuntime} `{RichConsole}
    (script : nat -> Exn + Response) (a : Args) :
  exists rs c',
    app.run_checks (scripted script) a = (inr rs, c')
    /\ (forall out c,
          koddi_healthcheck.main (scripted script) a = (inr out, c) ->
          Forall2 same_up_to_warn_prefix (out_results out) rs)
    /\ (use_json a = true ->
        exists out c, koddi_healthcheck.main (scripted script) a = (inr out, c)).
Proof.
  destruct (lenient_front_ends_agree script a)
    as (out0 & c0 & rs & c' & Hcli & Hweb & Hrel).
  destruct (main_returns_as_lenient (scripted script) a out0 c0 Hcli)
    as [Hjson Hany].
  exists rs, c'.
  split; [exact Hweb |].
  split.
  - intros out c Hrun. destruct (Hany out c Hrun) as [-> _]. exact Hrel.
  - intros J. do 2 eexists. exact (Hjson J).
Qed.

(** * More of the code *)

Section PassOrFail.
Context `{PyRuntime}.

Lemma check_advertiser_pass_or_fail (b : string) (tok : PyVal) (m adv : Z)
    (out : Exn + Response) :
  exists r,
    answer (koddi_healthcheck.check_advertiser b tok m adv) out = inr r
    /\ pass_or_fail 2 r.
Proof.
  apply (try_call_total (pass_or_fail 2) (advertiser_request b tok m adv)).
  - intros resp. res_steps; unfold pass_or_fail; simpl; auto.
  - intros e c; destruct e; eexists; (split; [reflexivity |]);
      unfold pass_or_fail; simpl; auto.
Qed.

Lemma check_winning_ads_pass_or_fail (cn sid : string) (ex : option string)
    (out : Exn + Response) :
  exists r,
    answer (koddi_healthcheck.check_winning_ads cn sid ex) out = inr r
    /\ pass_or_fail 7 r.
Proof.
  rewrite (cli_winning_ads_independent cn sid sid ex None).
  apply (try_call_total (pass_or_fail 7) (auction_request cn sid None)).
  - intros resp. res_steps; unfold pass_or_fail; simpl; auto.
  - intros e c; destruct e; eexists; (split; [reflexivity |]);
      unfold pass_or_fail; simpl; auto.
Qed.

End PassOrFail.

Lemma status_not_fail (r : CheckResult) (num : Z) :
  pass_or_fail num r -> Status_eqb (status r) FAIL = false -> status r = PASS.
Proof.
  intros [_ [P | F]] E; [exact P |]. rewrite F in E. discriminate.
Qed.

(** Every run of the command-line tool follows one of the three paths. *)
Lemma cli_main_path `{PyRuntime} (net : Transport) (a : Args) :
  exists r1 tok rs cs,
    fst (koddi_healthcheck.check_auth (rstrip_slash (base_url a)) (email a)
           (password a) (member_group_id a) (new_client net)) = inr (r1, tok)
    /\ lenient_main net a
       = (inr (run_output a rs), {| transport := net; calls := cs |})
    /\ run_path a
         (auction_request (client_name a) (site_id a) (experience_name a))
         tok rs cs.
Proof.
  set (base := rstrip_slash (base_url a)).
  set (login := login_request base (email a) (password a) (member_group_id a)).
  set (auction :=
         auction_request (client_name a) (site_id a) (experience_name a)).
  destruct (cli_check_auth_total base (email a) (password a) (member_group_id a)
              (net [] login)) as [[r1 tok] [E1 P1]].
  exists r1, tok.
  assert (R1 : fst (koddi_healthcheck.check_auth base (email a) (password a)
                      (member_group_id a) (new_client net)) = inr (r1, tok)).
  { rewrite cli_check_auth_run. exact E1. }
  destruct P1 as [[N1 _] [[S1 T1] | [S1 T1]]]; simpl in N1, S1, T1.
  - assert (Etok : py_is_none tok = false) by (destruct tok; try reflexivity; discriminate).
    set (advertiser :=
           advertiser_request base tok (member_group_id a) (advertiser_id a)).
    destruct (check_advertiser_pass_or_fail base tok (member_group_id a)
                (advertiser_id a) (net [login] advertiser)) as [r2 [E2 P2]].
    destruct (Status_eqb (status r2) FAIL) eqn:F2.
    + set (bidders := active_bidders_request base tok (member_group_id a)).
      set (entities :=
             attributable_entities_request base tok (member_group_id a)).
      destruct (cli_check_active_bidders_total base tok (member_group_id a)
                  (net [login; advertiser] bidders)) as [r5 [E5 P5]].
      destruct (cli_check_attributable_entities_total base tok
                  (member_group_id a)
                  (net [login; advertiser; bidders] entities)) as [r6 [E6 P6]].
      destruct (check_winning_ads_pass_or_fail (client_name a) (site_id a)
                  (experience_name a)
                  (net [login; advertiser; bidders; entities] auction))
        as [r7 [E7 P7]].
      do 2 eexists. split; [exact R1 |].
      split; [exact (cli_main_advertiser_failed net a tok Etok r1 r2 r5 r6 r7
                       E1 E2 F2 E5 E6 E7) |].
      apply path_advertiser_failed; auto.
      * apply P2.
      * apply Status_eqb_eq. exact F2.
    + set (campaigns :=
             campaigns_request base tok (member_group_id a) (advertiser_id a)).
      set (failures :=
             entity_failures_request base tok (member_group_id a)
               (advertiser_id a)).
      set (bidders := active_bidders_request base tok (member_group_id a)).
      set (entities :=
             attributable_entities_request base tok (member_group_id a)).
      destruct (cli_check_campaigns_total base tok (member_group_id a)
                  (advertiser_id a) (net [login; advertiser] campaigns))
        as [r3 [E3 P3]].
      destruct (cli_check_entity_failures_total base tok (member_group_id a)
                  (advertiser_id a) (net [login; advertiser; campaigns] failures))
        as [r4 [E4 P4]].
      destruct (cli_check_active_bidders_total base tok (member_group_id a)
                  (net [login; advertiser; campaigns; failures] bidders))
        as [r5 [E5 P5]].
      destruct (cli_check_attributable_entities_total base tok
                  (member_group_id a)
                  (net [login; advertiser; campaigns; failures; bidders]
                     entities)) as [r6 [E6 P6]].
      destruct (check_winning_ads_pass_or_fail (client_name a) (site_id a)
                  (experience_name a)
                  (net [login; advertiser; campaigns; failures; bidders;
                        entities] auction)) as [r7 [E7 P7]].
      do 2 eexists. split; [exact R1 |].
      split; [exact (cli_main_all_run net a tok Etok r1 r2 r3 r4 r5 r6 r7
                       E1 E2 F2 E3 E4 E5 E6 E7) |].
      apply path_all_run; auto.
      * apply P2.
      * exact (status_not_fail r2 2 P2 F2).
  - subst tok.
    destruct (check_winning_ads_pass_or_fail (client_name a) (site_id a)
                (experience_name a) (net [login] auction)) as [r7 [E7 P7]].
    do 2 eexists. split; [exact R1 |].
    split; [exact (cli_main_auth_failed net a r1 r7 E1 E7) |].
    apply path_auth_failed; auto.
Qed.

Lemma web_check_winning_ads_pass_or_fail `{PyRuntime} (cn sid : string)
    (ex : option string) (out : Exn + Response) :
  exists r,
    answer (app.check_winning_ads cn sid ex) out = inr r /\ pass_or_fail 7 r.
Proof.
  rewrite web_winning_ads_answer. apply check_winning_ads_pass_or_fail.
Qed.

(** So does every run of the web front end. *)
Lemma web_run_checks_path `{PyRuntime} (net : Transport) (a : Args) :
  exists r1 tok rs cs,
    fst (koddi_healthcheck.check_auth (rstrip_slash (base_url a)) (email a)
           (password a) (member_group_id a) (new_client net)) = inr (r1, tok)
    /\ app.run_checks net a = (inr rs, {| transport := net; calls := cs |})
    /\ run_path a
         (auction_request (client_name a) (site_id a)
            (web_experience (experience_name a)))
         tok rs cs.
Proof.
  set (base := rstrip_slash (base_url a)).
  set (login := login_request base (email a) (password a) (member_group_id a)).
  set (auction :=
         auction_request (client_name a) (site_id a)
           (web_experience (experience_name a))).
  destruct (cli_check_auth_total base (email a) (password a) (member_group_id a)
              (net [] login)) as [[r1 tok] [E1 P1]].
  exists r1, tok.
  assert (R1 : fst (koddi_healthcheck.check_auth base (email a) (password a)
                      (member_group_id a) (new_client net)) = inr (r1, tok)).
  { rewrite cli_check_auth_run. exact E1. }
  destruct P1 as [[N1 _] [[S1 T1] | [S1 T1]]]; simpl in N1, S1, T1.
  - assert (Etok : py_is_none tok = false) by (destruct tok; try reflexivity; discriminate).
    set (advertiser :=
           advertiser_request base tok (member_group_id a) (advertiser_id a)).
    destruct (check_advertiser_pass_or_fail base tok (member_group_id a)
                (advertiser_id a) (net [login] advertiser)) as [r2 [E2 P2]].
    destruct (Status_eqb (status r2) FAIL) eqn:F2.
    + set (bidders := active_bidders_request base tok (member_group_id a)).
      set (entities :=
             attributable_entities_request base tok (member_group_id a)).
      destruct (web_check_active_bidders_total base tok (member_group_id a)
                  (net [login; advertiser] bidders)) as [r5 [E5 P5]].
      destruct (web_check_attributable_entities_total base tok
                  (member_group_id a)
                  (net [login; advertiser; bidders] entities)) as [r6 [E6 P6]].
      destruct (web_check_winning_ads_pass_or_fail (client_name a) (site_id a)
                  (experience_name a)
                  (net [login; advertiser; bidders; entities] auction))
        as [r7 [E7 P7]].
      do 2 eexists. split; [exact R1 |].
      split; [exact (web_run_checks_advertiser_failed net a tok Etok r1 r2 r5 r6 r7
                       E1 E2 F2 E5 E6 E7) |].
      apply path_advertiser_failed; auto.
      * apply P2.
      * apply Status_eqb_eq. exact F2.
    + set (campaigns :=
             campaigns_request base tok (member_group_id a) (advertiser_id a)).
      set (failures :=
             entity_failures_request base tok (member_group_id a)
               (advertiser_id a)).
      set (bidders := active_bidders_request base tok (member_group_id a)).
      set (entities :=
             attributable_entities_request base tok (member_group_id a)).
      destruct (web_check_campaigns_total base tok (member_group_id a)
                  (advertiser_id a) (net [login; advertiser] campaigns))
        as [r3 [E3 P3]].
      destruct (web_check_entity_failures_total base tok (member_group_id a)
                  (advertiser_id a) (net [login; advertiser; campaigns] failures))
        as [r4 [E4 P4]].
      destruct (web_check_active_bidders_total base tok (member_group_id a)
                  (net [login; advertiser; campaigns; failures] bidders))
        as [r5 [E5 P5]].
      destruct (web_check_attributable_entities_total base tok
                  (member_group_id a)
                  (net [login; advertiser; campaigns; failures; bidders]
                     entities)) as [r6 [E6 P6]].
      destruct (web_check_winning_ads_pass_or_fail (client_name a) (site_id a)
                  (experience_name a)
                  (net [login; advertiser; campaigns; failures; bidders;
                        entities] auction)) as [r7 [E7 P7]].
      do 2 eexists. split; [exact R1 |].
      split; [exact (web_run_checks_all_run net a tok Etok r1 r2 r3 r4 r5 r6 r7
                       E1 E2 F2 E3 E4 E5 E6 E7) |].
      apply path_all_run; auto.
      * apply P2.
      * exact (status_not_fail r2 2 P2 F2).
  - subst tok.
    destruct (web_check_winning_ads_pass_or_fail (client_name a) (site_id a)
                (experience_name a) (net [login] auction)) as [r7 [E7 P7]].
    do 2 eexists. split; [exact R1 |].
    split; [exact (web_run_checks_auth_failed net a r1 r7 E1 E7) |].
    apply path_auth_failed; auto.
Qed.

(** ** Properties of whole runs *)

Lemma truthy_headers (tok : PyVal) :
  py_truthy tok = true -> auth_headers tok = [("Authorization", tok)].
Proof.
  intros T. unfold auth_headers. rewrite T. reflexivity.
Qed.

(** On the lenient console the token is replayed verbatim. *)
Lemma lenient_token_is_replayed_verbatim `{PyRuntime} (net : Transport) (a : Args) :
  exists r1 tok out c rs c' mid mid',
    fst (koddi_healthcheck.check_auth (rstrip_slash (base_url a)) (email a)
           (password a) (member_group_id a) (new_client net)) = inr (r1, tok)
    /\ lenient_main net a = (inr out, c)
    /\ app.run_checks net a = (inr rs, c')
    /\ calls c
       = (login_request (rstrip_slash (base_url a)) (email a) (password a)
            (member_group_id a)
          :: mid
          ++ [auction_request (client_name a) (site_id a) (experience_name a)])%list
    /\ calls c'
       = (login_request (rstrip_slash (base_url a)) (email a) (password a)
            (member_group_id a)
          :: mid'
          ++ [auction_request (client_name a) (site_id a)
                (web_experience (experience_name a))])%list
    /\ headers (login_request (rstrip_slash (base_url a)) (email a)
                  (password a) (member_group_id a)) = []
    /\ (forall experience,
          headers (auction_request (client_name a) (site_id a) experience) = [])
    /\ Forall (fun req => headers req = [("Authorization", tok)]) mid
    /\ Forall (fun req => headers req = [("Authorization", tok)]) mid'.
Proof.
  destruct (cli_main_path net a) as (r1 & tok & rs & cs & R1 & Hmain & Hpath).
  destruct (web_run_checks_path net a)
    as (r1' & tok' & rs' & cs' & R1' & Hweb & Hpath').
  rewrite R1 in R1'. injection R1' as <- <-.
  exists r1, tok. do 2 eexists. exists rs'. eexists.
  inversion Hpath; subst; inversion Hpath'; subst;
    try match goal with
        | T : py_truthy PNone = true |- _ => discriminate T
        end.
  - exists [], []. repeat split; try eassumption; constructor.
  - eexists [_; _; _], [_; _; _].
    repeat split; try eassumption;
      repeat (constructor; [apply truthy_headers; assumption |]); constructor.
  - eexists [_; _; _], [_; _; _; _; _].
    repeat split; try eassumption;
      repeat (constructor; [apply truthy_headers; assumption |]); constructor.
  - eexists [_; _; _; _; _], [_; _; _].
    repeat split; try eassumption;
      repeat (constructor; [apply truthy_headers; assumption |]); constructor.
  - eexists [_; _; _; _; _], [_; _; _; _; _].
    repeat split; try eassumption;
      repeat (constructor; [apply truthy_headers; assumption |]); constructor.
Qed.

(** X1: the token returned by Check 1 is replayed verbatim, with no prefix,
    as the only header ("Authorization") of every call between the login
    and the auction request, while the login and the auction request carry
    no header at all: in every run of the web front end, and in every run
    of the command-line tool that returns (with [--json-output] every run
    does). *)
Theorem token_is_replayed_verbatim `{PyRuntime} `{RichConsole}
    (net : Transport) (a : Args) :
  exists r1 tok rs c' mid mid',
    fst (koddi_healthcheck.check_auth (rstrip_slash (base_url a)) (email a)
           (password a) (member_group_id a) (new_client net)) = inr (r1, tok)
    /\ app.run_checks net a = (inr rs, c')
    /\ (forall out c,
          koddi_healthcheck.main net a = (inr out, c) ->
          calls c
          = (login_request (rstrip_slash (base_url a)) (email a) (password a)
               (member_group_id a)
             :: mid
             ++ [auction_request (client_name a) (site_id a)
                   (experience_name a)])%list)
    /\ (use_json a = true ->
        exists out c, koddi_healthcheck.main net a = (inr out, c))
    /\ calls c'
       = (login_request (rstrip_slash (base_url a)) (email a) (password a)
            (member_group_id a)
          :: mid'
          ++ [auction_request (client_name a) (site_id a)
                (web_experience (experience_name a))])%list
    /\ headers (login_request (rstrip_slash (base_url a)) (email a)
                  (password a) (member_group_id a)) = []
    /\ (forall experience,
          headers (auction_request (client_name a) (site_id a) experience) = [])
    /\ Forall (fun req => headers req = [("Authorization", tok)]) mid
    /\ Forall (fun req => headers req = [("Authorization", tok)]) mid'.
Proof.
  destruct (lenient_token_is_replayed_verbatim net a)
    as (r1 & tok & out0 & c0 & rs & c' & mid & mid' & A1 & Hcli & Hweb & Hc
        & Hc' & Hlogin & Hauction & Hmid & Hmid').
  destruct (main_returns_as_lenient net a out0 c0 Hcli) as [Hjson Hany].
  exists r1, tok, rs, c', mid, mid'.
  split; [exact A1 |].
  split; [exact Hweb |].
  split; [intros out c Hrun; destruct (Hany out c Hrun) as [_ ->]; exact Hc |].
  split; [intros J; do 2 eexists; exact (Hjson J) |].
  split; [exact Hc' |].
  split; [exact Hlogin |].
  split; [exact Hauction |].
  split; assumption.
Qed.

Lemma executed_not_skipped (num : Z) (r : CheckResult) :
  executed num r -> Status_eqb (status r) SKIPPED = false.
Proof.
  intros [_ S]. destruct (status r); try reflexivity. contradiction.
Qed.

Lemma pass_or_fail_not_skipped (num : Z) (r : CheckResult) :
  pass_or_fail num r -> Status_eqb (status r) SKIPPED = false.
Proof.
  intros [_ [S | S]]; rewrite S; reflexivity.
Qed.

(** On each path there is one call per result that is not a skip. *)
Lemma run_path_calls (a : Args) (auction : Request) (tok : PyVal)
    (rs : list CheckResult) (cs : list Request) :
  run_path a auction tok rs cs ->
  length cs
  = length (filter (fun r => negb (Status_eqb (status r) SKIPPED)) rs)
  /\ (length cs = 2 \/ length cs = 5 \/ length cs = 7)%nat.
Proof.
  intros Hpath. inversion Hpath; subst; cbn [filter];
    repeat match goal with
           | S : status ?r = _ |- context [status ?r] => rewrite S
           | E : executed _ ?r |- context [status ?r] =>
               rewrite (executed_not_skipped _ r E)
           | E : pass_or_fail _ ?r |- context [status ?r] =>
               rewrite (pass_or_fail_not_skipped _ r E)
           end;
    simpl; auto.
Qed.

(** On the lenient console there is one call per result that is not a
    skip. *)
Lemma lenient_one_call_per_executed_check `{PyRuntime} (net : Transport) (a : Args) :
  (exists out c,
     lenient_main net a = (inr out, c)
     /\ length (calls c)
        = length (filter (fun r => negb (Status_eqb (status r) SKIPPED))
                    (out_results out))
     /\ (length (calls c) = 2 \/ length (calls c) = 5
         \/ length (calls c) = 7)%nat)
  /\ (exists rs c,
        app.run_checks net a = (inr rs, c)
        /\ length (calls c)
           = length (filter (fun r => negb (Status_eqb (status r) SKIPPED)) rs)
        /\ (length (calls c) = 2 \/ length (calls c) = 5
            \/ length (calls c) = 7)%nat).
Proof.
  split.
  - destruct (cli_main_path net a) as (r1 & tok & rs & cs & _ & Hmain & Hpath).
    do 2 eexists. split; [exact Hmain |]. exact (run_path_calls _ _ _ _ _ Hpath).
  - destruct (web_run_checks_path net a)
      as (r1 & tok & rs & cs & _ & Hweb & Hpath).
    do 2 eexists. split; [exact Hweb |]. exact (run_path_calls _ _ _ _ _ Hpath).
Qed.

(** X2: the client receives exactly one call per result that is not a
    skip, so 2, 5 or 7 calls in all: in every run of the web front end, and
    in every run of the command-line tool that returns (with
    [--json-output] every run does). *)
Theorem one_call_per_executed_check `{PyRuntime} `{RichConsole}
    (net : Transport) (a : Args) :
  (forall out c,
     koddi_healthcheck.main net a = (inr out, c) ->
     length (calls c)
     = length (filter (fun r => negb (Status_eqb (status r) SKIPPED))
                 (out_results out))
     /\ (length (calls c) = 2 \/ length (calls c) = 5
         \/ length (calls c) = 7)%nat)
  /\ (use_json a = true ->
      exists out c, koddi_healthcheck.main net a = (inr out, c))
  /\ (exists rs c,
        app.run_checks net a = (inr rs, c)
        /\ length (calls c)
           = length (filter (fun r => negb (Status_eqb (status r) SKIPPED)) rs)
        /\ (length (calls c) = 2 \/ length (calls c) = 5
            \/ length (calls c) = 7)%nat).
Proof.
  destruct (lenient_one_call_per_executed_check net a)
    as [(out0 & c0 & Hcli & Hcalls) Hweb].
  destruct (main_returns_as_lenient net a out0 c0 Hcli) as [Hjson Hany].
  split; [| split; [| exact Hweb]].
  - intros out c Hrun. destruct (Hany out c Hrun) as [-> ->]. exact Hcalls.
  - intros J. do 2 eexists. exact (Hjson J).
Qed.

Lemma run_path_skip (a : Args) (auction : Request) (tok : PyVal)
    (rs : list CheckResult) (cs : list Request) :
  run_path a auction tok rs cs ->
  Exists (fun r => status r = SKIPPED) rs ->
  Exists (fun r => status r = FAIL /\ (number r = 1 \/ number r = 2)) rs
  /\ (length cs < 7)%nat.
Proof.
  intros Hpath Hskip. inversion Hpath; subst.
  - split; [| simpl; lia]. apply Exists_cons_hd. auto.
  - split; [| simpl; lia]. apply Exists_cons_tl, Exists_cons_hd. auto.
  - exfalso.
    repeat match goal with
           | E : executed _ _ |- _ => destruct E as [_ E]
           | E : pass_or_fail _ _ |- _ => destruct E as [_ E]
           end.
    repeat match goal with
           | E : Exists _ (_ :: _) |- _ => inversion E; clear E; subst
           | E : Exists _ [] |- _ => inversion E
           end;
      try congruence;
      try match goal with
          | E : status ?r = PASS \/ status ?r = FAIL, S : status ?r = SKIPPED
            |- _ => destruct E as [E | E]; congruence
          end.
Qed.

(** On the lenient console a skipped check means a failure. *)
Lemma lenient_a_skipped_check_means_failure `{PyRuntime} (net : Transport)
    (a : Args) :
  exists out c,
    lenient_main net a = (inr out, c)
    /\ (Exists (fun r => status r = SKIPPED) (out_results out) ->
        exit_code out = 1
        /\ Exists (fun r => status r = FAIL /\ (number r = 1 \/ number r = 2))
             (out_results out))
    /\ (exit_code out = 0 ->
        Forall (fun r => status r = PASS \/ status r = WARN) (out_results out)
        /\ length (calls c) = 7%nat).
Proof.
  destruct (cli_main_path net a) as (r1 & tok & rs & cs & _ & Hmain & Hpath).
  do 2 eexists. split; [exact Hmain |].
  simpl out_results. simpl exit_code. simpl calls.
  assert (Hfail : Exists (fun r => status r = SKIPPED) rs ->
                  any_failed rs = true).
  { intros Hs. destruct (run_path_skip _ _ _ _ _ Hpath Hs) as [Hex _].
    apply any_failed_Exists. apply Exists_exists in Hex.
    destruct Hex as [r [Hin [F _]]]. apply Exists_exists. eauto. }
  split.
  - intros Hs. split; [rewrite (Hfail Hs); reflexivity |].
    apply (run_path_skip _ _ _ _ _ Hpath Hs).
  - intros H0. destruct (any_failed rs) eqn:Eany; [discriminate |].
    assert (Hnf : forall r, In r rs -> status r <> FAIL).
    { intros r Hin F.
      assert (Hex : any_failed rs = true)
        by (apply any_failed_Exists, Exists_exists; eauto).
      congruence. }
    assert (Hns : forall r, In r rs -> status r <> SKIPPED).
    { intros r Hin S.
      assert (Hex : false = true) by (apply Hfail, Exists_exists; eauto).
      discriminate. }
    split.
    + apply Forall_forall. intros r Hin.
      specialize (Hnf r Hin). specialize (Hns r Hin).
      destruct (status r); auto; contradiction.
    + inversion Hpath; subst; try reflexivity; exfalso.
      * apply (Hns (skipped "authentication failed" 2 "Advertiser Exists"));
          [simpl; auto | reflexivity].
      * apply (Hns (skipped "advertiser check failed" 3 "Campaigns Report"));
          [simpl; auto | reflexivity].
Qed.

(** X3: in every run of the command-line tool that returns (with
    [--json-output] every run does), a skipped check means that Check 1 or
    Check 2 failed and the exit code is 1; an exit code 0 means that every
    result is a pass or a warning and all seven calls were issued. *)
Theorem a_skipped_check_means_failure `{PyRuntime} `{RichConsole}
    (net : Transport) (a : Args) :
  (forall out c,
     koddi_healthcheck.main net a = (inr out, c) ->
     (Exists (fun r => status r = SKIPPED) (out_results out) ->
      exit_code out = 1
      /\ Exists (fun r => status r = FAIL /\ (number r = 1 \/ number r = 2))
           (out_results out))
     /\ (exit_code out = 0 ->
         Forall (fun r => status r = PASS \/ status r = WARN)
           (out_results out)
         /\ length (calls c) = 7%nat))
  /\ (use_json a = true ->
      exists out c, koddi_healthcheck.main net a = (inr out, c)).
Proof.
  destruct (lenient_a_skipped_check_means_failure net a)
    as (out0 & c0 & Hcli & Hfacts).
  destruct (main_returns_as_lenient net a out0 c0 Hcli) as [Hjson Hany].
  split.
  - intros out c Hrun. destruct (Hany out c Hrun) as [-> ->]. exact Hfacts.
  - intros J. do 2 eexists. exact (Hjson J).
Qed.

Lemma run_path_statuses (a : Args) (auction : Request) (tok : PyVal)
    (rs : list CheckResult) (cs : list Request) :
  run_path a auction tok rs cs ->
  Forall (fun r => (status r = WARN -> 3 <= number r <= 6)
                   /\ (status r = SKIPPED -> 2 <= number r <= 6)) rs.
Proof.
  intros Hpath. inversion Hpath; subst;
    repeat match goal with
           | E : executed _ _ |- _ => destruct E as [? ?]
           | E : pass_or_fail _ _ |- _ => destruct E as [? [? | ?]]
           end;
    repeat (apply Forall_cons;
            [split; intros; simpl in *; first [lia | congruence] |]);
    apply Forall_nil.
Qed.

(** On the lenient console warnings come from checks 3 to 6. *)
Lemma lenient_warnings_come_from_checks_3_to_6 `{PyRuntime} (net : Transport)
    (a : Args) :
  (exists out c,
     lenient_main net a = (inr out, c)
     /\ Forall (fun r => (status r = WARN -> 3 <= number r <= 6)
                         /\ (status r = SKIPPED -> 2 <= number r <= 6))
          (out_results out))
  /\ (exists rs c,
        app.run_checks net a = (inr rs, c)
        /\ Forall (fun r => (status r = WARN -> 3 <= number r <= 6)
                            /\ (status r = SKIPPED -> 2 <= number r <= 6))
             rs).
Proof.
  split.
  - destruct (cli_main_path net a) as (r1 & tok & rs & cs & _ & Hmain & Hpath).
    do 2 eexists. split; [exact Hmain |].
    exact (run_path_statuses _ _ _ _ _ Hpath).
  - destruct (web_run_checks_path net a)
      as (r1 & tok & rs & cs & _ & Hweb & Hpath).
    do 2 eexists. split; [exact Hweb |].
    exact (run_path_statuses _ _ _ _ _ Hpath).
Qed.

(** X4: a warning can only be the result of checks 3 to 6, and a skip only
    that of checks 2 to 6, checks 1 and 7 always pass or fail: in every run
    of the web front end, and in every run of the command-line tool that
    returns (with [--json-output] every run does). *)
Theorem warnings_come_from_checks_3_to_6 `{PyRuntime} `{RichConsole}
    (net : Transport) (a : Args) :
  (forall out c,
     koddi_healthcheck.main net a = (inr out, c) ->
     Forall (fun r => (status r = WARN -> 3 <= number r <= 6)
                      /\ (status r = SKIPPED -> 2 <= number r <= 6))
       (out_results out))
  /\ (use_json a = true ->
      exists out c, koddi_healthcheck.main net a = (inr out, c))
  /\ (exists rs c,
        app.run_checks net a = (inr rs, c)
        /\ Forall (fun r => (status r = WARN -> 3 <= number r <= 6)
                            /\ (status r = SKIPPED -> 2 <= number r <= 6))
             rs).
Proof.
  destruct (lenient_warnings_come_from_checks_3_to_6 net a)
    as [(out0 & c0 & Hcli & Hall) Hweb].
  destruct (main_returns_as_lenient net a out0 c0 Hcli) as [Hjson Hany].
  split; [| split; [| exact Hweb]].
  - intros out c Hrun. destruct (Hany out c Hrun) as [-> _]. exact Hall.
  - intros J. do 2 eexists. exact (Hjson J).
Qed.

(** ** The base URL *)

Lemma rstrip_slash_slashes (n : nat) : rstrip_slash (slashes n) = "".
Proof.
  induction n as [| n IH]; [reflexivity |].
  cbn [slashes rstrip_slash]. rewrite IH. reflexivity.
Qed.

Lemma rstrip_slash_app_slashes (s : string) (n : nat) :
  rstrip_slash (s ++ slashes n) = rstrip_slash s.
Proof.
  induction s as [| a rest IH].
  - apply rstrip_slash_slashes.
  - cbn [append rstrip_slash]. rewrite IH. reflexivity.
Qed.

Lemma rstrip_slash_no_trailing_slash (s t : string) :
  rstrip_slash s <> t ++ "/".
Proof.
  revert t. induction s as [| a rest IH]; intros t.
  - destruct t; discriminate.
  - cbn [rstrip_slash].
    destruct (Ascii.eqb a "/" && String.eqb (rstrip_slash rest) "")%bool eqn:E.
    + destruct t; discriminate.
    + destruct t as [| b t'].
      * cbn [append]. intros Heq. injection Heq as Ha Hr.
        subst a. rewrite Hr in E. discriminate.
      * cbn [append]. intros Heq. injection Heq as _ Hr.
        exact (IH t' Hr).
Qed.

(** X5: trailing slashes of the base URL do not matter: with any number of
    them appended, both orchestrators behave as without, and the base that
    goes into the URLs never ends with a slash. *)
Theorem trailing_slashes_do_not_matter `{PyRuntime} `{RichConsole}
    (net : Transport) (a : Args) (n : nat) :
  koddi_healthcheck.main net (with_base_url a (base_url a ++ slashes n))
  = koddi_healthcheck.main net a
  /\ app.run_checks net (with_base_url a (base_url a ++ slashes n))
     = app.run_checks net a
  /\ forall t, rstrip_slash (base_url a) <> t ++ "/".
Proof.
  split; [| split].
  - unfold koddi_healthcheck.main, with_base_url.
    cbn [base_url email password member_group_id advertiser_id client_name
         site_id experience_name use_json].
    rewrite rstrip_slash_app_slashes. reflexivity.
  - unfold app.run_checks, with_base_url.
    cbn [base_url email password member_group_id advertiser_id client_name
         site_id experience_name use_json].
    rewrite rstrip_slash_app_slashes. reflexivity.
  - apply rstrip_slash_no_trailing_slash.
Qed.

(** ** The reports *)

Lemma count_ones_filter {A : Type} (p : A -> bool) (xs : list A) :
  count_ones p xs = Z.of_nat (length (filter p xs)).
Proof.
  unfold count_ones.
  assert (Hacc : forall acc,
             fold_left (fun total x => if p x then total + 1 else total) xs acc
             = acc + Z.of_nat (length (filter p xs))).
  { induction xs as [| x rest IH]; intros acc; cbn [fold_left filter].
    - simpl. lia.
    - rewrite IH. destruct (p x); cbn [length]; lia. }
  rewrite Hacc. lia.
Qed.

Lemma count_ones_positive {A : Type} (p : A -> bool) (xs : list A) :
  (0 <? count_ones p xs) = existsb p xs.
Proof.
  rewrite count_ones_filter.
  induction xs as [| x rest IH]; [reflexivity |].
  cbn [filter existsb]. destruct (p x); cbn [length orb].
  - apply Z.ltb_lt. lia.
  - exact IH.
Qed.

Lemma fold_left_list_append {A B : Type} (f : A -> B) (xs : list A)
    (acc : list B) :
  fold_left (fun out x => list_append out (f x)) xs acc
  = (acc ++ map f xs)%list.
Proof.
  revert acc. induction xs as [| x rest IH]; intros acc; cbn [fold_left map].
  - rewrite app_nil_r. reflexivity.
  - rewrite IH. unfold list_append. rewrite <- app_assoc. reflexivity.
Qed.

Lemma results_to_json_entries `{PyRuntime} (results : list CheckResult) :
  koddi_healthcheck.results_to_json results
  = PDict [ ("checks", PList (map report_entry results));
            ("overall", PStr (if any_failed results then "fail" else "pass")) ].
Proof.
  unfold koddi_healthcheck.results_to_json.
  rewrite (fold_left_list_append report_entry). reflexivity.
Qed.

(** X6: for any list of results, the JSON export of the web page is the
    document that [results_to_json] writes: the same entries and the same
    overall verdict, although one counts the failures and the other asks
    whether there is any. *)
Theorem both_front_ends_write_the_same_report `{PyRuntime}
    (results : list CheckResult) :
  app.json_output results = koddi_healthcheck.results_to_json results.
Proof.
  rewrite results_to_json_entries. unfold app.json_output, app.fails.
  rewrite count_ones_positive. reflexivity.
Qed.

Lemma Status_value_injective (s t : Status) :
  Status_value s = Status_value t -> s = t.
Proof.
  destruct s, t; simpl; intros E; try reflexivity; discriminate.
Qed.

Lemma report_entry_shown (r r' : CheckResult) :
  report_entry r = report_entry r' <-> shown r = shown r'.
Proof.
  unfold report_entry, shown. split; intros E.
  - injection E as En Em Es Ed. apply Status_value_injective in Es.
    congruence.
  - injection E as En Em Es Ed. congruence.
Qed.

Lemma report_entries_shown (rs rs' : list CheckResult) :
  map report_entry rs = map report_entry rs' <-> map shown rs = map shown rs'.
Proof.
  revert rs'. induction rs as [| r rest IH]; intros [| r' rest']; cbn [map];
    split; intros E; try reflexivity; try discriminate.
  - assert (E1 : report_entry r = report_entry r') by congruence.
    assert (E2 : map report_entry rest = map report_entry rest') by congruence.
    apply report_entry_shown in E1. apply IH in E2. congruence.
  - assert (E1 : shown r = shown r') by congruence.
    assert (E2 : map shown rest = map shown rest') by congruence.
    apply report_entry_shown in E1. apply IH in E2. congruence.
Qed.

Lemma any_failed_statuses (rs : list CheckResult) :
  any_failed rs = existsb (fun s => Status_eqb s FAIL) (map status rs).
Proof.
  unfold any_failed. induction rs as [| r rest IH]; [reflexivity |].
  cbn [existsb map]. rewrite IH. reflexivity.
Qed.

(** X7: the JSON report has one entry per result, in order, and two lists
    of results give the same report exactly when they agree on the number,
    name, status and details of every result: only [extra] is left out. *)
Theorem json_report_keeps_every_result `{PyRuntime}
    (rs rs' : list CheckResult) :
  py_get (koddi_healthcheck.results_to_json rs) "checks" PNone
  = inr (PList (map report_entry rs))
  /\ (koddi_healthcheck.results_to_json rs
      = koddi_healthcheck.results_to_json rs'
      <-> map shown rs = map shown rs').
Proof.
  split; [rewrite results_to_json_entries; reflexivity |].
  rewrite !results_to_json_entries. split; intros E.
  - injection E as E1 _. apply report_entries_shown. exact E1.
  - assert (Es : map status rs = map status rs').
    { apply (f_equal (map (fun x => snd (fst x)))) in E.
      rewrite !map_map in E. exact E. }
    rewrite !any_failed_statuses, Es.
    apply report_entries_shown in E. rewrite E. reflexivity.
Qed.

Lemma four_counts (rs : list CheckResult) :
  (length (filter (fun r => Status_eqb (status r) PASS) rs)
   + length (filter (fun r => Status_eqb (status r) WARN) rs)
   + length (filter (fun r => Status_eqb (status r) FAIL) rs)
   + length (filter (fun r => Status_eqb (status r) SKIPPED) rs))%nat
  = length rs.
Proof.
  induction rs as [| r rest IH]; [reflexivity |].
  cbn [filter]. destruct (status r); cbn [Status_eqb length]; lia.
Qed.

(** X8: the four counters of the summary (passes, warnings, failures,
    skips) are the same in both front ends and add up to the number of
    results; the web page says "All checks passed!" exactly when no result
    is a failure, warnings and skips notwithstanding. *)
Theorem summary_counts_add_up (results : list CheckResult) :
  koddi_healthcheck.print_summary_counts results
  = (app.passes results, app.warns results, app.fails results,
     app.skips results)
  /\ app.passes results + app.warns results + app.fails results
     + app.skips results = Z.of_nat (length results)
  /\ (app.banner results = inl "All checks passed!"
      <-> Forall (fun r => status r <> FAIL) results)
  /\ (app.fails results = 0 <-> any_failed results = false).
Proof.
  assert (Hzero : app.fails results = 0 <-> any_failed results = false).
  { unfold any_failed. rewrite <- count_ones_positive. fold (app.fails results).
    rewrite Z.ltb_ge. unfold app.fails. rewrite count_ones_filter. lia. }
  split; [reflexivity |]. split; [| split; [| exact Hzero]].
  - unfold app.passes, app.warns, app.fails, app.skips.
    rewrite !count_ones_filter. rewrite <- (four_counts results). lia.
  - unfold app.banner. split.
    + intros E. destruct (app.fails results =? 0) eqn:F; [| discriminate].
      apply Z.eqb_eq, Hzero in F.
      apply Forall_forall. intros r Hin Hf.
      assert (T : any_failed results = true)
        by (apply any_failed_Exists, Exists_exists; eauto).
      congruence.
    + intros Hall.
      assert (F : any_failed results = false).
      { destruct (any_failed results) eqn:E; [| reflexivity].
        apply any_failed_Exists, Exists_exists in E.
        destruct E as [r [Hin Hf]].
        rewrite Forall_forall in Hall. destruct (Hall r Hin Hf). }
      apply Hzero in F. rewrite F. reflexivity.
Qed.

(** ** Strings as sequences of characters *)

Lemma append_nil_r (s : string) : s ++ "" = s.
Proof.
  induction s as [| a rest IH]; [reflexivity |]. cbn [append]. rewrite IH.
  reflexivity.
Qed.

Lemma append_assoc (s t u : string) : (s ++ t) ++ u = s ++ t ++ u.
Proof.
  induction s as [| a rest IH]; [reflexivity |]. cbn [append]. rewrite IH.
  reflexivity.
Qed.

Lemma concat_cons (c : string) (cs : list string) :
  String.concat "" (c :: cs) = c ++ String.concat "" cs.
Proof.
  destruct cs; cbn [String.concat append]; [rewrite append_nil_r |]; reflexivity.
Qed.

Lemma concat_app (l1 l2 : list string) :
  String.concat "" (l1 ++ l2) = String.concat "" l1 ++ String.concat "" l2.
Proof.
  induction l1 as [| c cs IH]; [reflexivity |].
  rewrite <- app_comm_cons, !concat_cons, IH, append_assoc. reflexivity.
Qed.

Lemma utf8_split_spec (s : string) :
  all_continuation (fst (utf8_split s)) = true
  /\ forallb is_char (snd (utf8_split s)) = true
  /\ fst (utf8_split s) ++ String.concat "" (snd (utf8_split s)) = s.
Proof.
  induction s as [| a rest IH]; [repeat split |].
  cbn [utf8_split]. destruct (utf8_split rest) as [pending chars].
  cbn [fst snd] in IH. destruct IH as (Hp & Hc & Hs).
  destruct (is_continuation a) eqn:Ea; cbn [fst snd].
  - cbn [all_continuation append]. rewrite Ea, Hp, Hs. repeat split. exact Hc.
  - cbn [forallb is_char append]. rewrite Ea, Hp, Hc, concat_cons.
    cbn [append]. rewrite Hs. repeat split.
Qed.

Lemma utf8_chars_text (s : string) : is_text (utf8_chars s) = true.
Proof.
  unfold utf8_chars. destruct (utf8_split_spec s) as (Hp & Hc & _).
  destruct (utf8_split s) as [pending chars]. cbn [fst snd] in *.
  destruct pending as [| a p].
  - destruct chars as [| c cs]; [reflexivity |].
    cbn [is_text]. cbn [forallb] in Hc.
    apply andb_true_iff in Hc. destruct Hc as [H1 H2]. rewrite H1, H2.
    reflexivity.
  - cbn [is_text is_lead]. rewrite Hp, Hc, orb_true_r. reflexivity.
Qed.

Lemma utf8_chars_concat_id (s : string) : String.concat "" (utf8_chars s) = s.
Proof.
  unfold utf8_chars. destruct (utf8_split_spec s) as (_ & _ & Hs).
  destruct (utf8_split s) as [pending chars]. cbn [fst snd] in *.
  destruct pending; [exact Hs |]. rewrite concat_cons. exact Hs.
Qed.

Lemma utf8_split_chars (cs : list string) :
  forallb is_char cs = true ->
  forall p,
    all_continuation p = true ->
    utf8_split (p ++ String.concat "" cs) = (p, cs).
Proof.
  induction cs as [| c rest IH]; intros Hc p Hp.
  - cbn [String.concat]. rewrite append_nil_r.
    induction p as [| a p' IHp]; [reflexivity |].
    cbn [all_continuation] in Hp. apply andb_true_iff in Hp.
    destruct Hp as [Ha Hp']. cbn [utf8_split]. rewrite (IHp Hp'), Ha.
    reflexivity.
  - cbn [forallb] in Hc. apply andb_true_iff in Hc. destruct Hc as [Hc Hrest].
    rewrite concat_cons.
    destruct c as [| b t]; [discriminate |].
    cbn [is_char] in Hc. apply andb_true_iff in Hc. destruct Hc as [Hb Ht].
    apply negb_true_iff in Hb.
    assert (Htail : utf8_split (String b t ++ String.concat "" rest)
                    = ("", String b t :: rest)).
    { cbn [append utf8_split]. rewrite (IH Hrest t Ht), Hb. reflexivity. }
    set (tail := String b t ++ String.concat "" rest) in *.
    induction p as [| a p' IHp]; [exact Htail |].
    cbn [all_continuation] in Hp. apply andb_true_iff in Hp.
    destruct Hp as [Ha Hp']. cbn [append utf8_split].
    rewrite (IHp Hp'), Ha. reflexivity.
Qed.

(** Cutting a text into characters undoes joining them. *)
Lemma utf8_chars_concat (l : list string) :
  is_text l = true -> utf8_chars (String.concat "" l) = l.
Proof.
  destruct l as [| c cs]; [reflexivity |].
  cbn [is_text]. intros Ht. apply andb_true_iff in Ht. destruct Ht as [Hc Hcs].
  apply orb_true_iff in Hc. destruct Hc as [Hc | Hc].
  - unfold utf8_chars.
    change (String.concat "" (c :: cs))
      with ("" ++ String.concat "" (c :: cs)).
    rewrite (utf8_split_chars (c :: cs)); [reflexivity | | reflexivity].
    cbn [forallb]. rewrite Hc, Hcs. reflexivity.
  - unfold utf8_chars. rewrite concat_cons.
    destruct c as [| b t]; [discriminate |]. cbn [is_lead] in Hc.
    rewrite (utf8_split_chars cs Hcs _ Hc). reflexivity.
Qed.

Lemma is_text_firstn (n : nat) (l : list string) :
  is_text l = true -> is_text (firstn n l) = true.
Proof.
  destruct n as [| n]; [reflexivity |].
  destruct l as [| c cs]; [reflexivity |].
  cbn [firstn is_text]. intros Ht. apply andb_true_iff in Ht.
  destruct Ht as [Hc Hcs]. rewrite Hc. cbn [andb].
  revert n. induction cs as [| d ds IH]; intros n; destruct n; try reflexivity.
  cbn [forallb] in Hcs. apply andb_true_iff in Hcs. destruct Hcs as [Hd Hds].
  cbn [firstn forallb]. rewrite Hd, (IH Hds). reflexivity.
Qed.

Lemma is_text_app_chars (l cs : list string) :
  is_text l = true -> forallb is_char cs = true -> is_text (l ++ cs) = true.
Proof.
  intros Hl Hcs. destruct l as [| c rest].
  - destruct cs as [| d ds]; [reflexivity |].
    cbn [app is_text]. cbn [forallb] in Hcs.
    apply andb_true_iff in Hcs. destruct Hcs as [Hd Hds]. rewrite Hd, Hds.
    reflexivity.
  - cbn [app is_text] in *. apply andb_true_iff in Hl. destruct Hl as [Hc Hr].
    rewrite Hc, forallb_app, Hr, Hcs. reflexivity.
Qed.

Lemma has_newline_app (s t : string) :
  has_newline (s ++ t) = (has_newline s || has_newline t)%bool.
Proof.
  induction s as [| a rest IH]; [reflexivity |].
  cbn [append has_newline]. rewrite IH, orb_assoc. reflexivity.
Qed.

Lemma has_newline_concat (l : list string) :
  has_newline (String.concat "" l) = existsb has_newline l.
Proof.
  induction l as [| c cs IH]; [reflexivity |].
  rewrite concat_cons, has_newline_app, IH. reflexivity.
Qed.

Lemma has_newline_first_line (s : string) : has_newline (first_line s) = false.
Proof.
  induction s as [| a rest IH]; [reflexivity |].
  cbn [first_line]. destruct (Ascii.eqb a (ascii_of_nat 10)) eqn:E;
    [reflexivity |].
  cbn [has_newline]. rewrite E, IH. reflexivity.
Qed.

Lemma first_line_without_newline (s : string) :
  has_newline s = false -> first_line s = s.
Proof.
  induction s as [| a rest IH]; [reflexivity |].
  cbn [has_newline first_line]. intros E. apply orb_false_iff in E.
  destruct E as [Ea Er]. rewrite Ea, (IH Er). reflexivity.
Qed.

Lemma existsb_firstn {A : Type} (p : A -> bool) (n : nat) (l : list A) :
  existsb p l = false -> existsb p (firstn n l) = false.
Proof.
  revert n. induction l as [| x rest IH]; intros n E; destruct n;
    try reflexivity.
  cbn [existsb] in E. apply orb_false_iff in E. destruct E as [Ex Er].
  cbn [firstn existsb]. rewrite Ex, (IH n Er). reflexivity.
Qed.

Lemma has_newline_slice (n : nat) (s : string) :
  has_newline s = false -> has_newline (str_slice_to n s) = false.
Proof.
  intros E. unfold str_slice_to. rewrite has_newline_concat.
  apply existsb_firstn. rewrite <- has_newline_concat, utf8_chars_concat_id.
  exact E.
Qed.

Lemma str_len_of_cut (s : string) :
  60 < str_len s -> str_len (str_slice_to 57 s ++ "...") = 60.
Proof.
  unfold str_len, str_slice_to. intros Hlong.
  change "..." with (String.concat "" ["."; "."; "."]).
  rewrite <- concat_app, utf8_chars_concat.
  - rewrite length_app, length_firstn. cbn [length]. lia.
  - apply is_text_app_chars; [| reflexivity].
    apply is_text_firstn, utf8_chars_text.
Qed.

Lemma short_detail_fits (d : string) :
  str_len (koddi_healthcheck.short_detail d) <= 60
  /\ has_newline (koddi_healthcheck.short_detail d) = false.
Proof.
  unfold koddi_healthcheck.short_detail.
  destruct (60 <? str_len (first_line d)) eqn:E.
  - apply Z.ltb_lt in E. split.
    + rewrite (str_len_of_cut _ E). lia.
    + rewrite has_newline_app, has_newline_slice;
        [reflexivity | apply has_newline_first_line].
  - apply Z.ltb_ge in E. split; [exact E | apply has_newline_first_line].
Qed.

(** X9: the summary table has one row per result, and the detail of every
    row is at most 60 characters long and holds no line break. *)
Theorem summary_details_fit_the_column (results : list CheckResult) :
  length (koddi_healthcheck.print_summary_rows results) = length results
  /\ Forall (fun row => str_len (snd row) <= 60
                        /\ has_newline (snd row) = false)
       (koddi_healthcheck.print_summary_rows results).
Proof.
  unfold koddi_healthcheck.print_summary_rows. split; [apply length_map |].
  apply Forall_forall. intros row Hin. apply in_map_iff in Hin.
  destruct Hin as [r [<- _]]. cbn [snd]. apply short_detail_fits.
Qed.

(** X10: details of one line and at most 60 characters are shown whole in
    the summary table. *)
Theorem short_details_are_shown_whole (d : string) :
  has_newline d = false -> str_len d <= 60 ->
  koddi_healthcheck.short_detail d = d.
Proof.
  intros Hn Hl. unfold koddi_healthcheck.short_detail.
  rewrite (first_line_without_newline d Hn).
  apply Z.ltb_ge in Hl. rewrite Hl. reflexivity.
Qed.

(** X11: when the first line of the details is longer than 60 characters,
    the summary table shows its first 57 characters followed by "...", 60
    characters in all. *)
Theorem long_details_are_cut (d : string) :
  60 < str_len (first_line d) ->
  koddi_healthcheck.short_detail d = str_slice_to 57 (first_line d) ++ "..."
  /\ str_len (koddi_healthcheck.short_detail d) = 60
  /\ firstn 57 (utf8_chars (koddi_healthcheck.short_detail d))
     = firstn 57 (utf8_chars (first_line d)).
Proof.
  intros Hlong. unfold koddi_healthcheck.short_detail.
  pose proof Hlong as E. apply Z.ltb_lt in E. rewrite E.
  split; [reflexivity |]. split; [apply str_len_of_cut; exact Hlong |].
  unfold str_slice_to.
  change "..." with (String.concat "" ["."; "."; "."]).
  rewrite <- concat_app, utf8_chars_concat.
  - rewrite firstn_app, firstn_firstn.
    unfold str_len in Hlong.
    rewrite length_firstn.
    replace (57 - Nat.min 57 (length (utf8_chars (first_line d))))%nat
      with 0%nat by lia.
    replace (Nat.min 57 57) with 57%nat by lia.
    cbn [firstn]. apply app_nil_r.
  - apply is_text_app_chars; [| reflexivity].
    apply is_text_firstn, utf8_chars_text.
Qed.

(** ** More of the classification *)

Lemma answer_body_raises {A : Type} (req : Request) (k : Response -> Res A)
    (h : Exn -> M A) (resp : Response) (e : Exn) (a : A) :
  k resp = inl e ->
  (forall c, h e c = (inr a, c)) ->
  answer (try_except (resp <- client_send req ;; lift (k resp)) h) (inr resp)
  = inr a.
Proof.
  intros Hk Hh. unfold answer, try_except, bind, client_send, lift. simpl.
  rewrite Hk. apply (f_equal fst (Hh _)).
Qed.

Lemma py_get_not_dict (v : PyVal) (key : string) (d : PyVal) :
  (forall l, v <> PDict l) ->
  py_get v key d
  = inl (OtherException
           ("'" ++ py_type_name v ++ "' object has no attribute 'get'")).
Proof.
  intros Hv. destruct v; try reflexivity. destruct (Hv items eq_refl).
Qed.

Lemma res_bind_raise {A B : Type} (e : Exn) (k : A -> Res B) :
  res_bind (inl e) k = inl e.
Proof. reflexivity. Qed.

Lemma py_slice_list `{PyRuntime} (n : nat) (l : list PyVal) :
  py_slice_to n (PList l) = inr (PList (firstn n l)).
Proof. reflexivity. Qed.

(** X12: on a success envelope Check 1 passes and carries the value of
    result.token.id_token exactly when that value is truthy; when it is
    missing (at any of the three levels), null or empty, Check 1 fails with
    "No id_token in response" and carries no token. *)
Theorem login_token_classification `{PyRuntime} (resp : Response)
    (kvs result token : list (string * PyVal)) (b e p : string) (m : Z) :
  json resp = inr (PDict kvs) ->
  py_eq_str (dict_get kvs "status" PNone) "success" = true ->
  dict_get kvs "result" (PDict []) = PDict result ->
  dict_get result "token" (PDict []) = PDict token ->
  answer (koddi_healthcheck.check_auth b e p m) (inr resp)
  = inr (let id_token := dict_get token "id_token" PNone in
         if py_truthy id_token then
           (check_result 1 "Authentication" PASS "Authenticated successfully",
            id_token)
         else
           (check_result 1 "Authentication" FAIL "No id_token in response",
            PNone))
  /\ answer (app.check_auth b e p m) (inr resp)
     = answer (koddi_healthcheck.check_auth b e p m) (inr resp).
Proof.
  intros Hjson Hstatus Hresult Htoken. split; [| reflexivity].
  apply (answer_response (login_request b e p m)).
  on_envelope Hjson Hstatus.
  rewrite Hresult. py_steps. rewrite Htoken. py_steps.
  destruct (py_truthy _); reflexivity.
Qed.

(** X13: a success envelope whose result is present but is not an object
    (null, a list, a number, ...) makes every console check of both front
    ends fail with "Unexpected error: '{type}' object has no attribute
    'get'". *)
Theorem a_result_that_is_not_an_object_fails `{PyRuntime} (resp : Response)
    (kvs : list (string * PyVal)) (v : PyVal) (b e p : string) (tok : PyVal)
    (m adv : Z) :
  json resp = inr (PDict kvs) ->
  py_eq_str (dict_get kvs "status" PNone) "success" = true ->
  dict_get kvs "result" (PDict []) = v ->
  (forall l, v <> PDict l) ->
  answer (koddi_healthcheck.check_auth b e p m) (inr resp)
  = inr (check_result 1 "Authentication" FAIL
           ("Unexpected error: '" ++ py_type_name v
              ++ "' object has no attribute 'get'"),
         PNone)
  /\ answer (koddi_healthcheck.check_advertiser b tok m adv) (inr resp)
    = inr (check_result 2 "Advertiser Exists" FAIL
             ("Unexpected error: '" ++ py_type_name v
              ++ "' object has no attribute 'get'"))
  /\ answer (koddi_healthcheck.check_campaigns b tok m adv) (inr resp)
    = inr (check_result 3 "Campaigns Report" FAIL
             ("Unexpected error: '" ++ py_type_name v
              ++ "' object has no attribute 'get'"))
  /\ answer (koddi_healthcheck.check_entity_failures b tok m adv) (inr resp)
    = inr (check_result 4 "Entity Registration Failures" FAIL
             ("Unexpected error: '" ++ py_type_name v
              ++ "' object has no attribute 'get'"))
  /\ answer (koddi_healthcheck.check_active_bidders b tok m) (inr resp)
    = inr (check_result 5 "Active Bidders Cache" FAIL
             ("Unexpected error: '" ++ py_type_name v
              ++ "' object has no attribute 'get'"))
  /\ answer (koddi_healthcheck.check_attributable_entities b tok m) (inr resp)
    = inr (check_result 6 "Attributable Entities Cache" FAIL
             ("Unexpected error: '" ++ py_type_name v
              ++ "' object has no attribute 'get'"))
  /\ answer (app.check_auth b e p m) (inr resp)
  = inr (check_result 1 "Authentication" FAIL
           ("Unexpected error: '" ++ py_type_name v
              ++ "' object has no attribute 'get'"),
         PNone)
  /\ answer (app.check_advertiser b tok m adv) (inr resp)
    = inr (check_result 2 "Advertiser Exists" FAIL
             ("Unexpected error: '" ++ py_type_name v
              ++ "' object has no attribute 'get'"))
  /\ answer (app.check_campaigns b tok m adv) (inr resp)
    = inr (check_result 3 "Campaigns Report" FAIL
             ("Unexpected error: '" ++ py_type_name v
              ++ "' object has no attribute 'get'"))
  /\ answer (app.check_entity_failures b tok m adv) (inr resp)
    = inr (check_result 4 "Entity Registration Failures" FAIL
             ("Unexpected error: '" ++ py_type_name v
              ++ "' object has no attribute 'get'"))
  /\ answer (app.check_active_bidders b tok m) (inr resp)
    = inr (check_result 5 "Active Bidders Cache" FAIL
             ("Unexpected error: '" ++ py_type_name v
              ++ "' object has no attribute 'get'"))
  /\ answer (app.check_attributable_entities b tok m) (inr resp)
    = inr (check_result 6 "Attributable Entities Cache" FAIL
             ("Unexpected error: '" ++ py_type_name v
              ++ "' object has no attribute 'get'")).
Proof.
  intros Hjson Hstatus Hresult Hv.
  repeat match goal with |- _ /\ _ => split end.
  - apply (answer_body_raises (login_request b e p m) _ _ resp
             (OtherException
                ("'" ++ py_type_name v ++ "' object has no attribute 'get'")));
      [on_envelope Hjson Hstatus; rewrite Hresult;
       rewrite (py_get_not_dict v _ _ Hv); reflexivity | reflexivity].
  - apply (answer_body_raises (advertiser_request b tok m adv) _ _ resp
             (OtherException
                ("'" ++ py_type_name v ++ "' object has no attribute 'get'")));
      [on_envelope Hjson Hstatus; rewrite Hresult;
       rewrite (py_get_not_dict v _ _ Hv); reflexivity | reflexivity].
  - apply (answer_body_raises (campaigns_request b tok m adv) _ _ resp
             (OtherException
                ("'" ++ py_type_name v ++ "' object has no attribute 'get'")));
      [on_envelope Hjson Hstatus; rewrite Hresult;
       rewrite (py_get_not_dict v _ _ Hv); reflexivity | reflexivity].
  - apply (answer_body_raises (entity_failures_request b tok m adv) _ _ resp
             (OtherException
                ("'" ++ py_type_name v ++ "' object has no attribute 'get'")));
      [on_envelope Hjson Hstatus; rewrite Hresult;
       rewrite (py_get_not_dict v _ _ Hv); reflexivity | reflexivity].
  - apply (answer_body_raises (active_bidders_request b tok m) _ _ resp
             (OtherException
                ("'" ++ py_type_name v ++ "' object has no attribute 'get'")));
      [on_envelope Hjson Hstatus; rewrite Hresult;
       rewrite (py_get_not_dict v _ _ Hv); reflexivity | reflexivity].
  - apply (answer_body_raises (attributable_entities_request b tok m) _ _ resp
             (OtherException
                ("'" ++ py_type_name v ++ "' object has no attribute 'get'")));
      [on_envelope Hjson Hstatus; rewrite Hresult;
       rewrite (py_get_not_dict v _ _ Hv); reflexivity | reflexivity].
  - apply (answer_body_raises (login_request b e p m) _ _ resp
             (OtherException
                ("'" ++ py_type_name v ++ "' object has no attribute 'get'")));
      [on_envelope Hjson Hstatus; rewrite Hresult;
       rewrite (py_get_not_dict v _ _ Hv); reflexivity | reflexivity].
  - apply (answer_body_raises (advertiser_request b tok m adv) _ _ resp
             (OtherException
                ("'" ++ py_type_name v ++ "' object has no attribute 'get'")));
      [on_envelope Hjson Hstatus; rewrite Hresult;
       rewrite (py_get_not_dict v _ _ Hv); reflexivity | reflexivity].
  - apply (answer_body_raises (campaigns_request b tok m adv) _ _ resp
             (OtherException
                ("'" ++ py_type_name v ++ "' object has no attribute 'get'")));
      [on_envelope Hjson Hstatus; rewrite Hresult;
       rewrite (py_get_not_dict v _ _ Hv); reflexivity | reflexivity].
  - apply (answer_body_raises (entity_failures_request b tok m adv) _ _ resp
             (OtherException
                ("'" ++ py_type_name v ++ "' object has no attribute 'get'")));
      [on_envelope Hjson Hstatus; rewrite Hresult;
       rewrite (py_get_not_dict v _ _ Hv); reflexivity | reflexivity].
  - apply (answer_body_raises (active_bidders_request b tok m) _ _ resp
             (OtherException
                ("'" ++ py_type_name v ++ "' object has no attribute 'get'")));
      [on_envelope Hjson Hstatus; rewrite Hresult;
       rewrite (py_get_not_dict v _ _ Hv); reflexivity | reflexivity].
  - apply (answer_body_raises (attributable_entities_request b tok m) _ _ resp
             (OtherException
                ("'" ++ py_type_name v ++ "' object has no attribute 'get'")));
      [on_envelope Hjson Hstatus; rewrite Hresult;
       rewrite (py_get_not_dict v _ _ Hv); reflexivity | reflexivity].
Qed.

(** X14: an HTTP 200 response whose JSON document is not an object makes
    every check of both front ends fail with "Unexpected error: '{type}'
    object has no attribute 'get'". *)
Theorem a_document_that_is_not_an_object_fails `{PyRuntime} (resp : Response)
    (v : PyVal) (b e p : string) (tok : PyVal) (m adv : Z) (cn sid : string)
    (ex : option string) :
  json resp = inr v ->
  (forall l, v <> PDict l) ->
  status_code resp = 200 ->
  answer (koddi_healthcheck.check_auth b e p m) (inr resp)
  = inr (check_result 1 "Authentication" FAIL
           ("Unexpected error: '" ++ py_type_name v
              ++ "' object has no attribute 'get'"),
         PNone)
  /\ answer (koddi_healthcheck.check_advertiser b tok m adv) (inr resp)
    = inr (check_result 2 "Advertiser Exists" FAIL
             ("Unexpected error: '" ++ py_type_name v
              ++ "' object has no attribute 'get'"))
  /\ answer (koddi_healthcheck.check_campaigns b tok m adv) (inr resp)
    = inr (check_result 3 "Campaigns Report" FAIL
             ("Unexpected error: '" ++ py_type_name v
              ++ "' object has no attribute 'get'"))
  /\ answer (koddi_healthcheck.check_entity_failures b tok m adv) (inr resp)
    = inr (check_result 4 "Entity Registration Failures" FAIL
             ("Unexpected error: '" ++ py_type_name v
              ++ "' object has no attribute 'get'"))
  /\ answer (koddi_healthcheck.check_active_bidders b tok m) (inr resp)
    = inr (check_result 5 "Active Bidders Cache" FAIL
             ("Unexpected error: '" ++ py_type_name v
              ++ "' object has no attribute 'get'"))
  /\ answer (koddi_healthcheck.check_attributable_entities b tok m) (inr resp)
    = inr (check_result 6 "Attributable Entities Cache" FAIL
             ("Unexpected error: '" ++ py_type_name v
              ++ "' object has no attribute 'get'"))
  /\ answer (koddi_healthcheck.check_winning_ads cn sid ex) (inr resp)
    = inr (check_result 7 "Winning Ads (Test Auction)" FAIL
             ("Unexpected error: '" ++ py_type_name v
              ++ "' object has no attribute 'get'"))
  /\ answer (app.check_auth b e p m) (inr resp)
  = inr (check_result 1 "Authentication" FAIL
           ("Unexpected error: '" ++ py_type_name v
              ++ "' object has no attribute 'get'"),
         PNone)
  /\ answer (app.check_advertiser b tok m adv) (inr resp)
    = inr (check_result 2 "Advertiser Exists" FAIL
             ("Unexpected error: '" ++ py_type_name v
              ++ "' object has no attribute 'get'"))
  /\ answer (app.check_campaigns b tok m adv) (inr resp)
    = inr (check_result 3 "Campaigns Report" FAIL
             ("Unexpected error: '" ++ py_type_name v
              ++ "' object has no attribute 'get'"))
  /\ answer (app.check_entity_failures b tok m adv) (inr resp)
    = inr (check_result 4 "Entity Registration Failures" FAIL
             ("Unexpected error: '" ++ py_type_name v
              ++ "' object has no attribute 'get'"))
  /\ answer (app.check_active_bidders b tok m) (inr resp)
    = inr (check_result 5 "Active Bidders Cache" FAIL
             ("Unexpected error: '" ++ py_type_name v
              ++ "' object has no attribute 'get'"))
  /\ answer (app.check_attributable_entities b tok m) (inr resp)
    = inr (check_result 6 "Attributable Entities Cache" FAIL
             ("Unexpected error: '" ++ py_type_name v
              ++ "' object has no attribute 'get'"))
  /\ answer (app.check_winning_ads cn sid ex) (inr resp)
    = inr (check_result 7 "Winning Ads (Test Auction)" FAIL
             ("Unexpected error: '" ++ py_type_name v
              ++ "' object has no attribute 'get'")).
Proof.
  intros Hjson Hv H200.
  repeat match goal with |- _ /\ _ => split end.
  - apply (answer_body_raises (login_request b e p m) _ _ resp
             (OtherException
                ("'" ++ py_type_name v ++ "' object has no attribute 'get'")));
      [cbv beta zeta; rewrite (resp_json_parsed _ _ Hjson); py_steps;
       rewrite (py_get_not_dict v _ _ Hv); reflexivity | reflexivity].
  - apply (answer_body_raises (advertiser_request b tok m adv) _ _ resp
             (OtherException
                ("'" ++ py_type_name v ++ "' object has no attribute 'get'")));
      [cbv beta zeta; rewrite (resp_json_parsed _ _ Hjson); py_steps;
       rewrite (py_get_not_dict v _ _ Hv); reflexivity | reflexivity].
  - apply (answer_body_raises (campaigns_request b tok m adv) _ _ resp
             (OtherException
                ("'" ++ py_type_name v ++ "' object has no attribute 'get'")));
      [cbv beta zeta; rewrite (resp_json_parsed _ _ Hjson); py_steps;
       rewrite (py_get_not_dict v _ _ Hv); reflexivity | reflexivity].
  - apply (answer_body_raises (entity_failures_request b tok m adv) _ _ resp
             (OtherException
                ("'" ++ py_type_name v ++ "' object has no attribute 'get'")));
      [cbv beta zeta; rewrite (resp_json_parsed _ _ Hjson); py_steps;
       rewrite (py_get_not_dict v _ _ Hv); reflexivity | reflexivity].
  - apply (answer_body_raises (active_bidders_request b tok m) _ _ resp
             (OtherException
                ("'" ++ py_type_name v ++ "' object has no attribute 'get'")));
      [cbv beta zeta; rewrite (resp_json_parsed _ _ Hjson); py_steps;
       rewrite (py_get_not_dict v _ _ Hv); reflexivity | reflexivity].
  - apply (answer_body_raises (attributable_entities_request b tok m) _ _ resp
             (OtherException
                ("'" ++ py_type_name v ++ "' object has no attribute 'get'")));
      [cbv beta zeta; rewrite (resp_json_parsed _ _ Hjson); py_steps;
       rewrite (py_get_not_dict v _ _ Hv); reflexivity | reflexivity].
  - rewrite (cli_winning_ads_independent cn sid sid ex None).
    apply (answer_body_raises (auction_request cn sid None) _ _ resp
             (OtherException
                ("'" ++ py_type_name v ++ "' object has no attribute 'get'")));
      [cbv beta zeta; rewrite H200; cbv beta iota delta [negb Z.eqb Pos.eqb];
       rewrite (resp_json_parsed _ _ Hjson); py_steps;
       rewrite (py_get_not_dict v _ _ Hv); reflexivity
      | reflexivity].
  - apply (answer_body_raises (login_request b e p m) _ _ resp
             (OtherException
                ("'" ++ py_type_name v ++ "' object has no attribute 'get'")));
      [cbv beta zeta; rewrite (resp_json_parsed _ _ Hjson); py_steps;
       rewrite (py_get_not_dict v _ _ Hv); reflexivity | reflexivity].
  - apply (answer_body_raises (advertiser_request b tok m adv) _ _ resp
             (OtherException
                ("'" ++ py_type_name v ++ "' object has no attribute 'get'")));
      [cbv beta zeta; rewrite (resp_json_parsed _ _ Hjson); py_steps;
       rewrite (py_get_not_dict v _ _ Hv); reflexivity | reflexivity].
  - apply (answer_body_raises (campaigns_request b tok m adv) _ _ resp
             (OtherException
                ("'" ++ py_type_name v ++ "' object has no attribute 'get'")));
      [cbv beta zeta; rewrite (resp_json_parsed _ _ Hjson); py_steps;
       rewrite (py_get_not_dict v _ _ Hv); reflexivity | reflexivity].
  - apply (answer_body_raises (entity_failures_request b tok m adv) _ _ resp
             (OtherException
                ("'" ++ py_type_name v ++ "' object has no attribute 'get'")));
      [cbv beta zeta; rewrite (resp_json_parsed _ _ Hjson); py_steps;
       rewrite (py_get_not_dict v _ _ Hv); reflexivity | reflexivity].
  - apply (answer_body_raises (active_bidders_request b tok m) _ _ resp
             (OtherException
                ("'" ++ py_type_name v ++ "' object has no attribute 'get'")));
      [cbv beta zeta; rewrite (resp_json_parsed _ _ Hjson); py_steps;
       rewrite (py_get_not_dict v _ _ Hv); reflexivity | reflexivity].
  - apply (answer_body_raises (attributable_entities_request b tok m) _ _ resp
             (OtherException
                ("'" ++ py_type_name v ++ "' object has no attribute 'get'")));
      [cbv beta zeta; rewrite (resp_json_parsed _ _ Hjson); py_steps;
       rewrite (py_get_not_dict v _ _ Hv); reflexivity | reflexivity].
  - rewrite web_winning_ads_answer.
    rewrite (cli_winning_ads_independent cn sid sid ex None).
    apply (answer_body_raises (auction_request cn sid None) _ _ resp
             (OtherException
                ("'" ++ py_type_name v ++ "' object has no attribute 'get'")));
      [cbv beta zeta; rewrite H200; cbv beta iota delta [negb Z.eqb Pos.eqb];
       rewrite (resp_json_parsed _ _ Hjson); py_steps;
       rewrite (py_get_not_dict v _ _ Hv); reflexivity
      | reflexivity].
Qed.

Lemma answer_same_body {A : Type} (req : Request) (k : Response -> Res A)
    (h : Exn -> M A) (resp resp' : Response) :
  (forall e, exists r, forall c, h e c = (r, c)) ->
  k resp = k resp' ->
  answer (try_except (resp <- client_send req ;; lift (k resp)) h) (inr resp)
  = answer (try_except (resp <- client_send req ;; lift (k resp)) h)
      (inr resp').
Proof.
  intros Hh Hk. unfold answer, try_except, bind, client_send, lift. simpl.
  rewrite Hk. destruct (k resp') as [e | a]; [| reflexivity].
  destruct (Hh e) as [r Hr]. rewrite !Hr. reflexivity.
Qed.

(** X15: the console checks (1 to 6) of both front ends never look at the
    HTTP status code: two responses with the same body get the same
    result. *)
Theorem console_checks_ignore_the_status_code `{PyRuntime} (code code' : Z)
    (body : string + PyVal) (b e p : string) (tok : PyVal) (m adv : Z) :
  answer (koddi_healthcheck.check_auth b e p m)
    (inr {| status_code := code; json := body |})
  = answer (koddi_healthcheck.check_auth b e p m)
      (inr {| status_code := code'; json := body |})
  /\ answer (koddi_healthcheck.check_advertiser b tok m adv)
    (inr {| status_code := code; json := body |})
  = answer (koddi_healthcheck.check_advertiser b tok m adv)
      (inr {| status_code := code'; json := body |})
  /\ answer (koddi_healthcheck.check_campaigns b tok m adv)
    (inr {| status_code := code; json := body |})
  = answer (koddi_healthcheck.check_campaigns b tok m adv)
      (inr {| status_code := code'; json := body |})
  /\ answer (koddi_healthcheck.check_entity_failures b tok m adv)
    (inr {| status_code := code; json := body |})
  = answer (koddi_healthcheck.check_entity_failures b tok m adv)
      (inr {| status_code := code'; json := body |})
  /\ answer (koddi_healthcheck.check_active_bidders b tok m)
    (inr {| status_code := code; json := body |})
  = answer (koddi_healthcheck.check_active_bidders b tok m)
      (inr {| status_code := code'; json := body |})
  /\ answer (koddi_healthcheck.check_attributable_entities b tok m)
    (inr {| status_code := code; json := body |})
  = answer (koddi_healthcheck.check_attributable_entities b tok m)
      (inr {| status_code := code'; json := body |})
  /\ answer (app.check_auth b e p m)
    (inr {| status_code := code; json := body |})
  = answer (app.check_auth b e p m)
      (inr {| status_code := code'; json := body |})
  /\ answer (app.check_advertiser b tok m adv)
    (inr {| status_code := code; json := body |})
  = answer (app.check_advertiser b tok m adv)
      (inr {| status_code := code'; json := body |})
  /\ answer (app.check_campaigns b tok m adv)
    (inr {| status_code := code; json := body |})
  = answer (app.check_campaigns b tok m adv)
      (inr {| status_code := code'; json := body |})
  /\ answer (app.check_entity_failures b tok m adv)
    (inr {| status_code := code; json := body |})
  = answer (app.check_entity_failures b tok m adv)
      (inr {| status_code := code'; json := body |})
  /\ answer (app.check_active_bidders b tok m)
    (inr {| status_code := code; json := body |})
  = answer (app.check_active_bidders b tok m)
      (inr {| status_code := code'; json := body |})
  /\ answer (app.check_attributable_entities b tok m)
    (inr {| status_code := code; json := body |})
  = answer (app.check_attributable_entities b tok m)
      (inr {| status_code := code'; json := body |}).
Proof.
  repeat match goal with |- _ /\ _ => split end.
  - apply (answer_same_body (login_request b e p m));
      [handler_returns | reflexivity].
  - apply (answer_same_body (advertiser_request b tok m adv));
      [handler_returns | reflexivity].
  - apply (answer_same_body (campaigns_request b tok m adv));
      [handler_returns | reflexivity].
  - apply (answer_same_body (entity_failures_request b tok m adv));
      [handler_returns | reflexivity].
  - apply (answer_same_body (active_bidders_request b tok m));
      [handler_returns | reflexivity].
  - apply (answer_same_body (attributable_entities_request b tok m));
      [handler_returns | reflexivity].
  - apply (answer_same_body (login_request b e p m));
      [handler_returns | reflexivity].
  - apply (answer_same_body (advertiser_request b tok m adv));
      [handler_returns | reflexivity].
  - apply (answer_same_body (campaigns_request b tok m adv));
      [handler_returns | reflexivity].
  - apply (answer_same_body (entity_failures_request b tok m adv));
      [handler_returns | reflexivity].
  - apply (answer_same_body (active_bidders_request b tok m));
      [handler_returns | reflexivity].
  - apply (answer_same_body (attributable_entities_request b tok m));
      [handler_returns | reflexivity].
Qed.

(** X16: on a success envelope whose result is an object Check 2 passes
    with details "Found: {name} | status={status} | entities={entity_count}
    | currency={currency_code}", each missing field shown as "N/A". *)
Theorem advertiser_found_details `{PyRuntime} (resp : Response)
    (kvs result : list (string * PyVal)) (b : string) (tok : PyVal)
    (m adv : Z) :
  json resp = inr (PDict kvs) ->
  py_eq_str (dict_get kvs "status" PNone) "success" = true ->
  dict_get kvs "result" (PDict []) = PDict result ->
  answer (koddi_healthcheck.check_advertiser b tok m adv) (inr resp)
  = inr (check_result 2 "Advertiser Exists" PASS
           ("Found: " ++ py_str (dict_get result "name" (PStr "N/A"))
            ++ " | status=" ++ py_str (dict_get result "status" (PStr "N/A"))
            ++ " | entities="
            ++ py_str (dict_get result "entity_count" (PStr "N/A"))
            ++ " | currency="
            ++ py_str (dict_get result "currency_code" (PStr "N/A"))))
  /\ answer (app.check_advertiser b tok m adv) (inr resp)
     = inr (check_result 2 "Advertiser Exists" PASS
              ("Found: " ++ py_str (dict_get result "name" (PStr "N/A"))
               ++ " | status=" ++ py_str (dict_get result "status" (PStr "N/A"))
               ++ " | entities="
               ++ py_str (dict_get result "entity_count" (PStr "N/A"))
               ++ " | currency="
               ++ py_str (dict_get result "currency_code" (PStr "N/A")))).
Proof.
  intros Hjson Hstatus Hresult.
  split; apply (answer_response (advertiser_request b tok m adv));
    on_envelope Hjson Hstatus; rewrite Hresult; py_steps; reflexivity.
Qed.

(** X17: on a success envelope whose result is an object, or is missing,
    Check 4 passes with "No entity registration failures" whenever the total
    of that object is missing or equal to 0, whatever the list of
    registrations holds. *)
Theorem no_total_means_no_registration_failure `{PyRuntime} (resp : Response)
    (kvs result : list (string * PyVal)) (b : string) (tok : PyVal)
    (m adv : Z) :
  json resp = inr (PDict kvs) ->
  py_eq_str (dict_get kvs "status" PNone) "success" = true ->
  dict_get kvs "result" (PDict []) = PDict result ->
  py_eq_zero (dict_get result "total" (PInt 0)) = true ->
  answer (koddi_healthcheck.check_entity_failures b tok m adv) (inr resp)
  = inr (check_result 4 "Entity Registration Failures" PASS
           "No entity registration failures")
  /\ answer (app.check_entity_failures b tok m adv) (inr resp)
     = inr (check_result 4 "Entity Registration Failures" PASS
              "No entity registration failures").
Proof.
  intros Hjson Hstatus Hresult Htotal.
  split; apply (answer_response (entity_failures_request b tok m adv));
    on_envelope Hjson Hstatus; rewrite Hresult; py_steps; rewrite Htotal;
    reflexivity.
Qed.

Lemma cli_failure_lines `{PyRuntime} (failures : list (list (string * PyVal)))
    (lines : list string) :
  for_each (map PDict failures)
    (fun f lines =>
       err_msg <~ py_get f "error_message" (PStr "N/A") ;;
       err_code <~ py_get f "error_code" (PStr "N/A") ;;
       inr (list_append lines
              ("  • [" ++ py_str err_code ++ "] " ++ py_str err_msg)))
    lines
  = inr (lines ++ map failure_line failures)%list.
Proof.
  revert lines. induction failures as [| kvs rest IH]; intros lines.
  - simpl. rewrite app_nil_r. reflexivity.
  - cbn [map for_each]. py_steps. rewrite IH. unfold list_append.
    rewrite <- app_assoc. reflexivity.
Qed.

Lemma web_failure_lines `{PyRuntime} (failures : list (list (string * PyVal)))
    (lines : list string) :
  for_each (map PDict failures)
    (fun f lines =>
       err_code <~ py_get f "error_code" (PStr "N/A") ;;
       err_msg <~ py_get f "error_message" (PStr "N/A") ;;
       inr (list_append lines
              ("  • [" ++ py_str err_code ++ "] " ++ py_str err_msg)))
    lines
  = inr (lines ++ map failure_line failures)%list.
Proof.
  revert lines. induction failures as [| kvs rest IH]; intros lines.
  - simpl. rewrite app_nil_r. reflexivity.
  - cbn [map for_each]. py_steps. rewrite IH. unfold list_append.
    rewrite <- app_assoc. reflexivity.
Qed.

(** X18: on a success envelope with a total other than 0 and a list of
    registration objects, Check 4 warns; its details are the header
    "{total} registration failure(s) found. First {n}:" (after a warning
    sign in the command-line tool), n being the smaller of 5 and the length
    of the list, followed by one line "[{error_code}] {error_message}" for
    each of the first five registrations. *)
Theorem registration_failures_list_the_first_five `{PyRuntime}
    (resp : Response) (kvs result : list (string * PyVal))
    (registrations : list (list (string * PyVal))) (b : string) (tok : PyVal)
    (m adv : Z) :
  json resp = inr (PDict kvs) ->
  py_eq_str (dict_get kvs "status" PNone) "success" = true ->
  dict_get kvs "result" (PDict []) = PDict result ->
  py_eq_zero (dict_get result "total" (PInt 0)) = false ->
  dict_get result "entity_registrations" (PList [])
  = PList (map PDict registrations) ->
  answer (koddi_healthcheck.check_entity_failures b tok m adv) (inr resp)
  = inr (check_result 4 "Entity Registration Failures" WARN
           (String.concat newline
              (("⚠️  " ++ py_str (dict_get result "total" (PInt 0))
                ++ " registration failure(s) found. First "
                ++ str_of_Z (Z.of_nat (Nat.min 5 (length registrations)))
                ++ ":")
               :: map failure_line (firstn 5 registrations))))
  /\ answer (app.check_entity_failures b tok m adv) (inr resp)
     = inr (check_result 4 "Entity Registration Failures" WARN
              (String.concat newline
                 ((py_str (dict_get result "total" (PInt 0))
                   ++ " registration failure(s) found. First "
                   ++ str_of_Z (Z.of_nat (Nat.min 5 (length registrations)))
                   ++ ":")
                  :: map failure_line (firstn 5 registrations)))).
Proof.
  intros Hjson Hstatus Hresult Htotal Hregs.
  split; apply (answer_response (entity_failures_request b tok m adv));
    on_envelope Hjson Hstatus; rewrite Hresult; py_steps; rewrite Htotal;
    py_steps; rewrite Hregs, py_slice_list; py_steps;
    rewrite !firstn_map, length_map, length_firstn;
    [rewrite cli_failure_lines | rewrite web_failure_lines]; reflexivity.
Qed.

(** X19: on a success envelope whose result is an object, or is missing,
    Check 5 warns when the active_bidders of that object is missing, null
    or an empty list, and passes with "{n} active bidder(s) in cache" when
    it is a list of n > 0 items. *)
Theorem active_bidders_classification `{PyRuntime} (resp : Response)
    (kvs result : list (string * PyVal)) (cache : option (list PyVal))
    (b : string) (tok : PyVal) (m : Z) :
  json resp = inr (PDict kvs) ->
  py_eq_str (dict_get kvs "status" PNone) "success" = true ->
  dict_get kvs "result" (PDict []) = PDict result ->
  dict_get result "active_bidders" (PList []) = cache_value cache ->
  answer (koddi_healthcheck.check_active_bidders b tok m) (inr resp)
  = inr (match cache with
         | Some (first :: others) =>
             check_result 5 "Active Bidders Cache" PASS
               (str_of_Z (Z.of_nat (S (length others)))
                ++ " active bidder(s) in cache")
         | _ =>
             check_result 5 "Active Bidders Cache" WARN
               "⚠️  Active bidders list is empty — no ad groups are active"
         end)
  /\ answer (app.check_active_bidders b tok m) (inr resp)
     = inr (match cache with
            | Some (first :: others) =>
                check_result 5 "Active Bidders Cache" PASS
                  (str_of_Z (Z.of_nat (S (length others)))
                   ++ " active bidder(s) in cache")
            | _ =>
                check_result 5 "Active Bidders Cache" WARN
                  "Active bidders list is empty — no ad groups are active"
            end).
Proof.
  intros Hjson Hstatus Hresult Hcache.
  split; apply (answer_response (active_bidders_request b tok m));
    on_envelope Hjson Hstatus; rewrite Hresult; py_steps; rewrite Hcache;
    destruct cache as [[| first others] |]; reflexivity.
Qed.

(** X20: on a success envelope whose result is an object, or is missing,
    Check 6 warns when the attributable_entities of that object is missing,
    null or an empty list, and passes with
    "{n} attributable entit(ies) in cache" when it is a list of n > 0
    items. *)
Theorem attributable_entities_classification `{PyRuntime} (resp : Response)
    (kvs result : list (string * PyVal)) (cache : option (list PyVal))
    (b : string) (tok : PyVal) (m : Z) :
  json resp = inr (PDict kvs) ->
  py_eq_str (dict_get kvs "status" PNone) "success" = true ->
  dict_get kvs "result" (PDict []) = PDict result ->
  dict_get result "attributable_entities" (PList []) = cache_value cache ->
  answer (koddi_healthcheck.check_attributable_entities b tok m) (inr resp)
  = inr (match cache with
         | Some (first :: others) =>
             check_result 6 "Attributable Entities Cache" PASS
               (str_of_Z (Z.of_nat (S (length others)))
                ++ " attributable entit(ies) in cache")
         | _ =>
             check_result 6 "Attributable Entities Cache" WARN
               "⚠️  No attributable entities — conversions won't attribute"
         end)
  /\ answer (app.check_attributable_entities b tok m) (inr resp)
     = inr (match cache with
            | Some (first :: others) =>
                check_result 6 "Attributable Entities Cache" PASS
                  (str_of_Z (Z.of_nat (S (length others)))
                   ++ " attributable entit(ies) in cache")
            | _ =>
                check_result 6 "Attributable Entities Cache" WARN
                  "No attributable entities — conversions won't attribute"
            end).
Proof.
  intros Hjson Hstatus Hresult Hcache.
  split; apply (answer_response (attributable_entities_request b tok m));
    on_envelope Hjson Hstatus; rewrite Hresult; py_steps; rewrite Hcache;
    destruct cache as [[| first others] |]; reflexivity.
Qed.

(** X21: Check 7 fails on every response whose status code is not 200,
    whatever its body, with details "HTTP {code} — auction engine may be
    misconfigured or client '{client_name}' is not provisioned". *)
Theorem auction_status_other_than_200_fails `{PyRuntime} (resp : Response)
    (cn sid : string) (ex : option string) :
  status_code resp <> 200 ->
  answer (koddi_healthcheck.check_winning_ads cn sid ex) (inr resp)
  = inr (check_result 7 "Winning Ads (Test Auction)" FAIL
           ("HTTP " ++ str_of_Z (status_code resp)
            ++ " — auction engine may be misconfigured or client '" ++ cn
            ++ "' is not provisioned"))
  /\ answer (app.check_winning_ads cn sid ex) (inr resp)
     = answer (koddi_healthcheck.check_winning_ads cn sid ex) (inr resp).
Proof.
  intros Hcode. split; [| apply web_winning_ads_answer].
  rewrite (cli_winning_ads_independent cn sid sid ex None).
  apply (answer_response (auction_request cn sid None)).
  cbv beta zeta. apply Z.eqb_neq in Hcode. rewrite Hcode. reflexivity.
Qed.

(** X22: on an HTTP 200 response whose document is an object with
    sponsored_listings missing or a list, Check 7 passes, whatever the
    status field of the document says, and its details count the sponsored
    listings, a missing or empty list giving
    "0 listings (expected with empty bidders)". *)
Theorem auction_counts_the_listings `{PyRuntime} (resp : Response)
    (kvs : list (string * PyVal)) (listings : list PyVal) (cn sid : string)
    (ex : option string) :
  status_code resp = 200 ->
  json resp = inr (PDict kvs) ->
  dict_get kvs "sponsored_listings" (PList []) = PList listings ->
  answer (koddi_healthcheck.check_winning_ads cn sid ex) (inr resp)
  = inr (check_result 7 "Winning Ads (Test Auction)" PASS
           (match listings with
            | [] =>
                "Auction responded OK — 0 listings (expected with empty bidders)"
            | _ :: _ =>
                "Auction responded OK — "
                ++ str_of_Z (Z.of_nat (length listings))
                ++ " sponsored listing(s) returned"
            end))
  /\ answer (app.check_winning_ads cn sid ex) (inr resp)
     = answer (koddi_healthcheck.check_winning_ads cn sid ex) (inr resp).
Proof.
  intros Hcode Hjson Hlist. split; [| apply web_winning_ads_answer].
  rewrite (cli_winning_ads_independent cn sid sid ex None).
  apply (answer_response (auction_request cn sid None)).
  cbv beta zeta. rewrite Hcode. change (negb (200 =? 200)) with false.
  cbv beta iota.
  rewrite (resp_json_parsed _ _ Hjson). py_steps. rewrite Hlist. py_steps.
  destruct listings as [| l ls]; [reflexivity |].
  cbn [length]. rewrite Nat2Z.inj_succ.
  destruct (Z.succ (Z.of_nat (length ls)) =? 0) eqn:E;
    [apply Z.eqb_eq in E; lia | reflexivity].
Qed.

(** On the lenient console the two orchestrators issue the same requests,
    unless the experience name is the empty string. *)
Lemma lenient_front_ends_send_the_same_requests `{PyRuntime} (net : Transport)
    (a : Args) :
  web_experience (experience_name a) = experience_name a ->
  exists out c rs c',
    lenient_main net a = (inr out, c)
    /\ app.run_checks net a = (inr rs, c')
    /\ calls c = calls c'
    /\ Forall2 same_up_to_warn_prefix (out_results out) rs.
Proof.
  intros Hexp.
  set (base := rstrip_slash (base_url a)).
  set (login := login_request base (email a) (password a) (member_group_id a)).
  set (auction :=
         auction_request (client_name a) (site_id a) (experience_name a)).
  destruct (cli_check_auth_total base (email a) (password a) (member_group_id a)
              (net [] login)) as [[r1 tok] [E1 P1]].
  pose proof (same_up_to_warn_prefix_refl r1 (auth_result_no_warn r1 tok P1))
    as R1.
  destruct (py_is_none tok) eqn:Etok.
  - apply py_is_none_true in Etok. subst tok.
    destruct (check_winning_ads_rel (client_name a) (site_id a)
                (experience_name a) (net [login] auction))
      as (r7 & r7' & E7 & E7' & R7).
    pose proof (web_run_checks_auth_failed net a r1 r7') as Hweb.
    cbv zeta in Hweb. rewrite Hexp in Hweb. specialize (Hweb E1 E7').
    do 4 eexists.
    split; [exact (cli_main_auth_failed net a r1 r7 E1 E7) |].
    split; [exact Hweb |].
    split; [reflexivity |].
    simpl. forall2_results.
  - set (advertiser :=
           advertiser_request base tok (member_group_id a) (advertiser_id a)).
    destruct (check_advertiser_no_warn base tok (member_group_id a)
                (advertiser_id a) (net [login] advertiser)) as [r2 [E2 W2]].
    pose proof (same_up_to_warn_prefix_refl r2 W2) as R2.
    set (bidders := active_bidders_request base tok (member_group_id a)).
    set (entities :=
           attributable_entities_request base tok (member_group_id a)).
    destruct (Status_eqb (status r2) FAIL) eqn:F2.
    + destruct (check_active_bidders_rel base tok (member_group_id a)
                  (net [login; advertiser] bidders))
        as (r5 & r5' & E5 & E5' & R5).
      destruct (check_attributable_entities_rel base tok (member_group_id a)
                  (net [login; advertiser; bidders] entities))
        as (r6 & r6' & E6 & E6' & R6).
      destruct (check_winning_ads_rel (client_name a) (site_id a)
                  (experience_name a)
                  (net [login; advertiser; bidders; entities] auction))
        as (r7 & r7' & E7 & E7' & R7).
      pose proof (web_run_checks_advertiser_failed net a tok Etok r1 r2 r5' r6'
                    r7') as Hweb.
      cbv zeta in Hweb. rewrite Hexp in Hweb.
      specialize (Hweb E1 E2 F2 E5' E6' E7').
      do 4 eexists.
      split; [exact (cli_main_advertiser_failed net a tok Etok r1 r2 r5 r6 r7
                       E1 E2 F2 E5 E6 E7) |].
      split; [exact Hweb |].
      split; [reflexivity |].
      simpl. forall2_results.
    + set (campaigns :=
             campaigns_request base tok (member_group_id a) (advertiser_id a)).
      set (failures :=
             entity_failures_request base tok (member_group_id a)
               (advertiser_id a)).
      destruct (check_campaigns_rel base tok (member_group_id a)
                  (advertiser_id a) (net [login; advertiser] campaigns))
        as (r3 & r3' & E3 & E3' & R3).
      destruct (check_entity_failures_rel base tok (member_group_id a)
                  (advertiser_id a)
                  (net [login; advertiser; campaigns] failures))
        as (r4 & r4' & E4 & E4' & R4).
      destruct (check_active_bidders_rel base tok (member_group_id a)
                  (net [login; advertiser; campaigns; failures] bidders))
        as (r5 & r5' & E5 & E5' & R5).
      destruct (check_attributable_entities_rel base tok (member_group_id a)
                  (net [login; advertiser; campaigns; failures; bidders]
                     entities))
        as (r6 & r6' & E6 & E6' & R6).
      destruct (check_winning_ads_rel (client_name a) (site_id a)
                  (experience_name a)
                  (net [login; advertiser; campaigns; failures; bidders;
                        entities] auction))
        as (r7 & r7' & E7 & E7' & R7).
      pose proof (web_run_checks_all_run net a tok Etok r1 r2 r3' r4' r5' r6'
                    r7') as Hweb.
      cbv zeta in Hweb. rewrite Hexp in Hweb.
      specialize (Hweb E1 E2 F2 E3' E4' E5' E6' E7').
      do 4 eexists.
      split; [exact (cli_main_all_run net a tok Etok r1 r2 r3 r4 r5 r6 r7
                       E1 E2 F2 E3 E4 E5 E6 E7) |].
      split; [exact Hweb |].
      split; [reflexivity |].
      simpl. forall2_results.
Qed.

(** X23: unless the experience name is the empty string, the web
    orchestrator and every run of the command-line orchestrator that returns
    (with [--json-output] every run does) issue the very same sequence of
    requests on any transport, and their results agree up to the warning
    sign of the command-line tool. *)
Theorem front_ends_send_the_same_requests `{PyRuntime} `{RichConsole}
    (net : Transport) (a : Args) :
  web_experience (experience_name a) = experience_name a ->
  exists rs c',
    app.run_checks net a = (inr rs, c')
    /\ (forall out c,
          koddi_healthcheck.main net a = (inr out, c) ->
          calls c = calls c'
          /\ Forall2 same_up_to_warn_prefix (out_results out) rs)
    /\ (use_json a = true ->
        exists out c, koddi_healthcheck.main net a = (inr out, c)).
Proof.
  intros Hexp.
  destruct (lenient_front_ends_send_the_same_requests net a Hexp)
    as (out0 & c0 & rs & c' & Hcli & Hweb & Hcalls & Hrel).
  destruct (main_returns_as_lenient net a out0 c0 Hcli) as [Hjson Hany].
  exists rs, c'.
  split; [exact Hweb |].
  split.
  - intros out c Hrun. destruct (Hany out c Hrun) as [-> ->].
    split; [exact Hcalls | exact Hrel].
  - intros J. do 2 eexists. exact (Hjson J).
Qed.

(** X24: the arguments the web form passes to [run_checks] have a non-empty
    email, password and client name, non-zero identifiers, a site id that
    defaults to "homepage" and an experience name that is absent rather
    than empty. *)
Theorem the_form_never_sends_empty_fields (f : app.Form) (a : Args) :
  app.form_args f = Some a ->
  email a <> "" /\ password a <> "" /\ client_name a <> ""
  /\ member_group_id a <> 0 /\ advertiser_id a <> 0
  /\ site_id a <> "" /\ experience_name a <> Some ""
  /\ web_experience (experience_name a) = experience_name a
  /\ (app.form_site_id f = "" -> site_id a = "homepage")
  /\ (app.form_experience_name f = "" -> experience_name a = None).
Proof.
  unfold app.form_args. destruct (app.can_run f) eqn:Hrun; [| discriminate].
  unfold app.can_run in Hrun.
  repeat (apply andb_true_iff in Hrun; destruct Hrun as [Hrun ?]).
  destruct (app.form_member_group_id f) as [mg |]; [| discriminate].
  destruct (app.form_advertiser_id f) as [adv |]; [| discriminate].
  intros E. injection E as <-. cbn [email password client_name member_group_id
    advertiser_id site_id experience_name].
  repeat match goal with
         | E : negb (String.eqb _ "") = true |- _ =>
             apply negb_true_iff, String.eqb_neq in E
         | E : app.int_truthy (Some _) = true |- _ =>
             cbn [app.int_truthy] in E; apply negb_true_iff, Z.eqb_neq in E
         end.
  repeat split; auto.
  - destruct (String.eqb (app.form_site_id f) "") eqn:Es; cbn [negb].
    + discriminate.
    + apply String.eqb_neq. exact Es.
  - destruct (String.eqb (app.form_experience_name f) "") eqn:Es; cbn [negb].
    + discriminate.
    + intros E. injection E as E. rewrite E in Es. discriminate.
  - destruct (String.eqb (app.form_experience_name f) "") eqn:Es; cbn [negb];
      unfold web_experience; [reflexivity | rewrite Es; reflexivity].
  - intros ->. reflexivity.
  - intros ->. reflexivity.
Qed.

Lemma check_auth_token_with_pass `{PyRuntime} (b e p : string) (m : Z)
    (out : Exn + Response) :
  exists rt,
    answer (koddi_healthcheck.check_auth b e p m) out = inr rt
    /\ (number (fst rt) = 1 /\ name (fst rt) = "Authentication"
        /\ token_with_pass rt).
Proof.
  apply (try_call_total
           (fun rt => number (fst rt) = 1 /\ name (fst rt) = "Authentication"
                      /\ token_with_pass rt)
           (login_request b e p m)).
  - intros resp. res_steps; unfold token_with_pass; simpl; auto.
  - intros e0 c; destruct e0; eexists; (split; [reflexivity |]);
      unfold token_with_pass; simpl; auto.
Qed.

(** X25: whatever the network answers, Check 1 returns normally in both
    front ends, with a truthy token exactly when its result is the pass
    "Authenticated successfully", and with no token when it fails. *)
Theorem a_token_comes_with_a_pass `{PyRuntime} (b e p : string) (m : Z)
    (out : Exn + Response) :
  exists r tok,
    answer (koddi_healthcheck.check_auth b e p m) out = inr (r, tok)
    /\ answer (app.check_auth b e p m) out = inr (r, tok)
    /\ number r = 1 /\ name r = "Authentication"
    /\ ((status r = PASS /\ details r = "Authenticated successfully"
         /\ py_truthy tok = true)
        \/ (status r = FAIL /\ tok = PNone)).
Proof.
  destruct (check_auth_token_with_pass b e p m out) as [[r tok] [E P]].
  exists r, tok. split; [exact E |]. split; [exact E |]. exact P.
Qed.

(** ** The claims at sample runs *)

#[local] Existing Instance sample_runtime.
#[local] Existing Instance sample_console.

(** C1 fails on the console.  The login is refused with a message that
    quotes its route between brackets: Check 1 fails and yields no token,
    and printing its details raises, the bracketed route being a closing tag
    that matches no open tag.  The run ends there, after the login call
    alone: no check is recorded as skipped and the auction request is not
    issued.  On the same answers the run with [--json-output] and the web
    front end skip checks 2 to 6 and proceed to Check 7. *)
Theorem console_run_ends_at_a_refused_login :
  let net := scripted login_without_route in
  let login :=
    login_request "https://koddi.io/console/v1" "bob@company.com" "secret"
      1234 in
  fst (koddi_healthcheck.check_auth "https://koddi.io/console/v1"
         "bob@company.com" "secret" 1234 (new_client net))
  = inr (check_result 1 "Authentication" FAIL
           "Login failed — code E404: no route [/session/login]", PNone)
  /\ koddi_healthcheck.main net console_args
     = (inl (OtherException
               "closing tag '[/session/login]' at position 57 doesn't match any open tag"),
        {| transport := net; calls := [login] |})
  /\ (exists out c,
        koddi_healthcheck.main net sample_args = (inr out, c)
        /\ map status (out_results out)
           = [FAIL; SKIPPED; SKIPPED; SKIPPED; SKIPPED; SKIPPED; FAIL]
        /\ length (calls c) = 2%nat)
  /\ (exists rs c,
        app.run_checks net console_args = (inr rs, c)
        /\ map status rs
           = [FAIL; SKIPPED; SKIPPED; SKIPPED; SKIPPED; SKIPPED; FAIL]
        /\ length (calls c) = 2%nat).
Proof.
  cbv zeta.
  split; [reflexivity |].
  split; [vm_compute; reflexivity |].
  split; do 2 eexists; (split; [vm_compute; reflexivity |]);
    split; reflexivity.
Qed.

(** C2 fails on the console.  The login yields a token and the advertiser
    request is refused with a message that quotes its route between
    brackets: Check 2 fails, and printing its details raises.  The run ends
    there, after two calls: checks 3 and 4 are not recorded as skipped and
    checks 5 and 6 are not executed.  On the same answers the run with
    [--json-output] and the web front end skip checks 3 and 4 and execute
    checks 5, 6 and 7. *)
Theorem console_run_ends_at_a_failed_advertiser_check :
  let net := scripted advertiser_without_route in
  let login :=
    login_request "https://koddi.io/console/v1" "bob@company.com" "secret"
      1234 in
  let advertiser :=
    advertiser_request "https://koddi.io/console/v1" (PStr "abc") 1234 5678 in
  fst (koddi_healthcheck.check_advertiser "https://koddi.io/console/v1"
         (PStr "abc") 1234 5678 (record_call login (new_client net)))
  = inr (check_result 2 "Advertiser Exists" FAIL
           "Error E404: no route [/advertisers/5678]")
  /\ koddi_healthcheck.main net console_args
     = (inl (OtherException
               "closing tag '[/advertisers/5678]' at position 43 doesn't match any open tag"),
        {| transport := net; calls := [login; advertiser] |})
  /\ (exists out c,
        koddi_healthcheck.main net sample_args = (inr out, c)
        /\ map status (out_results out)
           = [PASS; FAIL; SKIPPED; SKIPPED; FAIL; FAIL; FAIL]
        /\ length (calls c) = 5%nat)
  /\ (exists rs c,
        app.run_checks net console_args = (inr rs, c)
        /\ map status rs = [PASS; FAIL; SKIPPED; SKIPPED; FAIL; FAIL; FAIL]
        /\ length (calls c) = 5%nat).
Proof.
  cbv zeta.
  split; [reflexivity |].
  split; [vm_compute; reflexivity |].
  split; do 2 eexists; (split; [vm_compute; reflexivity |]);
    split; reflexivity.
Qed.

(** C3 fails on the console.  Every check of the account passes, and the
    name of its campaign holds a closing tag: printing the details of
    Check 3 raises, and the run ends after three calls, none of which is the
    auction request: Check 7 is not executed.  On the same answers the run
    with [--json-output] and the web front end end on the auction
    request. *)
Theorem console_run_ends_before_the_auction :
  let net := scripted (healthy_account "Summer [/sale]") in
  let auction := auction_request "myretailer" "homepage" None in
  (exists c,
     koddi_healthcheck.main net console_args
     = (inl (OtherException
               "closing tag '[/sale]' at position 57 doesn't match any open tag"),
        c)
     /\ length (calls c) = 3%nat
     /\ ~ In auction (calls c))
  /\ (exists out c,
        koddi_healthcheck.main net sample_args = (inr out, c)
        /\ nth_error (calls c) 6 = Some auction
        /\ nth_error (map status (out_results out)) 6 = Some PASS)
  /\ (exists rs c,
        app.run_checks net console_args = (inr rs, c)
        /\ nth_error (calls c) 6 = Some auction
        /\ nth_error (map status rs) 6 = Some PASS).
Proof.
  cbv zeta.
  split.
  { eexists. split; [vm_compute; reflexivity |].
    split; [reflexivity |].
    intros [E | [E | [E | []]]]; discriminate E. }
  split; do 2 eexists; (split; [vm_compute; reflexivity |]);
    split; reflexivity.
Qed.

(** C4 fails on the console.  Every check of the account passes, and the
    name of its campaign holds a closing tag: the run ends on the exception
    raised by printing the details of Check 3, so the process exits with
    status 1 although no check failed.  On the same answers the run with
    [--json-output] gives the verdict "pass" and exits with status 0. *)
Theorem console_run_exits_with_1_without_a_failure :
  let net := scripted (healthy_account "Summer [/sale]") in
  process_exit_code (fst (koddi_healthcheck.main net console_args)) = 1
  /\ (forall out c, koddi_healthcheck.main net console_args <> (inr out, c))
  /\ (exists out c,
        koddi_healthcheck.main net sample_args = (inr out, c)
        /\ map status (out_results out)
           = [PASS; PASS; PASS; PASS; PASS; PASS; PASS]
        /\ py_get (koddi_healthcheck.results_to_json (out_results out))
             "overall" PNone = inr (PStr "pass")
        /\ exit_code out = 0
        /\ process_exit_code (fst (koddi_healthcheck.main net sample_args))
           = 0).
Proof.
  cbv zeta.
  split; [vm_compute; reflexivity |].
  split.
  { intros out c E. vm_compute in E. discriminate E. }
  do 2 eexists. split; [vm_compute; reflexivity |].
  repeat split; vm_compute; reflexivity.
Qed.

(** C5 fails on the console.  Every check of the account passes, and the
    name of its campaign ends with a closing tag that has nothing to close:
    the run ends on the exception raised by printing the details of
    Check 3 and leaves no list of results, three of the seven checks having
    run.  On the same answers the run with [--json-output] and the web front
    end return the seven results. *)
Theorem console_run_leaves_no_result_list :
  let net := scripted (healthy_account "Clearance [/]") in
  (forall out c, koddi_healthcheck.main net console_args <> (inr out, c))
  /\ (exists msg c,
        koddi_healthcheck.main net console_args
        = (inl (OtherException msg), c)
        /\ markup_error
             ("  " ++ koddi_healthcheck.status_icon PASS ++ " — "
              ++ "Found 1 campaign(s)" ++ newline
              ++ "  • Clearance [/] | status=active | always_on=True | budget=daily/100")
           = Some msg
        /\ length (calls c) = 3%nat)
  /\ (exists out c,
        koddi_healthcheck.main net sample_args = (inr out, c)
        /\ map number (out_results out) = [1; 2; 3; 4; 5; 6; 7])
  /\ (exists rs c,
        app.run_checks net console_args = (inr rs, c)
        /\ map number rs = [1; 2; 3; 4; 5; 6; 7]).
Proof.
  cbv zeta.
  split.
  { intros out c E. vm_compute in E. discriminate E. }
  split.
  { do 2 eexists. split; [vm_compute; reflexivity |].
    split; [vm_compute; reflexivity | reflexivity]. }
  split; do 2 eexists; (split; [vm_compute; reflexivity |]); reflexivity.
Qed.

(** C10, as amended, at a run on the console in which Check 3 warns: the
    command-line orchestrator returns. *)
Lemma front_ends_agree_up_to_warning_sign_witness :
  let script := empty_advertiser in
  let a := console_args in
  (exists out c, koddi_healthcheck.main (scripted script) a = (inr out, c))
  /\ exists rs c',
       app.run_checks (scripted script) a = (inr rs, c')
       /\ (forall out c,
             koddi_healthcheck.main (scripted script) a = (inr out, c) ->
             Forall2 same_up_to_warn_prefix (out_results out) rs)
       /\ (use_json a = true ->
           exists out c,
             koddi_healthcheck.main (scripted script) a = (inr out, c)).
Proof.
  cbv zeta.
  split; [do 2 eexists; vm_compute; reflexivity |].
  apply (@front_ends_agree_up_to_warning_sign sample_runtime sample_console
           empty_advertiser console_args).
Defined.

(** C6 at the rejected login of scenario B. *)
Lemma error_envelope_is_a_failure_witness :
  let resp := login_rejected in
  let kvs := [ ("status", PStr "error");
               ("error_code", PStr "E401");
               ("message", PStr "bad credentials") ] in
  let b := "https://koddi.io/console/v1" in
  let e := "bob@company.com" in
  let p := "secret" in
  let tok := PStr "abc" in
  let m := 1234 in
  let adv := 5678 in
  answer (koddi_healthcheck.check_auth b e p m) (inr resp)
  = inr (check_result 1 "Authentication" FAIL
           ("Login failed — code " ++ envelope_error kvs), PNone)
  /\ answer (koddi_healthcheck.check_advertiser b tok m adv) (inr resp)
    = inr (check_result 2 "Advertiser Exists" FAIL
             ("Error " ++ envelope_error kvs))
  /\ answer (koddi_healthcheck.check_campaigns b tok m adv) (inr resp)
    = inr (check_result 3 "Campaigns Report" FAIL
             ("Error " ++ envelope_error kvs))
  /\ answer (koddi_healthcheck.check_entity_failures b tok m adv) (inr resp)
    = inr (check_result 4 "Entity Registration Failures" FAIL
             ("Error " ++ envelope_error kvs))
  /\ answer (koddi_healthcheck.check_active_bidders b tok m) (inr resp)
    = inr (check_result 5 "Active Bidders Cache" FAIL
             ("Error " ++ envelope_error kvs))
  /\ answer (koddi_healthcheck.check_attributable_entities b tok m) (inr resp)
    = inr (check_result 6 "Attributable Entities Cache" FAIL
             ("Error " ++ envelope_error kvs))
  /\ answer (app.check_auth b e p m) (inr resp)
  = inr (check_result 1 "Authentication" FAIL
           ("Login failed — code " ++ envelope_error kvs), PNone)
  /\ answer (app.check_advertiser b tok m adv) (inr resp)
    = inr (check_result 2 "Advertiser Exists" FAIL
             ("Error " ++ envelope_error kvs))
  /\ answer (app.check_campaigns b tok m adv) (inr resp)
    = inr (check_result 3 "Campaigns Report" FAIL
             ("Error " ++ envelope_error kvs))
  /\ answer (app.check_entity_failures b tok m adv) (inr resp)
    = inr (check_result 4 "Entity Registration Failures" FAIL
             ("Error " ++ envelope_error kvs))
  /\ answer (app.check_active_bidders b tok m) (inr resp)
    = inr (check_result 5 "Active Bidders Cache" FAIL
             ("Error " ++ envelope_error kvs))
  /\ answer (app.check_attributable_entities b tok m) (inr resp)
    = inr (check_result 6 "Attributable Entities Cache" FAIL
             ("Error " ++ envelope_error kvs)).
Proof.
  cbv zeta.
  apply (@error_envelope_is_a_failure sample_runtime login_rejected
           [ ("status", PStr "error");
             ("error_code", PStr "E401");
             ("message", PStr "bad credentials") ]
           "https://koddi.io/console/v1" "bob@company.com" "secret"
           (PStr "abc") 1234 5678);
    reflexivity.
Defined.

(** C8 at a report of one campaign. *)
Lemma campaigns_report_classification_witness :
  let resp := one_campaign in
  let campaigns := [ [ ("name", PStr "Spring");
                       ("status", PStr "active");
                       ("always_on", PBool true);
                       ("budget_type", PStr "daily");
                       ("budget_amount", PInt 100) ] ] in
  let result := [ ("campaigns", PList (map PDict campaigns));
                  ("total", PInt 1) ] in
  let b := "https://koddi.io/console/v1" in
  let tok := PStr "abc" in
  let m := 1234 in
  let adv := 5678 in
  answer (koddi_healthcheck.check_campaigns b tok m adv) (inr resp)
  = inr (let total :=
           dict_get result "total" (PInt (Z.of_nat (length campaigns))) in
         if py_eq_zero total then
           check_result 3 "Campaigns Report" WARN
             "⚠️  Zero campaigns found for this advertiser"
         else
           check_result 3 "Campaigns Report" PASS
             (String.concat newline
                (("Found " ++ py_str total ++ " campaign(s)")
                 :: map campaign_line campaigns)))
  /\ answer (app.check_campaigns b tok m adv) (inr resp)
     = inr (let total :=
              dict_get result "total" (PInt (Z.of_nat (length campaigns))) in
            if py_eq_zero total then
              check_result 3 "Campaigns Report" WARN
                "Zero campaigns found for this advertiser"
            else
              check_result 3 "Campaigns Report" PASS
                (String.concat newline
                   (("Found " ++ py_str total ++ " campaign(s)")
                    :: map campaign_line campaigns))).
Proof.
  cbv zeta.
  apply (@campaigns_report_classification sample_runtime one_campaign
           [ ("status", PStr "success");
             ("result",
              PDict [ ("campaigns",
                       PList [PDict [ ("name", PStr "Spring");
                                      ("status", PStr "active");
                                      ("always_on", PBool true);
                                      ("budget_type", PStr "daily");
                                      ("budget_amount", PInt 100) ]]);
                      ("total", PInt 1) ]) ]
           [ ("campaigns",
              PList [PDict [ ("name", PStr "Spring");
                             ("status", PStr "active");
                             ("always_on", PBool true);
                             ("budget_type", PStr "daily");
                             ("budget_amount", PInt 100) ]]);
             ("total", PInt 1) ]
           [ [ ("name", PStr "Spring");
               ("status", PStr "active");
               ("always_on", PBool true);
               ("budget_type", PStr "daily");
               ("budget_amount", PInt 100) ] ]
           "https://koddi.io/console/v1" (PStr "abc") 1234 5678);
    reflexivity.
Defined.

(** C9 at two clients that answer with the empty campaigns report. *)
Lemma classifiers_are_pure_witness :
  let out := inr no_campaigns in
  let c1 := new_client (fun _ _ => out) in
  let c2 :=
    record_call (login_request "https://example.org" "amy@company.com" "pw" 1)
      (new_client (fun _ _ => out)) in
  let b1 := "https://koddi.io/console/v1" in
  let b2 := "https://example.org" in
  let e1 := "bob@company.com" in
  let e2 := "amy@company.com" in
  let p1 := "secret" in
  let p2 := "pw" in
  let tok1 := PStr "abc" in
  let tok2 := PStr "xyz" in
  let m1 := 1234 in
  let m2 := 1 in
  let adv1 := 5678 in
  let adv2 := 2 in
  let cn := "myretailer" in
  let sid1 := "homepage" in
  let sid2 := "search" in
  let ex1 := @None string in
  let ex2 := Some "Sponsored Products" in
  fst (koddi_healthcheck.check_auth b1 e1 p1 m1 c1)
  = fst (koddi_healthcheck.check_auth b2 e2 p2 m2 c2)
  /\ fst (koddi_healthcheck.check_advertiser b1 tok1 m1 adv1 c1)
    = fst (koddi_healthcheck.check_advertiser b2 tok2 m2 adv2 c2)
  /\ fst (koddi_healthcheck.check_campaigns b1 tok1 m1 adv1 c1)
    = fst (koddi_healthcheck.check_campaigns b2 tok2 m2 adv2 c2)
  /\ fst (koddi_healthcheck.check_entity_failures b1 tok1 m1 adv1 c1)
    = fst (koddi_healthcheck.check_entity_failures b2 tok2 m2 adv2 c2)
  /\ fst (koddi_healthcheck.check_active_bidders b1 tok1 m1 c1)
    = fst (koddi_healthcheck.check_active_bidders b2 tok2 m2 c2)
  /\ fst (koddi_healthcheck.check_attributable_entities b1 tok1 m1 c1)
    = fst (koddi_healthcheck.check_attributable_entities b2 tok2 m2 c2)
  /\ fst (koddi_healthcheck.check_winning_ads cn sid1 ex1 c1)
    = fst (koddi_healthcheck.check_winning_ads cn sid2 ex2 c2)
  /\ fst (app.check_auth b1 e1 p1 m1 c1)
  = fst (app.check_auth b2 e2 p2 m2 c2)
  /\ fst (app.check_advertiser b1 tok1 m1 adv1 c1)
    = fst (app.check_advertiser b2 tok2 m2 adv2 c2)
  /\ fst (app.check_campaigns b1 tok1 m1 adv1 c1)
    = fst (app.check_campaigns b2 tok2 m2 adv2 c2)
  /\ fst (app.check_entity_failures b1 tok1 m1 adv1 c1)
    = fst (app.check_entity_failures b2 tok2 m2 adv2 c2)
  /\ fst (app.check_active_bidders b1 tok1 m1 c1)
    = fst (app.check_active_bidders b2 tok2 m2 c2)
  /\ fst (app.check_attributable_entities b1 tok1 m1 c1)
    = fst (app.check_attributable_entities b2 tok2 m2 c2)
  /\ fst (app.check_winning_ads cn sid1 ex1 c1)
    = fst (app.check_winning_ads cn sid2 ex2 c2).
Proof.
  cbv zeta.
  apply (@classifiers_are_pure sample_runtime (inr no_campaigns)
           (new_client (fun _ _ => inr no_campaigns))
           (record_call
              (login_request "https://example.org" "amy@company.com" "pw" 1)
              (new_client (fun _ _ => inr no_campaigns)))
           "https://koddi.io/console/v1" "https://example.org"
           "bob@company.com" "amy@company.com" "secret" "pw"
           (PStr "abc") (PStr "xyz") 1234 1 5678 2 "myretailer" "homepage"
           "search" None (Some "Sponsored Products"));
    intros req; reflexivity.
Defined.

(** The claim C6 as stated fails for Check 1: on the rejected login of the
    spec's scenario B its details start with "Login failed — code", not with
    "Error". *)
Lemma login_error_is_not_an_Error_detail :
  answer (koddi_healthcheck.check_auth "https://koddi.io/console/v1"
            "bob@company.com" "secret" 1234) (inr login_rejected)
  = inr (check_result 1 "Authentication" FAIL
           "Login failed — code E401: bad credentials", PNone)
  /\ ~ (exists tok,
          answer (koddi_healthcheck.check_auth "https://koddi.io/console/v1"
                    "bob@company.com" "secret" 1234) (inr login_rejected)
          = inr (check_result 1 "Authentication" FAIL
                   "Error E401: bad credentials", tok)).
Proof.
  split; [reflexivity |].
  intros [tok E]. vm_compute in E. discriminate E.
Qed.

(** The claim C7 as stated fails for Check 1: when the API host koddi.io
    cannot be reached, the details are a fixed text that names no host. *)
Lemma login_connection_error_names_no_host :
  answer (koddi_healthcheck.check_auth "https://koddi.io/console/v1"
            "bob@company.com" "secret" 1234)
    (inl (ConnectError "All connection attempts failed"))
  = inr (check_result 1 "Authentication" FAIL
           "Connection error — cannot reach API", PNone)
  /\ ~ (exists r tok,
          answer (koddi_healthcheck.check_auth "https://koddi.io/console/v1"
                    "bob@company.com" "secret" 1234)
            (inl (ConnectError "All connection attempts failed"))
          = inr (r, tok)
          /\ contains "koddi.io" (details r) = true).
Proof.
  split; [reflexivity |].
  intros (r & tok & E & Hc). vm_compute in E. injection E as <- <-.
  vm_compute in Hc. discriminate Hc.
Qed.

(** The claim C8 as stated fails in the command-line tool: on the empty
    report of the spec's scenario C the details of the warning are not
    "Zero campaigns found for this advertiser" but that text after a
    warning sign. *)
Lemma cli_zero_campaigns_detail_has_a_warning_sign :
  answer (koddi_healthcheck.check_campaigns "https://koddi.io/console/v1"
            (PStr "abc") 1234 5678) (inr no_campaigns)
  = inr (check_result 3 "Campaigns Report" WARN
           "⚠️  Zero campaigns found for this advertiser")
  /\ answer (koddi_healthcheck.check_campaigns "https://koddi.io/console/v1"
               (PStr "abc") 1234 5678) (inr no_campaigns)
     <> inr (check_result 3 "Campaigns Report" WARN
               "Zero campaigns found for this advertiser").
Proof.
  split; [reflexivity |].
  intros E. vm_compute in E. discriminate E.
Qed.

(** The claim C10 as stated fails: on the same configuration and the same
    sequence of responses the two orchestrators return different lists,
    the details of the third result differ. *)
Lemma front_ends_differ_on_a_warning :
  exists out c rs c',
    koddi_healthcheck.main (scripted empty_advertiser) sample_args
    = (inr out, c)
    /\ app.run_checks (scripted empty_advertiser) sample_args = (inr rs, c')
    /\ map status (out_results out) = map status rs
    /\ nth_error (map details (out_results out)) 2
       = Some "⚠️  Zero campaigns found for this advertiser"
    /\ nth_error (map details rs) 2
       = Some "Zero campaigns found for this advertiser"
    /\ out_results out <> rs.
Proof.
  do 4 eexists.
  split; [vm_compute; reflexivity |].
  split; [vm_compute; reflexivity |].
  split; [reflexivity |].
  split; [reflexivity |].
  split; [reflexivity |].
  intros E. apply (f_equal (fun l => nth_error (map details l) 2)) in E.
  vm_compute in E. discriminate E.
Qed.

(** ** The scenarios of the specification *)

(** Scenario A: a successful login passes and carries the token. *)
Example scenario_A_login_passes :
  answer (koddi_healthcheck.check_auth "https://koddi.io/console/v1"
            "bob@company.com" "secret" 1234) login_success
  = inr (check_result 1 "Authentication" PASS "Authenticated successfully",
         PStr "abc").
Proof. reflexivity. Qed.

(** Scenario D: an auction engine answering HTTP 503 fails Check 7. *)
Example scenario_D_auction_unavailable :
  exists r,
    answer (koddi_healthcheck.check_winning_ads "myretailer" "homepage" None)
      (inr {| status_code := 503; json := inl "Expecting value" |}) = inr r
    /\ status r = FAIL /\ contains "HTTP 503" (details r) = true.
Proof. eexists. repeat split; reflexivity. Qed.

(** A success envelope whose campaigns are not objects is neither a warning
    nor a pass: the loop raises and Check 3 fails. *)
Example campaigns_that_are_not_objects_fail :
  answer (koddi_healthcheck.check_campaigns "https://koddi.io/console/v1"
            (PStr "abc") 1234 5678)
    (ok_response
       (PDict [ ("status", PStr "success");
                ("result", PDict [ ("campaigns", PList [PInt 5]);
                                   ("total", PInt 1) ]) ]))
  = inr (check_result 3 "Campaigns Report" FAIL
           "Unexpected error: 'int' object has no attribute 'get'").
Proof. reflexivity. Qed.

(** An empty experience name goes into the auction request of the
    command-line tool and is left out by the web front end. *)
Example empty_experience_name_is_sent_by_the_cli_only :
  auction_request "myretailer" "homepage" (Some "")
  <> auction_request "myretailer" "homepage" (web_experience (Some "")).
Proof. discriminate. Qed.

(** ** The further properties at sample inputs *)

(** X10 at a connection error of Check 7. *)
Lemma short_details_are_shown_whole_witness :
  let d := "Connection error — cannot reach myretailer.koddi.io" in
  koddi_healthcheck.short_detail d = d.
Proof.
  cbv zeta.
  apply (@short_details_are_shown_whole 
           ("Connection error — cannot reach myretailer.koddi.io"));
    [reflexivity | intros Hgt; discriminate Hgt].
Defined.

(** X11 at the failure of Check 7 on HTTP 503. *)
Lemma long_details_are_cut_witness :
  let d := "HTTP 503 — auction engine may be misconfigured or client 'myretailer' is not provisioned" in
  koddi_healthcheck.short_detail d = str_slice_to 57 (first_line d) ++ "..."
  /\ str_len (koddi_healthcheck.short_detail d) = 60
  /\ firstn 57 (utf8_chars (koddi_healthcheck.short_detail d))
     = firstn 57 (utf8_chars (first_line d)).
Proof.
  cbv zeta.
  apply (@long_details_are_cut 
           ("HTTP 503 — auction engine may be misconfigured or client 'myretailer' is not provisioned"));
    reflexivity.
Defined.

(** X12 at the login of scenario A. *)
Lemma login_token_classification_witness :
  let resp := {| status_code := 200; json := inr (PDict ([("status", PStr "success"); ("result", PDict ([("token", PDict [("id_token", PStr "abc")])]))])) |} in
  let kvs := [("status", PStr "success"); ("result", PDict ([("token", PDict [("id_token", PStr "abc")])]))] in
  let result := [("token", PDict [("id_token", PStr "abc")])] in
  let token := [("id_token", PStr "abc")] in
  let b := "https://koddi.io/console/v1" in
  let e := "bob@company.com" in
  let p := "secret" in
  let m := 1234 in
  answer (koddi_healthcheck.check_auth b e p m) (inr resp)
  = inr (let id_token := dict_get token "id_token" PNone in
         if py_truthy id_token then
           (check_result 1 "Authentication" PASS "Authenticated successfully",
            id_token)
         else
           (check_result 1 "Authentication" FAIL "No id_token in response",
            PNone))
  /\ answer (app.check_auth b e p m) (inr resp)
     = answer (koddi_healthcheck.check_auth b e p m) (inr resp).
Proof.
  cbv zeta.
  apply (@login_token_classification sample_runtime 
           ({| status_code := 200; json := inr (PDict ([("status", PStr "success"); ("result", PDict ([("token", PDict [("id_token", PStr "abc")])]))])) |})
           ([("status", PStr "success"); ("result", PDict ([("token", PDict [("id_token", PStr "abc")])]))])
           ([("token", PDict [("id_token", PStr "abc")])])
           ([("id_token", PStr "abc")])
           ("https://koddi.io/console/v1")
           ("bob@company.com")
           ("secret")
           (1234));
    reflexivity.
Defined.

(** X13 at a success envelope with a null result. *)
Lemma a_result_that_is_not_an_object_fails_witness :
  let resp := {| status_code := 200; json := inr (PDict ([("status", PStr "success"); ("result", PNone)])) |} in
  let kvs := [("status", PStr "success"); ("result", PNone)] in
  let v := PNone in
  let b := "https://koddi.io/console/v1" in
  let e := "bob@company.com" in
  let p := "secret" in
  let tok := PStr "abc" in
  let m := 1234 in
  let adv := 5678 in
  answer (koddi_healthcheck.check_auth b e p m) (inr resp)
  = inr (check_result 1 "Authentication" FAIL
           ("Unexpected error: '" ++ py_type_name v
              ++ "' object has no attribute 'get'"),
         PNone)
  /\ answer (koddi_healthcheck.check_advertiser b tok m adv) (inr resp)
    = inr (check_result 2 "Advertiser Exists" FAIL
             ("Unexpected error: '" ++ py_type_name v
              ++ "' object has no attribute 'get'"))
  /\ answer (koddi_healthcheck.check_campaigns b tok m adv) (inr resp)
    = inr (check_result 3 "Campaigns Report" FAIL
             ("Unexpected error: '" ++ py_type_name v
              ++ "' object has no attribute 'get'"))
  /\ answer (koddi_healthcheck.check_entity_failures b tok m adv) (inr resp)
    = inr (check_result 4 "Entity Registration Failures" FAIL
             ("Unexpected error: '" ++ py_type_name v
              ++ "' object has no attribute 'get'"))
  /\ answer (koddi_healthcheck.check_active_bidders b tok m) (inr resp)
    = inr (check_result 5 "Active Bidders Cache" FAIL
             ("Unexpected error: '" ++ py_type_name v
              ++ "' object has no attribute 'get'"))
  /\ answer (koddi_healthcheck.check_attributable_entities b tok m) (inr resp)
    = inr (check_result 6 "Attributable Entities Cache" FAIL
             ("Unexpected error: '" ++ py_type_name v
              ++ "' object has no attribute 'get'"))
  /\ answer (app.check_auth b e p m) (inr resp)
  = inr (check_result 1 "Authentication" FAIL
           ("Unexpected error: '" ++ py_type_name v
              ++ "' object has no attribute 'get'"),
         PNone)
  /\ answer (app.check_advertiser b tok m adv) (inr resp)
    = inr (check_result 2 "Advertiser Exists" FAIL
             ("Unexpected error: '" ++ py_type_name v
              ++ "' object has no attribute 'get'"))
  /\ answer (app.check_campaigns b tok m adv) (inr resp)
    = inr (check_result 3 "Campaigns Report" FAIL
             ("Unexpected error: '" ++ py_type_name v
              ++ "' object has no attribute 'get'"))
  /\ answer (app.check_entity_failures b tok m adv) (inr resp)
    = inr (check_result 4 "Entity Registration Failures" FAIL
             ("Unexpected error: '" ++ py_type_name v
              ++ "' object has no attribute 'get'"))
  /\ answer (app.check_active_bidders b tok m) (inr resp)
    = inr (check_result 5 "Active Bidders Cache" FAIL
             ("Unexpected error: '" ++ py_type_name v
              ++ "' object has no attribute 'get'"))
  /\ answer (app.check_attributable_entities b tok m) (inr resp)
    = inr (check_result 6 "Attributable Entities Cache" FAIL
             ("Unexpected error: '" ++ py_type_name v
              ++ "' object has no attribute 'get'")).
Proof.
  cbv zeta.
  apply (@a_result_that_is_not_an_object_fails sample_runtime 
           ({| status_code := 200; json := inr (PDict ([("status", PStr "success"); ("result", PNone)])) |})
           ([("status", PStr "success"); ("result", PNone)])
           (PNone)
           ("https://koddi.io/console/v1")
           ("bob@company.com")
           ("secret")
           (PStr "abc")
           (1234)
           (5678));
    first [reflexivity | intros l; discriminate].
Defined.

(** X14 at a response whose document is an empty list. *)
Lemma a_document_that_is_not_an_object_fails_witness :
  let resp := {| status_code := 200; json := inr (PList []) |} in
  let v := PList [] in
  let b := "https://koddi.io/console/v1" in
  let e := "bob@company.com" in
  let p := "secret" in
  let tok := PStr "abc" in
  let m := 1234 in
  let adv := 5678 in
  let cn := "myretailer" in
  let sid := "homepage" in
  let ex := @None string in
  answer (koddi_healthcheck.check_auth b e p m) (inr resp)
  = inr (check_result 1 "Authentication" FAIL
           ("Unexpected error: '" ++ py_type_name v
              ++ "' object has no attribute 'get'"),
         PNone)
  /\ answer (koddi_healthcheck.check_advertiser b tok m adv) (inr resp)
    = inr (check_result 2 "Advertiser Exists" FAIL
             ("Unexpected error: '" ++ py_type_name v
              ++ "' object has no attribute 'get'"))
  /\ answer (koddi_healthcheck.check_campaigns b tok m adv) (inr resp)
    = inr (check_result 3 "Campaigns Report" FAIL
             ("Unexpected error: '" ++ py_type_name v
              ++ "' object has no attribute 'get'"))
  /\ answer (koddi_healthcheck.check_entity_failures b tok m adv) (inr resp)
    = inr (check_result 4 "Entity Registration Failures" FAIL
             ("Unexpected error: '" ++ py_type_name v
              ++ "' object has no attribute 'get'"))
  /\ answer (koddi_healthcheck.check_active_bidders b tok m) (inr resp)
    = inr (check_result 5 "Active Bidders Cache" FAIL
             ("Unexpected error: '" ++ py_type_name v
              ++ "' object has no attribute 'get'"))
  /\ answer (koddi_healthcheck.check_attributable_entities b tok m) (inr resp)
    = inr (check_result 6 "Attributable Entities Cache" FAIL
             ("Unexpected error: '" ++ py_type_name v
              ++ "' object has no attribute 'get'"))
  /\ answer (koddi_healthcheck.check_winning_ads cn sid ex) (inr resp)
    = inr (check_result 7 "Winning Ads (Test Auction)" FAIL
             ("Unexpected error: '" ++ py_type_name v
              ++ "' object has no attribute 'get'"))
  /\ answer (app.check_auth b e p m) (inr resp)
  = inr (check_result 1 "Authentication" FAIL
           ("Unexpected error: '" ++ py_type_name v
              ++ "' object has no attribute 'get'"),
         PNone)
  /\ answer (app.check_advertiser b tok m adv) (inr resp)
    = inr (check_result 2 "Advertiser Exists" FAIL
             ("Unexpected error: '" ++ py_type_name v
              ++ "' object has no attribute 'get'"))
  /\ answer (app.check_campaigns b tok m adv) (inr resp)
    = inr (check_result 3 "Campaigns Report" FAIL
             ("Unexpected error: '" ++ py_type_name v
              ++ "' object has no attribute 'get'"))
  /\ answer (app.check_entity_failures b tok m adv) (inr resp)
    = inr (check_result 4 "Entity Registration Failures" FAIL
             ("Unexpected error: '" ++ py_type_name v
              ++ "' object has no attribute 'get'"))
  /\ answer (app.check_active_bidders b tok m) (inr resp)
    = inr (check_result 5 "Active Bidders Cache" FAIL
             ("Unexpected error: '" ++ py_type_name v
              ++ "' object has no attribute 'get'"))
  /\ answer (app.check_attributable_entities b tok m) (inr resp)
    = inr (check_result 6 "Attributable Entities Cache" FAIL
             ("Unexpected error: '" ++ py_type_name v
              ++ "' object has no attribute 'get'"))
  /\ answer (app.check_winning_ads cn sid ex) (inr resp)
    = inr (check_result 7 "Winning Ads (Test Auction)" FAIL
             ("Unexpected error: '" ++ py_type_name v
              ++ "' object has no attribute 'get'")).
Proof.
  cbv zeta.
  apply (@a_document_that_is_not_an_object_fails sample_runtime 
           ({| status_code := 200; json := inr (PList []) |})
           (PList [])
           ("https://koddi.io/console/v1")
           ("bob@company.com")
           ("secret")
           (PStr "abc")
           (1234)
           (5678)
           ("myretailer")
           ("homepage")
           (@None string));
    first [reflexivity | intros l; discriminate].
Defined.

(** X16 at an advertiser with a name and an entity count only. *)
Lemma advertiser_found_details_witness :
  let resp := {| status_code := 200; json := inr (PDict ([("status", PStr "success"); ("result", PDict ([("name", PStr "Acme"); ("entity_count", PInt 3)]))])) |} in
  let kvs := [("status", PStr "success"); ("result", PDict ([("name", PStr "Acme"); ("entity_count", PInt 3)]))] in
  let result := [("name", PStr "Acme"); ("entity_count", PInt 3)] in
  let b := "https://koddi.io/console/v1" in
  let tok := PStr "abc" in
  let m := 1234 in
  let adv := 5678 in
  answer (koddi_healthcheck.check_advertiser b tok m adv) (inr resp)
  = inr (check_result 2 "Advertiser Exists" PASS
           ("Found: " ++ py_str (dict_get result "name" (PStr "N/A"))
            ++ " | status=" ++ py_str (dict_get result "status" (PStr "N/A"))
            ++ " | entities="
            ++ py_str (dict_get result "entity_count" (PStr "N/A"))
            ++ " | currency="
            ++ py_str (dict_get result "currency_code" (PStr "N/A"))))
  /\ answer (app.check_advertiser b tok m adv) (inr resp)
     = inr (check_result 2 "Advertiser Exists" PASS
              ("Found: " ++ py_str (dict_get result "name" (PStr "N/A"))
               ++ " | status=" ++ py_str (dict_get result "status" (PStr "N/A"))
               ++ " | entities="
               ++ py_str (dict_get result "entity_count" (PStr "N/A"))
               ++ " | currency="
               ++ py_str (dict_get result "currency_code" (PStr "N/A")))).
Proof.
  cbv zeta.
  apply (@advertiser_found_details sample_runtime 
           ({| status_code := 200; json := inr (PDict ([("status", PStr "success"); ("result", PDict ([("name", PStr "Acme"); ("entity_count", PInt 3)]))])) |})
           ([("status", PStr "success"); ("result", PDict ([("name", PStr "Acme"); ("entity_count", PInt 3)]))])
           ([("name", PStr "Acme"); ("entity_count", PInt 3)])
           ("https://koddi.io/console/v1")
           (PStr "abc")
           (1234)
           (5678));
    reflexivity.
Defined.

(** X17 at a report with a registration and no total. *)
Lemma no_total_means_no_registration_failure_witness :
  let resp := {| status_code := 200; json := inr (PDict ([("status", PStr "success"); ("result", PDict ([("entity_registrations", PList [PDict []])]))])) |} in
  let kvs := [("status", PStr "success"); ("result", PDict ([("entity_registrations", PList [PDict []])]))] in
  let result := [("entity_registrations", PList [PDict []])] in
  let b := "https://koddi.io/console/v1" in
  let tok := PStr "abc" in
  let m := 1234 in
  let adv := 5678 in
  answer (koddi_healthcheck.check_entity_failures b tok m adv) (inr resp)
  = inr (check_result 4 "Entity Registration Failures" PASS
           "No entity registration failures")
  /\ answer (app.check_entity_failures b tok m adv) (inr resp)
     = inr (check_result 4 "Entity Registration Failures" PASS
              "No entity registration failures").
Proof.
  cbv zeta.
  apply (@no_total_means_no_registration_failure sample_runtime 
           ({| status_code := 200; json := inr (PDict ([("status", PStr "success"); ("result", PDict ([("entity_registrations", PList [PDict []])]))])) |})
           ([("status", PStr "success"); ("result", PDict ([("entity_registrations", PList [PDict []])]))])
           ([("entity_registrations", PList [PDict []])])
           ("https://koddi.io/console/v1")
           (PStr "abc")
           (1234)
           (5678));
    reflexivity.
Defined.

(** X18 at a report of two failed registrations. *)
Lemma registration_failures_list_the_first_five_witness :
  let resp := {| status_code := 200; json := inr (PDict ([("status", PStr "success"); ("result", PDict ([("total", PInt 2); ("entity_registrations", PList (map PDict ([ [("error_code", PStr "E1"); ("error_message", PStr "bad entity")]; [] ])))]))])) |} in
  let kvs := [("status", PStr "success"); ("result", PDict ([("total", PInt 2); ("entity_registrations", PList (map PDict ([ [("error_code", PStr "E1"); ("error_message", PStr "bad entity")]; [] ])))]))] in
  let result := [("total", PInt 2); ("entity_registrations", PList (map PDict ([ [("error_code", PStr "E1"); ("error_message", PStr "bad entity")]; [] ])))] in
  let registrations := [ [("error_code", PStr "E1"); ("error_message", PStr "bad entity")]; [] ] in
  let b := "https://koddi.io/console/v1" in
  let tok := PStr "abc" in
  let m := 1234 in
  let adv := 5678 in
  answer (koddi_healthcheck.check_entity_failures b tok m adv) (inr resp)
  = inr (check_result 4 "Entity Registration Failures" WARN
           (String.concat newline
              (("⚠️  " ++ py_str (dict_get result "total" (PInt 0))
                ++ " registration failure(s) found. First "
                ++ str_of_Z (Z.of_nat (Nat.min 5 (length registrations)))
                ++ ":")
               :: map failure_line (firstn 5 registrations))))
  /\ answer (app.check_entity_failures b tok m adv) (inr resp)
     = inr (check_result 4 "Entity Registration Failures" WARN
              (String.concat newline
                 ((py_str (dict_get result "total" (PInt 0))
                   ++ " registration failure(s) found. First "
                   ++ str_of_Z (Z.of_nat (Nat.min 5 (length registrations)))
                   ++ ":")
                  :: map failure_line (firstn 5 registrations)))).
Proof.
  cbv zeta.
  apply (@registration_failures_list_the_first_five sample_runtime 
           ({| status_code := 200; json := inr (PDict ([("status", PStr "success"); ("result", PDict ([("total", PInt 2); ("entity_registrations", PList (map PDict ([ [("error_code", PStr "E1"); ("error_message", PStr "bad entity")]; [] ])))]))])) |})
           ([("status", PStr "success"); ("result", PDict ([("total", PInt 2); ("entity_registrations", PList (map PDict ([ [("error_code", PStr "E1"); ("error_message", PStr "bad entity")]; [] ])))]))])
           ([("total", PInt 2); ("entity_registrations", PList (map PDict ([ [("error_code", PStr "E1"); ("error_message", PStr "bad entity")]; [] ])))])
           ([ [("error_code", PStr "E1"); ("error_message", PStr "bad entity")]; [] ])
           ("https://koddi.io/console/v1")
           (PStr "abc")
           (1234)
           (5678));
    reflexivity.
Defined.

(** X19 at a cache of one bidder. *)
Lemma active_bidders_classification_witness :
  let resp := {| status_code := 200; json := inr (PDict ([("status", PStr "success"); ("result", PDict ([("active_bidders", PList [PDict []])]))])) |} in
  let kvs := [("status", PStr "success"); ("result", PDict ([("active_bidders", PList [PDict []])]))] in
  let result := [("active_bidders", PList [PDict []])] in
  let cache := Some [PDict []] in
  let b := "https://koddi.io/console/v1" in
  let tok := PStr "abc" in
  let m := 1234 in
  answer (koddi_healthcheck.check_active_bidders b tok m) (inr resp)
  = inr (match cache with
         | Some (first :: others) =>
             check_result 5 "Active Bidders Cache" PASS
               (str_of_Z (Z.of_nat (S (length others)))
                ++ " active bidder(s) in cache")
         | _ =>
             check_result 5 "Active Bidders Cache" WARN
               "⚠️  Active bidders list is empty — no ad groups are active"
         end)
  /\ answer (app.check_active_bidders b tok m) (inr resp)
     = inr (match cache with
            | Some (first :: others) =>
                check_result 5 "Active Bidders Cache" PASS
                  (str_of_Z (Z.of_nat (S (length others)))
                   ++ " active bidder(s) in cache")
            | _ =>
                check_result 5 "Active Bidders Cache" WARN
                  "Active bidders list is empty — no ad groups are active"
            end).
Proof.
  cbv zeta.
  apply (@active_bidders_classification sample_runtime 
           ({| status_code := 200; json := inr (PDict ([("status", PStr "success"); ("result", PDict ([("active_bidders", PList [PDict []])]))])) |})
           ([("status", PStr "success"); ("result", PDict ([("active_bidders", PList [PDict []])]))])
           ([("active_bidders", PList [PDict []])])
           (Some [PDict []])
           ("https://koddi.io/console/v1")
           (PStr "abc")
           (1234));
    reflexivity.
Defined.

(** X20 at a cache of one entity. *)
Lemma attributable_entities_classification_witness :
  let resp := {| status_code := 200; json := inr (PDict ([("status", PStr "success"); ("result", PDict ([("attributable_entities", PList [PDict []])]))])) |} in
  let kvs := [("status", PStr "success"); ("result", PDict ([("attributable_entities", PList [PDict []])]))] in
  let result := [("attributable_entities", PList [PDict []])] in
  let cache := Some [PDict []] in
  let b := "https://koddi.io/console/v1" in
  let tok := PStr "abc" in
  let m := 1234 in
  answer (koddi_healthcheck.check_attributable_entities b tok m) (inr resp)
  = inr (match cache with
         | Some (first :: others) =>
             check_result 6 "Attributable Entities Cache" PASS
               (str_of_Z (Z.of_nat (S (length others)))
                ++ " attributable entit(ies) in cache")
         | _ =>
             check_result 6 "Attributable Entities Cache" WARN
               "⚠️  No attributable entities — conversions won't attribute"
         end)
  /\ answer (app.check_attributable_entities b tok m) (inr resp)
     = inr (match cache with
            | Some (first :: others) =>
                check_result 6 "Attributable Entities Cache" PASS
                  (str_of_Z (Z.of_nat (S (length others)))
                   ++ " attributable entit(ies) in cache")
            | _ =>
                check_result 6 "Attributable Entities Cache" WARN
                  "No attributable entities — conversions won't attribute"
            end).
Proof.
  cbv zeta.
  apply (@attributable_entities_classification sample_runtime 
           ({| status_code := 200; json := inr (PDict ([("status", PStr "success"); ("result", PDict ([("attributable_entities", PList [PDict []])]))])) |})
           ([("status", PStr "success"); ("result", PDict ([("attributable_entities", PList [PDict []])]))])
           ([("attributable_entities", PList [PDict []])])
           (Some [PDict []])
           ("https://koddi.io/console/v1")
           (PStr "abc")
           (1234));
    reflexivity.
Defined.

(** X21 at the HTTP 503 of scenario D. *)
Lemma auction_status_other_than_200_fails_witness :
  let resp := {| status_code := 503; json := inl "Expecting value" |} in
  let cn := "myretailer" in
  let sid := "homepage" in
  let ex := @None string in
  answer (koddi_healthcheck.check_winning_ads cn sid ex) (inr resp)
  = inr (check_result 7 "Winning Ads (Test Auction)" FAIL
           ("HTTP " ++ str_of_Z (status_code resp)
            ++ " — auction engine may be misconfigured or client '" ++ cn
            ++ "' is not provisioned"))
  /\ answer (app.check_winning_ads cn sid ex) (inr resp)
     = answer (koddi_healthcheck.check_winning_ads cn sid ex) (inr resp).
Proof.
  cbv zeta.
  apply (@auction_status_other_than_200_fails sample_runtime 
           ({| status_code := 503; json := inl "Expecting value" |})
           ("myretailer")
           ("homepage")
           (@None string));
    discriminate.
Defined.

(** X22 at one listing, in a document whose status field is not "success". *)
Lemma auction_counts_the_listings_witness :
  let resp := {| status_code := 200; json := inr (PDict ([("status", PStr "error"); ("sponsored_listings", PList [PDict []])])) |} in
  let kvs := [("status", PStr "error"); ("sponsored_listings", PList [PDict []])] in
  let listings := [PDict []] in
  let cn := "myretailer" in
  let sid := "homepage" in
  let ex := @None string in
  answer (koddi_healthcheck.check_winning_ads cn sid ex) (inr resp)
  = inr (check_result 7 "Winning Ads (Test Auction)" PASS
           (match listings with
            | [] =>
                "Auction responded OK — 0 listings (expected with empty bidders)"
            | _ :: _ =>
                "Auction responded OK — "
                ++ str_of_Z (Z.of_nat (length listings))
                ++ " sponsored listing(s) returned"
            end))
  /\ answer (app.check_winning_ads cn sid ex) (inr resp)
     = answer (koddi_healthcheck.check_winning_ads cn sid ex) (inr resp).
Proof.
  cbv zeta.
  apply (@auction_counts_the_listings sample_runtime 
           ({| status_code := 200; json := inr (PDict ([("status", PStr "error"); ("sponsored_listings", PList [PDict []])])) |})
           ([("status", PStr "error"); ("sponsored_listings", PList [PDict []])])
           ([PDict []])
           ("myretailer")
           ("homepage")
           (@None string));
    reflexivity.
Defined.

(** X23 at a run on the console in which all seven checks run and Check 3
    warns: the command-line orchestrator returns. *)
Lemma front_ends_send_the_same_requests_witness :
  let net := scripted empty_advertiser in
  let a := console_args in
  (exists out c,
     koddi_healthcheck.main net a = (inr out, c)
     /\ length (calls c) = 7%nat
     /\ nth_error (map status (out_results out)) 2 = Some WARN)
  /\ exists rs c',
       app.run_checks net a = (inr rs, c')
       /\ (forall out c,
             koddi_healthcheck.main net a = (inr out, c) ->
             calls c = calls c'
             /\ Forall2 same_up_to_warn_prefix (out_results out) rs)
       /\ (use_json a = true ->
           exists out c, koddi_healthcheck.main net a = (inr out, c)).
Proof.
  cbv zeta.
  split.
  { do 2 eexists. split; [vm_compute; reflexivity |].
    split; reflexivity. }
  apply (@front_ends_send_the_same_requests sample_runtime sample_console
           (scripted empty_advertiser) console_args).
  reflexivity.
Defined.

(** X24 at a form with the optional fields left empty. *)
Lemma the_form_never_sends_empty_fields_witness :
  let f := {| app.form_email := "bob@company.com";
              app.form_password := "secret";
              app.form_member_group_id := Some 1234;
              app.form_advertiser_id := Some 5678;
              app.form_client_name := "myretailer";
              app.form_site_id := "";
              app.form_experience_name := "";
              app.form_base_url := "https://koddi.io/console/v1";
              app.form_timeout := 30 |} in
  let a := {| email := "bob@company.com";
              password := "secret";
              member_group_id := 1234;
              advertiser_id := 5678;
              client_name := "myretailer";
              site_id := "homepage";
              experience_name := None;
              base_url := "https://koddi.io/console/v1";
              timeout := 30;
              use_json := false |} in
  email a <> "" /\ password a <> "" /\ client_name a <> ""
  /\ member_group_id a <> 0 /\ advertiser_id a <> 0
  /\ site_id a <> "" /\ experience_name a <> Some ""
  /\ web_experience (experience_name a) = experience_name a
  /\ (app.form_site_id f = "" -> site_id a = "homepage")
  /\ (app.form_experience_name f = "" -> experience_name a = None).
Proof.
  cbv zeta.
  apply (@the_form_never_sends_empty_fields 
           ({| app.form_email := "bob@company.com";
              app.form_password := "secret";
              app.form_member_group_id := Some 1234;
              app.form_advertiser_id := Some 5678;
              app.form_client_name := "myretailer";
              app.form_site_id := "";
              app.form_experience_name := "";
              app.form_base_url := "https://koddi.io/console/v1";
              app.form_timeout := 30 |})
           ({| email := "bob@company.com";
              password := "secret";
              member_group_id := 1234;
              advertiser_id := 5678;
              client_name := "myretailer";
              site_id := "homepage";
              experience_name := None;
              base_url := "https://koddi.io/console/v1";
              timeout := 30;
              use_json := false |}));
    reflexivity.
Defined.

(** X26 at a run on the console in which every call times out: the
    command-line tool returns. *)
Lemma auth_failure_skips_checks_2_to_6_witness :
  let net := timing_out in
  let a := console_args in
  let r1 := check_result 1 "Authentication" FAIL "Request timed out" in
  (exists out c, koddi_healthcheck.main net a = (inr out, c))
  /\ exists s2 s3 s4 s5 s6 r7 r7',
       (forall out c,
          koddi_healthcheck.main net a = (inr out, c) ->
          c = {| transport := net;
                 calls := [ login_request (rstrip_slash (base_url a))
                              (email a) (password a) (member_group_id a);
                            auction_request (client_name a) (site_id a)
                              (experience_name a) ] |}
          /\ out_results out = [r1; s2; s3; s4; s5; s6; r7])
       /\ (use_json a = true ->
           exists out c, koddi_healthcheck.main net a = (inr out, c))
       /\ app.run_checks net a
          = (inr [r1; s2; s3; s4; s5; s6; r7'],
             {| transport := net;
                calls := [ login_request (rstrip_slash (base_url a))
                             (email a) (password a) (member_group_id a);
                           auction_request (client_name a) (site_id a)
                             (web_experience (experience_name a)) ] |})
       /\ skipped_naming "authentication failed" 2 s2
       /\ skipped_naming "authentication failed" 3 s3
       /\ skipped_naming "authentication failed" 4 s4
       /\ skipped_naming "authentication failed" 5 s5
       /\ skipped_naming "authentication failed" 6 s6
       /\ executed 7 r7 /\ executed 7 r7'.
Proof.
  cbv zeta.
  split; [do 2 eexists; vm_compute; reflexivity |].
  apply (@auth_failure_skips_checks_2_to_6 sample_runtime sample_console
           timing_out console_args
           (check_result 1 "Authentication" FAIL "Request timed out") PNone);
    [reflexivity | left; reflexivity].
Defined.

(** X27 at a run on the console in which the login succeeds and the network
    then goes down: the command-line tool returns. *)
Lemma advertiser_failure_skips_checks_3_and_4_witness :
  let net := advertiser_down in
  let a := console_args in
  let tok := PStr "abc" in
  let r1 := check_result 1 "Authentication" PASS "Authenticated successfully" in
  let r2 := check_result 2 "Advertiser Exists" FAIL "Connection error" in
  (exists out c, koddi_healthcheck.main net a = (inr out, c))
  /\ exists s3 s4 r5 r6 r7 r5' r6' r7',
       (forall out c,
          koddi_healthcheck.main net a = (inr out, c) ->
          c = {| transport := net;
                 calls := [ login_request (rstrip_slash (base_url a))
                              (email a) (password a) (member_group_id a);
                            advertiser_request (rstrip_slash (base_url a)) tok
                              (member_group_id a) (advertiser_id a);
                            active_bidders_request (rstrip_slash (base_url a))
                              tok (member_group_id a);
                            attributable_entities_request
                              (rstrip_slash (base_url a)) tok
                              (member_group_id a);
                            auction_request (client_name a) (site_id a)
                              (experience_name a) ] |}
          /\ out_results out = [r1; r2; s3; s4; r5; r6; r7])
       /\ (use_json a = true ->
           exists out c, koddi_healthcheck.main net a = (inr out, c))
       /\ app.run_checks net a
          = (inr [r1; r2; s3; s4; r5'; r6'; r7'],
             {| transport := net;
                calls := [ login_request (rstrip_slash (base_url a))
                             (email a) (password a) (member_group_id a);
                           advertiser_request (rstrip_slash (base_url a)) tok
                             (member_group_id a) (advertiser_id a);
                           active_bidders_request (rstrip_slash (base_url a))
                             tok (member_group_id a);
                           attributable_entities_request
                             (rstrip_slash (base_url a)) tok
                             (member_group_id a);
                           auction_request (client_name a) (site_id a)
                             (web_experience (experience_name a)) ] |})
       /\ skipped_naming "advertiser check failed" 3 s3
       /\ skipped_naming "advertiser check failed" 4 s4
       /\ executed 5 r5 /\ executed 6 r6 /\ executed 7 r7
       /\ executed 5 r5' /\ executed 6 r6' /\ executed 7 r7'.
Proof.
  cbv zeta.
  split; [do 2 eexists; vm_compute; reflexivity |].
  apply (@advertiser_failure_skips_checks_3_and_4 sample_runtime
           sample_console advertiser_down console_args
           (check_result 1 "Authentication" PASS "Authenticated successfully")
           (check_result 2 "Advertiser Exists" FAIL "Connection error")
           (PStr "abc"));
    [reflexivity | discriminate | reflexivity | reflexivity].
Defined.

(** X28, X29 and X30 at a run on the console of an account in which every
    check passes: the command-line tool returns, with seven results, the
    verdict "pass" and the exit code 0. *)
Lemma check_7_always_executed_witness :
  let net := scripted (healthy_account "Summer sale") in
  let a := console_args in
  exists out c rs r7 cs,
    koddi_healthcheck.main net a = (inr out, c)
    /\ out_results out = (rs ++ [r7])%list /\ length rs = 6%nat
    /\ executed 7 r7
    /\ calls c = (cs ++ [auction_request (client_name a) (site_id a)
                           (experience_name a)])%list.
Proof.
  cbv zeta.
  assert (Hrun : exists out c,
             koddi_healthcheck.main (scripted (healthy_account "Summer sale"))
               console_args = (inr out, c))
    by (do 2 eexists; vm_compute; reflexivity).
  destruct Hrun as (out & c & Hrun).
  destruct (@check_7_always_executed sample_runtime sample_console
              (scripted (healthy_account "Summer sale")) console_args)
    as [Hany _].
  destruct (Hany out c Hrun) as (rs & r7 & cs & Hrs & Hlen & P7 & Hcalls).
  exists out, c, rs, r7, cs. repeat split; try assumption; apply P7.
Defined.

Lemma verdict_and_exit_code_witness :
  let net := scripted (healthy_account "Summer sale") in
  let a := console_args in
  exists out c,
    koddi_healthcheck.main net a = (inr out, c)
    /\ length (out_results out) = 7%nat
    /\ py_get (koddi_healthcheck.results_to_json (out_results out))
         "overall" PNone = inr (PStr "pass")
    /\ exit_code out = 0.
Proof.
  cbv zeta.
  assert (Hrun : exists out c,
             koddi_healthcheck.main (scripted (healthy_account "Summer sale"))
               console_args = (inr out, c)
             /\ exit_code out = 0)
    by (do 2 eexists; split; [vm_compute; reflexivity | reflexivity]).
  destruct Hrun as (out & c & Hrun & Hcode).
  destruct (@verdict_and_exit_code sample_runtime sample_console
              (scripted (healthy_account "Summer sale")) console_args)
    as [Hany _].
  destruct (Hany out c Hrun) as (verdict & Hlen & Hdoc & _ & _ & Hpass & _).
  exists out, c.
  split; [exact Hrun |].
  split; [exact Hlen |].
  split; [| exact Hcode].
  rewrite Hdoc. destruct Hpass as [Hpass _].
  rewrite (Hpass Hcode). reflexivity.
Defined.

Lemma seven_results_in_order_witness :
  let net := scripted (healthy_account "Summer sale") in
  let a := console_args in
  exists out c,
    koddi_healthcheck.main net a = (inr out, c)
    /\ map number (out_results out) = [1; 2; 3; 4; 5; 6; 7].
Proof.
  cbv zeta.
  assert (Hrun : exists out c,
             koddi_healthcheck.main (scripted (healthy_account "Summer sale"))
               console_args = (inr out, c))
    by (do 2 eexists; vm_compute; reflexivity).
  destruct Hrun as (out & c & Hrun).
  destruct (@seven_results_in_order sample_runtime sample_console
              (scripted (healthy_account "Summer sale")) console_args)
    as [Hany _].
  exists out, c. split; [exact Hrun | exact (Hany out c Hrun)].
Defined.

(** X1 to X4 at a run on the console in which all seven checks run and
    Check 3 warns: the command-line tool returns. *)
Lemma token_is_replayed_verbatim_witness :
  let net := scripted empty_advertiser in
  let a := console_args in
  (exists out c, koddi_healthcheck.main net a = (inr out, c))
  /\ exists r1 tok rs c' mid mid',
       fst (koddi_healthcheck.check_auth (rstrip_slash (base_url a)) (email a)
              (password a) (member_group_id a) (new_client net))
       = inr (r1, tok)
       /\ app.run_checks net a = (inr rs, c')
       /\ (forall out c,
             koddi_healthcheck.main net a = (inr out, c) ->
             calls c
             = (login_request (rstrip_slash (base_url a)) (email a)
                  (password a) (member_group_id a)
                :: mid
                ++ [auction_request (client_name a) (site_id a)
                      (experience_name a)])%list)
       /\ (use_json a = true ->
           exists out c, koddi_healthcheck.main net a = (inr out, c))
       /\ calls c'
          = (login_request (rstrip_slash (base_url a)) (email a) (password a)
               (member_group_id a)
             :: mid'
             ++ [auction_request (client_name a) (site_id a)
                   (web_experience (experience_name a))])%list
       /\ headers (login_request (rstrip_slash (base_url a)) (email a)
                     (password a) (member_group_id a)) = []
       /\ (forall experience,
             headers (auction_request (client_name a) (site_id a) experience)
             = [])
       /\ Forall (fun req => headers req = [("Authorization", tok)]) mid
       /\ Forall (fun req => headers req = [("Authorization", tok)]) mid'.
Proof.
  cbv zeta.
  split; [do 2 eexists; vm_compute; reflexivity |].
  apply (@token_is_replayed_verbatim sample_runtime sample_console
           (scripted empty_advertiser) console_args).
Defined.

Lemma one_call_per_executed_check_witness :
  let net := scripted empty_advertiser in
  let a := console_args in
  exists out c,
    koddi_healthcheck.main net a = (inr out, c)
    /\ length (calls c)
       = length (filter (fun r => negb (Status_eqb (status r) SKIPPED))
                   (out_results out))
    /\ (length (calls c) = 2 \/ length (calls c) = 5
        \/ length (calls c) = 7)%nat.
Proof.
  cbv zeta.
  assert (Hrun : exists out c,
             koddi_healthcheck.main (scripted empty_advertiser) console_args
             = (inr out, c))
    by (do 2 eexists; vm_compute; reflexivity).
  destruct Hrun as (out & c & Hrun).
  destruct (@one_call_per_executed_check sample_runtime sample_console
              (scripted empty_advertiser) console_args) as [Hany _].
  exists out, c. split; [exact Hrun | exact (Hany out c Hrun)].
Defined.

Lemma a_skipped_check_means_failure_witness :
  let net := advertiser_down in
  let a := console_args in
  exists out c,
    koddi_healthcheck.main net a = (inr out, c)
    /\ Exists (fun r => status r = SKIPPED) (out_results out)
    /\ exit_code out = 1
    /\ Exists (fun r => status r = FAIL /\ (number r = 1 \/ number r = 2))
         (out_results out).
Proof.
  cbv zeta.
  assert (Hrun : exists out c,
             koddi_healthcheck.main advertiser_down console_args = (inr out, c)
             /\ Exists (fun r => status r = SKIPPED) (out_results out))
    by (do 2 eexists; split;
        [vm_compute; reflexivity
        | apply Exists_cons_tl, Exists_cons_tl, Exists_cons_hd; reflexivity]).
  destruct Hrun as (out & c & Hrun & Hskip).
  destruct (@a_skipped_check_means_failure sample_runtime sample_console
              advertiser_down console_args) as [Hany _].
  destruct (Hany out c Hrun) as [Hfail _].
  exists out, c. split; [exact Hrun |]. split; [exact Hskip |].
  exact (Hfail Hskip).
Defined.

Lemma warnings_come_from_checks_3_to_6_witness :
  let net := scripted empty_advertiser in
  let a := console_args in
  exists out c,
    koddi_healthcheck.main net a = (inr out, c)
    /\ Exists (fun r => status r = WARN) (out_results out)
    /\ Forall (fun r => (status r = WARN -> 3 <= number r <= 6)
                        /\ (status r = SKIPPED -> 2 <= number r <= 6))
         (out_results out).
Proof.
  cbv zeta.
  assert (Hrun : exists out c,
             koddi_healthcheck.main (scripted empty_advertiser) console_args
             = (inr out, c)
             /\ Exists (fun r => status r = WARN) (out_results out))
    by (do 2 eexists; split;
        [vm_compute; reflexivity
        | apply Exists_cons_tl, Exists_cons_tl, Exists_cons_hd; reflexivity]).
  destruct Hrun as (out & c & Hrun & Hwarn).
  destruct (@warnings_come_from_checks_3_to_6 sample_runtime sample_console
              (scripted empty_advertiser) console_args) as [Hany _].
  exists out, c. split; [exact Hrun |]. split; [exact Hwarn |].
  exact (Hany out c Hrun).
Defined.
